(** * Sercomm: serial message generator and parser

    A shallow embedding of [sc_make_message] and [sc_get_message] together
    with their helpers ([put_field], [get_field], [shift_message]) and the
    properties of the framing protocol that follow from the code.

    Conventions of the embedding.
    - C objects reached through a pointer ([output], [msg], [sc->buffer],
      [sc->frame_start]) are memories: total maps from an offset to the
      [unsigned char] stored there.  A pointer into such an object is an
      offset.  The code never consults [buffer_size] or any other bound, so
      the maps are unbounded as well.
    - [uint8_t] and [uint32_t] values are integers, and every C operation
      that can wrap is followed by the reduction modulo 2^8 or 2^32.
    - Callbacks are values: the timestamp writer is the list of bytes it
      stores, the hasher is a function from the hashed bytes to the bytes
      it stores at [hashptr], and command handlers and the reset routine
      are named by a number and leave an event in the trace when called.
      Handlers and the reset routine do not write to [struct sercomm] or
      to its buffer. *)

From Stdlib Require Import ZArith List Bool Lia.
Import ListNotations.
Local Open Scope Z_scope.

(** ** Machine integers *)

Definition UINT8_MAX : Z := 255.
Definition UINT32_MAX : Z := 4294967295.
Definition SERCOMM_IGNORE_MSG_VALID_LENGTH : Z := UINT32_MAX.
Definition SERCOMM_OMIT_RESET : Z := UINT8_MAX.

Definition u8 (x : Z) : Z := x mod 256.
Definition u16 (x : Z) : Z := x mod 65536.
Definition u32 (x : Z) : Z := x mod 4294967296.

(** ** Memories *)

Definition mem : Type := Z -> Z.

Definition upd (m : mem) (i v : Z) : mem :=
  fun j => if j =? i then v else m j.

(** [memcpy (dst + d) (src + s) n] *)
Definition memcpy (dst : mem) (d : Z) (src : mem) (s n : Z) : mem :=
  fun j => if (d <=? j) && (j <? d + n) then src (s + (j - d)) else dst j.

(** [memset (dst + d) c n] *)
Definition memset (dst : mem) (d c n : Z) : mem :=
  fun j => if (d <=? j) && (j <? d + n) then c else dst j.

(** What a callback leaves behind when it stores the bytes [l] at [dst + d]. *)
Definition store_bytes (dst : mem) (d : Z) (l : list Z) : mem :=
  fun j =>
    if (d <=? j) && (j <? d + Z.of_nat (length l))
    then nth (Z.to_nat (j - d)) l 0
    else dst j.

(** The [n] bytes a callback sees at [m + off]. *)
Definition read (m : mem) (off n : Z) : list Z :=
  map (fun i => m (off + Z.of_nat i)) (seq 0 (Z.to_nat n)).

Fixpoint memcmp_loop (a : mem) (ao : Z) (b : mem) (bo : Z) (n : nat) : Z :=
  match n with
  | O => 0
  | S n' =>
      if a ao =? b bo
      then memcmp_loop a (ao + 1) b (bo + 1) n'
      else a ao - b bo
  end.

(** [memcmp (a + ao) (b + bo) n]: zero exactly when the ranges agree. *)
Definition memcmp (a : mem) (ao : Z) (b : mem) (bo n : Z) : Z :=
  memcmp_loop a ao b bo (Z.to_nat n).

Definition mem_of_list (l : list Z) : mem :=
  fun j => if j <? 0 then 0 else nth (Z.to_nat j) l 0.

(** ** Callbacks, configuration and decoder state *)

Definition ts_fn : Type := list Z.
Definition hash_fn : Type := list Z -> list Z.
Definition callback : Type := nat.

(** [struct sercomm]: the layout of the frames and, in the last fields,
    the progress of the decoder. *)
Record sercomm : Type := mk_sercomm {
  cmd_bytes : Z;
  ts_bytes : Z;
  ts : option ts_fn;
  len_bytes : Z;
  hash_bytes : Z;
  hash : option hash_fn;
  comm_ctrl_bytes : Z;
  frame_start_bytes : Z;
  reset_byte : Z;
  reset_bytes : Z;
  reset : option callback;
  buffer : mem;
  buffer_size : Z;
  message_valid_len : Z;
  message_max_len : Z;
  priv : Z;
  buffer_len : Z;
  message_len : Z;
  buffer_reset_bytes : Z;
  frame_start : mem
}.

(** Assignments to the fields the decoder writes. *)

Definition with_buffer (sc : sercomm) (v : mem) : sercomm :=
  match sc with
  | mk_sercomm cb tb t lb hb h ccb fsb rb rbs r _ bs mvl mml p bl ml brb fs =>
      mk_sercomm cb tb t lb hb h ccb fsb rb rbs r v bs mvl mml p bl ml brb
        fs
  end.

Definition with_buffer_len (sc : sercomm) (n : Z) : sercomm :=
  match sc with
  | mk_sercomm cb tb t lb hb h ccb fsb rb rbs r b bs mvl mml p _ ml brb fs =>
      mk_sercomm cb tb t lb hb h ccb fsb rb rbs r b bs mvl mml p n ml brb
        fs
  end.

Definition with_message_len (sc : sercomm) (n : Z) : sercomm :=
  match sc with
  | mk_sercomm cb tb t lb hb h ccb fsb rb rbs r b bs mvl mml p bl _ brb fs =>
      mk_sercomm cb tb t lb hb h ccb fsb rb rbs r b bs mvl mml p bl n brb
        fs
  end.

Definition with_buffer_reset_bytes (sc : sercomm) (n : Z) : sercomm :=
  match sc with
  | mk_sercomm cb tb t lb hb h ccb fsb rb rbs r b bs mvl mml p bl ml _ fs =>
      mk_sercomm cb tb t lb hb h ccb fsb rb rbs r b bs mvl mml p bl ml n fs
  end.

(** [struct sercomm_msg]: an entry of the dispatch table.  The array ends
    with an entry whose [fn] is [NULL]. *)
Record sercomm_msg : Type := mk_sercomm_msg {
  cmd : Z;
  fn : option callback
}.

(** What the decoder does to the outside world.  The [ts] and [msg]
    arguments of a handler are pointers into [sc->buffer], hence offsets. *)
Inductive event : Type :=
| EvReset (f : callback)
| EvCall (f : callback) (ts_ptr mlen msg_ptr comm_ctrl priv_ptr : Z).

Section Host.

(** The field codec stores integers in the representation of the host;
    the byte order is the one thing that differs between hosts. *)
Variable big_endian : bool.

(** ** Fixed-width field codec *)

Definition store16 (m : mem) (off v : Z) : mem :=
  if big_endian
  then upd (upd m off (v / 256)) (off + 1) (v mod 256)
  else upd (upd m off (v mod 256)) (off + 1) (v / 256).

Definition store32 (m : mem) (off v : Z) : mem :=
  if big_endian
  then upd (upd (upd (upd m off (v / 16777216))
                   (off + 1) (v / 65536 mod 256))
              (off + 2) (v / 256 mod 256))
         (off + 3) (v mod 256)
  else upd (upd (upd (upd m off (v mod 256))
                   (off + 1) (v / 256 mod 256))
              (off + 2) (v / 65536 mod 256))
         (off + 3) (v / 16777216).

Definition load16 (m : mem) (off : Z) : Z :=
  if big_endian
  then m off * 256 + m (off + 1)
  else m off + m (off + 1) * 256.

Definition load32 (m : mem) (off : Z) : Z :=
  if big_endian
  then m off * 16777216 + m (off + 1) * 65536 + m (off + 2) * 256 + m (off + 3)
  else m off + m (off + 1) * 256 + m (off + 2) * 65536 + m (off + 3) * 16777216.

(** [put_field (dst + off) src len]; any width other than 1, 2 and 4
    stores nothing. *)
Definition put_field (dst : mem) (off src len : Z) : mem :=
  if len =? 1 then upd dst off (u8 src)
  else if len =? 2 then store16 dst off (u16 src)
  else if len =? 4 then store32 dst off (u32 src)
  else dst.

(** [get_field &dst (src + off) len] with [dst] the value that [*dst]
    held before; any width other than 1, 2 and 4 leaves it as it was. *)
Definition get_field (dst : Z) (src : mem) (off len : Z) : Z :=
  if len =? 1 then src off
  else if len =? 2 then load16 src off
  else if len =? 4 then load32 src off
  else dst.

(** ** Encoder *)

Definition sc_make_message (sc : sercomm) (cmd cctrl : Z)
    (msg : option mem) (mlen : Z) (output : mem) (olen : Z) : Z * mem :=
  let sumlen :=
    u32 (frame_start_bytes sc + cmd_bytes sc + ts_bytes sc + len_bytes sc
         + mlen + hash_bytes sc + comm_ctrl_bytes sc) in
  if olen <? sumlen then (0, output)
  else if (0 <? mlen) && (match msg with None => true | Some _ => false end)
  then (0, output)
  else
    let output :=
      if 0 <? frame_start_bytes sc
      then memcpy output 0 (frame_start sc) 0 (frame_start_bytes sc)
      else output in
    let x := frame_start_bytes sc in
    let output := put_field output x cmd (cmd_bytes sc) in
    let x := u32 (x + cmd_bytes sc) in
    let output :=
      if 0 <? ts_bytes sc
      then match ts sc with
           | Some stamp => store_bytes output x stamp
           | None => output
           end
      else output in
    let x := u32 (x + ts_bytes sc) in
    let output := put_field output x mlen (len_bytes sc) in
    let x := u32 (x + len_bytes sc) in
    let output :=
      match msg with
      | Some body => memcpy output x body 0 mlen
      | None => output
      end in
    let x := u32 (x + mlen) in
    let output :=
      if 0 <? hash_bytes sc then memset output x 0 (hash_bytes sc)
      else output in
    let x := u32 (x + hash_bytes sc) in
    let output :=
      if 0 <? comm_ctrl_bytes sc
      then put_field output x cctrl (comm_ctrl_bytes sc)
      else output in
    let x := u32 (x - hash_bytes sc) in
    let hashlen :=
      u32 (cmd_bytes sc + ts_bytes sc + len_bytes sc + mlen) in
    let output :=
      if 0 <? hash_bytes sc
      then match hash sc with
           | Some h =>
               store_bytes output x
                 (h (read output (frame_start_bytes sc) hashlen))
           | None => output
           end
      else output in
    (sumlen, output).

(** ** Decoder *)

(** The loop of [shift_message]: [n] iterations from index [i]. *)
Fixpoint shift_loop (b : mem) (offset i : Z) (n : nat) : mem :=
  match n with
  | O => b
  | S n' => shift_loop (upd b (i - offset) (b i)) offset (i + 1) n'
  end.

Definition shift_message (sc : sercomm) (offset amount : Z) : sercomm :=
  let b := shift_loop (buffer sc) offset offset (Z.to_nat amount) in
  with_buffer_len (with_buffer sc b) (u32 (buffer_len sc - offset)).

(** The scan of the dispatch table: the first entry with the decoded
    command, looking no further than the entry without a handler. *)
Fixpoint scan (sm : list sercomm_msg) (c : Z) : option callback :=
  match sm with
  | [] => None
  | e :: rest =>
      match fn e with
      | None => None
      | Some f => if cmd e =? c then Some f else scan rest c
      end
  end.

Definition sc_get_message (sc : sercomm) (sm : list sercomm_msg) (byte : Z)
  : sercomm * list event :=
  let sc :=
    with_buffer_len (with_buffer sc (upd (buffer sc) (buffer_len sc) byte))
      (u32 (buffer_len sc + 1)) in
  let sc :=
    if negb (reset_bytes sc =? SERCOMM_OMIT_RESET)
    then if byte =? reset_byte sc
         then with_buffer_reset_bytes sc (u8 (buffer_reset_bytes sc + 1))
         else with_buffer_reset_bytes sc 0
    else sc in
  if negb (reset_bytes sc =? SERCOMM_OMIT_RESET)
     && (reset_bytes sc =? buffer_reset_bytes sc)
  then
    (with_buffer_len sc 0,
     match reset sc with Some r => [EvReset r] | None => [] end)
  else
    let sum1 :=
      u32 (frame_start_bytes sc + cmd_bytes sc + ts_bytes sc + len_bytes sc) in
    let sum2 :=
      u32 (frame_start_bytes sc + cmd_bytes sc + ts_bytes sc + len_bytes sc
           + message_len sc + hash_bytes sc + comm_ctrl_bytes sc) in
    if buffer_len sc =? frame_start_bytes sc then
      if negb (memcmp (buffer sc) 0 (frame_start sc) 0 (frame_start_bytes sc)
               =? 0)
      then (shift_message sc 1 (u8 (frame_start_bytes sc - 1)), [])
      else (sc, [])
    else if buffer_len sc =? sum1 then
      let sc :=
        with_message_len sc
          (get_field (message_len sc) (buffer sc)
             (u32 (sum1 - len_bytes sc)) (len_bytes sc)) in
      if negb (message_valid_len sc =? SERCOMM_IGNORE_MSG_VALID_LENGTH) then
        if negb (message_len sc =? message_valid_len sc)
        then (with_buffer_len sc 0, [])
        else (sc, [])
      else
        if message_max_len sc <? message_len sc
        then (with_buffer_len sc 0, [])
        else (sc, [])
    else if buffer_len sc =? sum2 then
      match hash sc with
      | Some h =>
          let sum2 :=
            u32 (cmd_bytes sc + ts_bytes sc + len_bytes sc + message_len sc) in
          let sc :=
            with_buffer sc
              (store_bytes (buffer sc) (buffer_len sc)
                 (h (read (buffer sc) (frame_start_bytes sc) sum2))) in
          let sum2 := u32 (sum2 + frame_start_bytes sc) in
          if negb (memcmp (buffer sc) (buffer_len sc) (buffer sc) sum2
                     (hash_bytes sc) =? 0)
          then (with_buffer_len sc 0, [])
          else
            let c := get_field 0 (buffer sc) (frame_start_bytes sc)
                       (cmd_bytes sc) in
            let cc :=
              if 0 <? comm_ctrl_bytes sc
              then get_field 0 (buffer sc)
                     (u32 (buffer_len sc - comm_ctrl_bytes sc))
                     (comm_ctrl_bytes sc)
              else 0 in
            (with_buffer_len sc 0,
             match scan sm c with
             | Some f =>
                 [EvCall f (frame_start_bytes sc + cmd_bytes sc)
                    (message_len sc) sum1 cc (priv sc)]
             | None => []
             end)
      | None => (sc, [])
      end
    else (sc, []).

(** Feeding a stream of bytes, one call per byte; the trace collects the
    callbacks in the order of the calls. *)
Fixpoint sc_feed (sc : sercomm) (sm : list sercomm_msg) (bytes : list Z)
  : sercomm * list event :=
  match bytes with
  | [] => (sc, [])
  | b :: rest =>
      let '(sc1, ev1) := sc_get_message sc sm b in
      let '(sc2, ev2) := sc_feed sc1 sm rest in
      (sc2, ev1 ++ ev2)
  end.

End Host.

(** ** Fields on the wire

    The bytes of a field of width [w] holding [v], in the order they
    appear in a frame: least significant byte first on a little-endian
    host, most significant first on a big-endian one.  Widths other than
    1, 2 and 4 are not supported by the codec. *)

Definition field_bytes (big_endian : bool) (v w : Z) : list Z :=
  let byte_of k := v / 256 ^ k mod 256 in
  let lsb_first :=
    if w =? 1 then [byte_of 0]
    else if w =? 2 then [byte_of 0; byte_of 1]
    else if w =? 4 then [byte_of 0; byte_of 1; byte_of 2; byte_of 3]
    else [] in
  if big_endian then rev lsb_first else lsb_first.

Definition supported (w : Z) : Prop := w = 1 \/ w = 2 \/ w = 4.

(** ** C types of the fields *)

Definition is_u8 (x : Z) : Prop := 0 <= x <= 255.
Definition is_u32 (x : Z) : Prop := 0 <= x <= 4294967295.

(** Every integer field of [struct sercomm] holds a value of its C type. *)
Definition well_typed (sc : sercomm) : Prop :=
  is_u8 (cmd_bytes sc) /\ is_u8 (ts_bytes sc) /\ is_u8 (len_bytes sc) /\
  is_u8 (hash_bytes sc) /\ is_u8 (comm_ctrl_bytes sc) /\
  is_u8 (frame_start_bytes sc) /\ is_u8 (reset_byte sc) /\
  is_u8 (reset_bytes sc) /\ is_u8 (buffer_reset_bytes sc) /\
  is_u32 (buffer_size sc) /\ is_u32 (message_valid_len sc) /\
  is_u32 (message_max_len sc) /\ is_u32 (buffer_len sc) /\
  is_u32 (message_len sc).

(** ** The dispatch table, read as a table

    [first_match sm c f]: [f] is the handler of the first entry for the
    command [c], and that entry comes before the entry without a handler.
    [no_match sm c]: no entry before the entry without a handler is for
    [c]. *)

Definition first_match (sm : list sercomm_msg) (c : Z) (f : callback)
  : Prop :=
  exists pre e post,
    sm = pre ++ e :: post /\
    (forall e', In e' pre -> fn e' <> None /\ cmd e' <> c) /\
    cmd e = c /\ fn e = Some f.

Definition no_match (sm : list sercomm_msg) (c : Z) : Prop :=
  forall pre e post,
    sm = pre ++ e :: post ->
    (forall e', In e' pre -> fn e' <> None) ->
    fn e <> None -> cmd e <> c.

(** ** Reading a trace *)

Definition is_reset (e : event) : bool :=
  match e with EvReset _ => true | EvCall _ _ _ _ _ _ => false end.

(** The calls of the reset routine in a trace. *)
Definition resets (evs : list event) : list event := filter is_reset evs.

(** The calls of command handlers in a trace. *)
Definition calls (evs : list event) : list event :=
  filter (fun e => negb (is_reset e)) evs.

(** ** The phases of one decoder call *)

Arguments u8 : simpl never.
Arguments u16 : simpl never.
Arguments u32 : simpl never.

(** The reset-byte counter as reset detection leaves it. *)
Definition reset_counter (sc : sercomm) (byte : Z) : Z :=
  if reset_bytes sc =? SERCOMM_OMIT_RESET then buffer_reset_bytes sc
  else if byte =? reset_byte sc then u8 (buffer_reset_bytes sc + 1)
  else 0.

(** Whether reset detection ends the call for this byte. *)
Definition reset_fires (sc : sercomm) (byte : Z) : bool :=
  negb (reset_bytes sc =? SERCOMM_OMIT_RESET)
  && (reset_bytes sc =? reset_counter sc byte).

(** The state once the byte is stored and reset detection has counted it:
    the state every checkpoint starts from. *)
Definition appended (sc : sercomm) (byte : Z) : sercomm :=
  with_buffer_reset_bytes
    (with_buffer_len (with_buffer sc (upd (buffer sc) (buffer_len sc) byte))
       (u32 (buffer_len sc + 1)))
    (reset_counter sc byte).

(** The three thresholds, as the call computes them. *)
Definition header_len (sc : sercomm) : Z :=
  u32 (frame_start_bytes sc + cmd_bytes sc + ts_bytes sc + len_bytes sc).

Definition frame_len (sc : sercomm) : Z :=
  u32 (frame_start_bytes sc + cmd_bytes sc + ts_bytes sc + len_bytes sc
       + message_len sc + hash_bytes sc + comm_ctrl_bytes sc).

(** ** Streams that leave reset detection alone *)

(** Whether reset detection ends some call while [bytes] are fed, the
    counter being [c] before the first of them. *)
Fixpoint reset_trips (rb n c : Z) (bytes : list Z) : bool :=
  match bytes with
  | [] => false
  | y :: rest =>
      let c' := if y =? rb then u8 (c + 1) else 0 in
      (n =? c') || reset_trips rb n c' rest
  end.

Definition reset_quiet (sc : sercomm) (bytes : list Z) : Prop :=
  reset_bytes sc = SERCOMM_OMIT_RESET \/
  reset_trips (reset_byte sc) (reset_bytes sc) (buffer_reset_bytes sc) bytes
  = false.

(** ** Decoder states over a fixed layout *)

(** The layout of [sc] with the four fields the decoder writes. *)
Definition decoder_at (sc : sercomm) (b : mem) (l m c : Z) : sercomm :=
  with_buffer_reset_bytes
    (with_message_len (with_buffer_len (with_buffer sc b) l) m) c.

(** What the length policy accepts. *)
Definition length_ok (sc : sercomm) (mlen : Z) : Prop :=
  if message_valid_len sc =? SERCOMM_IGNORE_MSG_VALID_LENGTH
  then mlen <= message_max_len sc
  else mlen = message_valid_len sc.

(** Decidable form of [well_typed]. *)
Definition u8b (x : Z) : bool := (0 <=? x) && (x <=? 255).
Definition u32b (x : Z) : bool := (0 <=? x) && (x <=? 4294967295).

Definition well_typedb (sc : sercomm) : bool :=
  u8b (cmd_bytes sc) && u8b (ts_bytes sc) && u8b (len_bytes sc)
  && u8b (hash_bytes sc) && u8b (comm_ctrl_bytes sc)
  && u8b (frame_start_bytes sc) && u8b (reset_byte sc)
  && u8b (reset_bytes sc) && u8b (buffer_reset_bytes sc)
  && u32b (buffer_size sc) && u32b (message_valid_len sc)
  && u32b (message_max_len sc) && u32b (buffer_len sc)
  && u32b (message_len sc).

(** ** Sample configurations *)

Definition zeros : mem := fun _ => 0.

(** A one-byte checksum: the sum of the hashed bytes modulo 256. *)
Definition sum_hash : hash_fn := fun l => [fold_right Z.add 0 l mod 256].

(** Sync pattern 00 01, one-byte command and length, nothing else, and
    no reset detection. *)
Definition plain_layout : sercomm :=
  mk_sercomm 1 0 None 1 0 None 0 2 0 SERCOMM_OMIT_RESET None zeros 64
    SERCOMM_IGNORE_MSG_VALID_LENGTH 8 0 0 0 0 (mem_of_list [0; 1]).

(** Sync pattern 00 01, one-byte command, four-byte length, one-byte
    checksum, payloads of at most 8 bytes, reset on three bytes EE. *)
Definition hashed_layout : sercomm :=
  mk_sercomm 1 0 None 4 1 (Some sum_hash) 0 2 238 3 (Some 9%nat) zeros 64
    SERCOMM_IGNORE_MSG_VALID_LENGTH 8 0 0 0 0 (mem_of_list [0; 1]).

(** One-byte command, length, checksum and control value, reset on two
    bytes FF. *)
Definition reset_layout : sercomm :=
  mk_sercomm 1 0 None 1 1 (Some sum_hash) 1 2 255 2 (Some 9%nat) zeros 64
    SERCOMM_IGNORE_MSG_VALID_LENGTH 8 0 0 0 0 (mem_of_list [0; 1]).

(** A table with one handler, for command 5. *)
Definition handlers : list sercomm_msg :=
  [mk_sercomm_msg 5 (Some 7%nat); mk_sercomm_msg 0 None].

(** The frame the encoder builds in a zeroed 64-byte buffer. *)
Definition encoded (big_endian : bool) (sc : sercomm) (c cc : Z)
    (body : list Z) : list Z :=
  let r :=
    sc_make_message big_endian sc c cc (Some (mem_of_list body))
      (Z.of_nat (length body)) zeros 64 in
  read (snd r) 0 (fst r).

(** A header that declares a payload of 0xFFFFFFFC bytes (on a
    little-endian host). *)
Definition oversized_header : list Z := [0; 1; 5; 252; 255; 255; 255].

(** A table with handlers for the commands 0 and 5. *)
Definition handlers_zero : list sercomm_msg :=
  [mk_sercomm_msg 0 (Some 8%nat); mk_sercomm_msg 5 (Some 7%nat);
   mk_sercomm_msg 0 None].

(** A header that declares a payload of 0xFFFFFFFB bytes (on a
    little-endian host), followed by the sync pattern. *)
Definition wrapping_prefix : list Z := [0; 1; 5; 251; 255; 255; 255; 0; 1].

(** ** Layouts *)

(** Two states of the same layout: every field but the four that the
    decoder writes is the same. *)
Definition same_layout (a b : sercomm) : Prop :=
  cmd_bytes a = cmd_bytes b /\ ts_bytes a = ts_bytes b /\ ts a = ts b /\
  len_bytes a = len_bytes b /\ hash_bytes a = hash_bytes b /\
  hash a = hash b /\ comm_ctrl_bytes a = comm_ctrl_bytes b /\
  frame_start_bytes a = frame_start_bytes b /\
  reset_byte a = reset_byte b /\ reset_bytes a = reset_bytes b /\
  reset a = reset b /\ buffer_size a = buffer_size b /\
  message_valid_len a = message_valid_len b /\
  message_max_len a = message_max_len b /\ priv a = priv b /\
  frame_start a = frame_start b.

(** ** Streams and the sync pattern *)

(** [pat] occurs in [l] nowhere but at its very end. *)
Definition only_at_end (pat l : list Z) : Prop :=
  forall pre post, l = pre ++ pat ++ post -> post = [].

(** [l] ends with [pat]. *)
Definition ends_with (pat l : list Z) : Prop :=
  exists pre, l = pre ++ pat.

(** Decidable form of [only_at_end], for patterns that are not empty. *)
Fixpoint prefixb (pat l : list Z) : bool :=
  match pat, l with
  | [], _ => true
  | _ :: _, [] => false
  | x :: pat', y :: l' => (x =? y) && prefixb pat' l'
  end.

Fixpoint only_at_endb (pat l : list Z) : bool :=
  match l with
  | [] => true
  | _ :: l' =>
      (negb (prefixb pat l) || (length l =? length pat)%nat)
      && only_at_endb pat l'
  end.

(** ** Frames that the layout can carry *)

(** The conditions under which the decoder can take back what the
    encoder builds: supported widths, a hasher and a timestamp writer that
    fill their fields, values that fit their fields, a payload that is
    there and that the length policy accepts, a frame that is not
    complete at its header and that fits the output buffer. *)
Definition encodable (sc : sercomm) (h : hash_fn) (c cc : Z)
    (msg : option mem) (mlen olen : Z) : Prop :=
  well_typed sc /\
  supported (cmd_bytes sc) /\
  supported (len_bytes sc) /\
  (comm_ctrl_bytes sc = 0 \/ supported (comm_ctrl_bytes sc)) /\
  hash sc = Some h /\
  (forall l, length (h l) = Z.to_nat (hash_bytes sc)) /\
  (0 < ts_bytes sc -> forall s, ts sc = Some s ->
     length s = Z.to_nat (ts_bytes sc)) /\
  0 <= c < 256 ^ cmd_bytes sc /\
  0 <= mlen < 256 ^ len_bytes sc /\
  0 <= cc < 256 ^ comm_ctrl_bytes sc /\
  (0 < mlen -> msg <> None) /\
  length_ok sc mlen /\
  0 < mlen + hash_bytes sc + comm_ctrl_bytes sc /\
  frame_start_bytes sc + cmd_bytes sc + ts_bytes sc + len_bytes sc + mlen
  + hash_bytes sc + comm_ctrl_bytes sc <= olen <= 4294967295.

(** * Properties *)

(** ** Memories *)

Lemma upd_same (m : mem) (i v : Z) : upd m i v i = v.
Proof. unfold upd. now rewrite Z.eqb_refl. Qed.

Lemma upd_other (m : mem) (i v j : Z) : j <> i -> upd m i v j = m j.
Proof. intros H. unfold upd. now destruct (Z.eqb_spec j i). Qed.

Lemma memcpy_in (dst : mem) (d : Z) (src : mem) (s n j : Z) :
  d <= j < d + n -> memcpy dst d src s n j = src (s + (j - d)).
Proof.
  intros H. unfold memcpy.
  destruct (Z.leb_spec d j), (Z.ltb_spec j (d + n)); simpl; auto; lia.
Qed.

Lemma memcpy_out (dst : mem) (d : Z) (src : mem) (s n j : Z) :
  j < d \/ d + n <= j -> memcpy dst d src s n j = dst j.
Proof.
  intros H. unfold memcpy.
  destruct (Z.leb_spec d j), (Z.ltb_spec j (d + n)); simpl; auto; lia.
Qed.

Lemma memset_in (dst : mem) (d c n j : Z) :
  d <= j < d + n -> memset dst d c n j = c.
Proof.
  intros H. unfold memset.
  destruct (Z.leb_spec d j), (Z.ltb_spec j (d + n)); simpl; auto; lia.
Qed.

Lemma memset_out (dst : mem) (d c n j : Z) :
  j < d \/ d + n <= j -> memset dst d c n j = dst j.
Proof.
  intros H. unfold memset.
  destruct (Z.leb_spec d j), (Z.ltb_spec j (d + n)); simpl; auto; lia.
Qed.

Lemma store_bytes_in (dst : mem) (d : Z) (l : list Z) (j : Z) :
  d <= j < d + Z.of_nat (length l) ->
  store_bytes dst d l j = nth (Z.to_nat (j - d)) l 0.
Proof.
  intros H. unfold store_bytes.
  destruct (Z.leb_spec d j), (Z.ltb_spec j (d + Z.of_nat (length l)));
    simpl; auto; lia.
Qed.

Lemma store_bytes_out (dst : mem) (d : Z) (l : list Z) (j : Z) :
  j < d \/ d + Z.of_nat (length l) <= j -> store_bytes dst d l j = dst j.
Proof.
  intros H. unfold store_bytes.
  destruct (Z.leb_spec d j), (Z.ltb_spec j (d + Z.of_nat (length l)));
    simpl; auto; lia.
Qed.

Lemma read_length (m : mem) (off n : Z) :
  length (read m off n) = Z.to_nat n.
Proof. unfold read. now rewrite length_map, length_seq. Qed.

Lemma read_nth (m : mem) (off n : Z) (i : nat) (d : Z) :
  (i < Z.to_nat n)%nat -> nth i (read m off n) d = m (off + Z.of_nat i).
Proof.
  intros H. unfold read.
  set (f := fun i : nat => m (off + Z.of_nat i)).
  rewrite nth_indep with (d' := f O) by now rewrite length_map, length_seq.
  rewrite map_nth, seq_nth by assumption. reflexivity.
Qed.

Lemma read_ext (m m' : mem) (off off' n : Z) :
  (forall i, 0 <= i < n -> m (off + i) = m' (off' + i)) ->
  read m off n = read m' off' n.
Proof.
  intros H. unfold read. apply map_ext_in. intros i Hi.
  apply in_seq in Hi. apply H. lia.
Qed.

Lemma read_split (m : mem) (off n k : Z) :
  0 <= n -> 0 <= k ->
  read m off (n + k) = read m off n ++ read m (off + n) k.
Proof.
  intros Hn Hk. apply nth_ext with (d := 0) (d' := 0).
  - rewrite length_app, !read_length. lia.
  - intros i Hi. rewrite read_length in Hi.
    rewrite read_nth by assumption.
    destruct (Nat.lt_ge_cases i (Z.to_nat n)) as [L|L].
    + rewrite app_nth1 by now rewrite read_length.
      now rewrite read_nth.
    + rewrite app_nth2 by now rewrite read_length.
      rewrite read_length, read_nth by lia. f_equal. lia.
Qed.

Lemma read_store_bytes (m : mem) (off : Z) (l : list Z) :
  read (store_bytes m off l) off (Z.of_nat (length l)) = l.
Proof.
  apply nth_ext with (d := 0) (d' := 0).
  - now rewrite read_length, Nat2Z.id.
  - intros i Hi. rewrite read_length, Nat2Z.id in Hi.
    rewrite read_nth by now rewrite Nat2Z.id.
    rewrite store_bytes_in by lia. f_equal. lia.
Qed.

Lemma memcmp_loop_zero (a : mem) (b : mem) (n : nat) :
  forall ao bo,
    memcmp_loop a ao b bo n = 0 <->
    (forall i, (i < n)%nat -> a (ao + Z.of_nat i) = b (bo + Z.of_nat i)).
Proof.
  induction n as [|n IH]; intros ao bo; simpl.
  - split; auto. intros _ i Hi. lia.
  - destruct (Z.eqb_spec (a ao) (b bo)) as [E|E].
    + rewrite IH. split; intros H i Hi.
      * destruct i as [|i].
        -- now rewrite !Z.add_0_r.
        -- replace (ao + Z.of_nat (S i)) with (ao + 1 + Z.of_nat i) by lia.
           replace (bo + Z.of_nat (S i)) with (bo + 1 + Z.of_nat i) by lia.
           apply H. lia.
      * replace (ao + 1 + Z.of_nat i) with (ao + Z.of_nat (S i)) by lia.
        replace (bo + 1 + Z.of_nat i) with (bo + Z.of_nat (S i)) by lia.
        apply H. lia.
    + split; intros H.
      * lia.
      * exfalso. apply E. specialize (H O). rewrite !Z.add_0_r in H.
        apply H. lia.
Qed.

Lemma memcmp_zero (a : mem) (ao : Z) (b : mem) (bo n : Z) :
  memcmp a ao b bo n = 0 <-> read a ao n = read b bo n.
Proof.
  unfold memcmp. rewrite memcmp_loop_zero. split; intros H.
  - apply read_ext. intros i Hi.
    replace i with (Z.of_nat (Z.to_nat i)) by lia. apply H. lia.
  - intros i Hi.
    rewrite <- (read_nth a ao n i 0), <- (read_nth b bo n i 0) by assumption.
    now rewrite H.
Qed.

Lemma shift_loop_spec (n : nat) :
  forall (b : mem) (offset i j : Z),
    0 < offset ->
    shift_loop b offset i n j =
    if (i - offset <=? j) && (j <? i - offset + Z.of_nat n)
    then b (j + offset) else b j.
Proof.
  induction n as [|n IH]; intros b offset i j Ho.
  - cbn [shift_loop]. destruct (Z.leb_spec (i - offset) j),
      (Z.ltb_spec j (i - offset + Z.of_nat 0)); simpl; auto; lia.
  - cbn [shift_loop]. rewrite IH by assumption.
    destruct (Z.leb_spec (i + 1 - offset) j),
      (Z.ltb_spec j (i + 1 - offset + Z.of_nat n)),
      (Z.leb_spec (i - offset) j),
      (Z.ltb_spec j (i - offset + Z.of_nat (S n)));
      simpl; try lia; try (apply upd_other; lia).
    replace j with (i - offset) by lia.
    rewrite upd_same. f_equal. lia.
Qed.

(** ** One decoder call *)

(** Unfolds one decoder call on a state given by its fields. *)
Ltac step_cbn :=
  cbn [cmd_bytes ts_bytes ts len_bytes hash_bytes hash comm_ctrl_bytes
       frame_start_bytes reset_byte reset_bytes reset buffer buffer_size
       message_valid_len message_max_len priv buffer_len message_len
       buffer_reset_bytes frame_start
       with_buffer_reset_bytes with_buffer_len with_buffer with_message_len
       negb andb] in *.

Ltac step_unfold :=
  unfold sc_get_message, appended, reset_fires, reset_counter,
    header_len, frame_len, shift_message in *;
  step_cbn.

Ltac eqb_no :=
  match goal with
  | H : ?a <> ?b |- context [?a =? ?b] =>
      rewrite (proj2 (Z.eqb_neq a b) H)
  end.

Section Decoder.

Variable big_endian : bool.

Lemma reset_step (sc : sercomm) (sm : list sercomm_msg) (byte : Z) :
  reset_fires sc byte = true ->
  sc_get_message big_endian sc sm byte =
  (with_buffer_len (appended sc byte) 0,
   match reset sc with Some r => [EvReset r] | None => [] end).
Proof.
  destruct sc; step_unfold.
  destruct (reset_bytes0 =? SERCOMM_OMIT_RESET) eqn:E; step_cbn;
    [discriminate|].
  destruct (byte =? reset_byte0); step_cbn; rewrite ?E; step_cbn;
    intros ->; reflexivity.
Qed.

(** A byte that reaches no checkpoint is stored and nothing else happens. *)
Lemma plain_step (sc : sercomm) (sm : list sercomm_msg) (byte : Z) :
  reset_fires sc byte = false ->
  u32 (buffer_len sc + 1) <> frame_start_bytes sc ->
  u32 (buffer_len sc + 1) <> header_len sc ->
  u32 (buffer_len sc + 1) <> frame_len sc ->
  sc_get_message big_endian sc sm byte = (appended sc byte, []).
Proof.
  destruct sc; step_unfold. intros R H0 H1 H2.
  destruct (reset_bytes0 =? SERCOMM_OMIT_RESET) eqn:E; step_cbn.
  - rewrite ?E; step_cbn. repeat eqb_no. reflexivity.
  - destruct (byte =? reset_byte0); step_cbn; rewrite ?E; step_cbn;
      rewrite R; repeat eqb_no; reflexivity.
Qed.

(** The sync checkpoint, in terms of the state it starts from. *)
Lemma sync_step (sc : sercomm) (sm : list sercomm_msg) (byte : Z) :
  reset_fires sc byte = false ->
  u32 (buffer_len sc + 1) = frame_start_bytes sc ->
  sc_get_message big_endian sc sm byte =
  if memcmp (buffer (appended sc byte)) 0 (frame_start sc) 0
       (frame_start_bytes sc) =? 0
  then (appended sc byte, [])
  else (shift_message (appended sc byte) 1 (u8 (frame_start_bytes sc - 1)),
        []).
Proof.
  destruct sc; step_unfold. intros R H0.
  destruct (reset_bytes0 =? SERCOMM_OMIT_RESET) eqn:E; step_cbn.
  - rewrite ?E; step_cbn. rewrite H0, Z.eqb_refl.
    now destruct (memcmp _ _ _ _ _ =? 0).
  - destruct (byte =? reset_byte0); step_cbn; rewrite ?E; step_cbn;
      rewrite R, H0, Z.eqb_refl; now destruct (memcmp _ _ _ _ _ =? 0).
Qed.

(** The header checkpoint. *)
Lemma header_step (sc : sercomm) (sm : list sercomm_msg) (byte : Z) :
  reset_fires sc byte = false ->
  u32 (buffer_len sc + 1) <> frame_start_bytes sc ->
  u32 (buffer_len sc + 1) = header_len sc ->
  sc_get_message big_endian sc sm byte =
  let sc1 :=
    with_message_len (appended sc byte)
      (get_field big_endian (message_len sc) (buffer (appended sc byte))
         (u32 (header_len sc - len_bytes sc)) (len_bytes sc)) in
  if (if message_valid_len sc =? SERCOMM_IGNORE_MSG_VALID_LENGTH
      then message_max_len sc <? message_len sc1
      else negb (message_len sc1 =? message_valid_len sc))
  then (with_buffer_len sc1 0, [])
  else (sc1, []).
Proof.
  destruct sc; step_unfold. intros R H0 H1.
  destruct (reset_bytes0 =? SERCOMM_OMIT_RESET) eqn:E; step_cbn.
  - rewrite ?E; step_cbn. eqb_no. rewrite H1, Z.eqb_refl.
    destruct (message_valid_len0 =? _); step_cbn; reflexivity.
  - destruct (byte =? reset_byte0); step_cbn; rewrite ?E; step_cbn;
      rewrite R; eqb_no; rewrite H1, Z.eqb_refl;
      destruct (message_valid_len0 =? _); step_cbn; reflexivity.
Qed.

(** The completion checkpoint. *)
Lemma completion_step (sc : sercomm) (sm : list sercomm_msg) (byte : Z) :
  reset_fires sc byte = false ->
  u32 (buffer_len sc + 1) <> frame_start_bytes sc ->
  u32 (buffer_len sc + 1) <> header_len sc ->
  u32 (buffer_len sc + 1) = frame_len sc ->
  sc_get_message big_endian sc sm byte =
  match hash sc with
  | None => (appended sc byte, [])
  | Some h =>
      let a := appended sc byte in
      let hashed :=
        u32 (cmd_bytes sc + ts_bytes sc + len_bytes sc + message_len sc) in
      let b :=
        store_bytes (buffer a) (buffer_len a)
          (h (read (buffer a) (frame_start_bytes sc) hashed)) in
      if memcmp b (buffer_len a) b (u32 (hashed + frame_start_bytes sc))
           (hash_bytes sc) =? 0
      then
        (with_buffer_len (with_buffer a b) 0,
         match
           scan sm (get_field big_endian 0 b (frame_start_bytes sc)
                      (cmd_bytes sc))
         with
         | Some f =>
             [EvCall f (frame_start_bytes sc + cmd_bytes sc)
                (message_len sc) (header_len sc)
                (if 0 <? comm_ctrl_bytes sc
                 then get_field big_endian 0 b
                        (u32 (buffer_len a - comm_ctrl_bytes sc))
                        (comm_ctrl_bytes sc)
                 else 0)
                (priv sc)]
         | None => []
         end)
      else (with_buffer_len (with_buffer a b) 0, [])
  end.
Proof.
  destruct sc; step_unfold. intros R H0 H1 H2.
  destruct (reset_bytes0 =? SERCOMM_OMIT_RESET) eqn:E; step_cbn.
  - rewrite ?E; step_cbn. do 2 eqb_no. rewrite H2, Z.eqb_refl.
    destruct hash0; [|reflexivity]. step_cbn.
    now destruct (memcmp _ _ _ _ _ =? 0).
  - destruct (byte =? reset_byte0); step_cbn; rewrite ?E; step_cbn;
      rewrite R; do 2 eqb_no; rewrite H2, Z.eqb_refl;
      (destruct hash0; [|reflexivity]); step_cbn;
      now destruct (memcmp _ _ _ _ _ =? 0).
Qed.

End Decoder.

Section Checkpoints.

Variable big_endian : bool.

(** C4.  With no hasher configured, the byte that brings [buffer_len] to
    the completion threshold is stored and that is all: no callback runs,
    [buffer_len] stays at the threshold instead of returning to 0, and
    every other field is as reset detection left it (the completion
    checkpoint itself changes nothing).  The checkpoint is reached when
    reset detection does not end the call and neither of the two earlier
    thresholds coincides with this one. *)
Theorem completion_without_hasher
    (sc : sercomm) (sm : list sercomm_msg) (byte : Z) :
  hash sc = None ->
  reset_fires sc byte = false ->
  u32 (buffer_len sc + 1) = frame_len sc ->
  frame_len sc <> frame_start_bytes sc ->
  frame_len sc <> header_len sc ->
  sc_get_message big_endian sc sm byte = (appended sc byte, []) /\
  buffer_len (appended sc byte) = frame_len sc /\
  buffer (appended sc byte) (buffer_len sc) = byte /\
  (forall j, j <> buffer_len sc -> buffer (appended sc byte) j = buffer sc j) /\
  message_len (appended sc byte) = message_len sc.
Proof.
  intros Hh R H2 H0 H1.
  rewrite completion_step by congruence. rewrite Hh.
  destruct sc; unfold appended; step_cbn.
  repeat split; auto using upd_same, upd_other.
Qed.

(** C8.  At the sync checkpoint, a buffer that differs from the sync
    pattern loses its oldest byte: the other [frame_start_bytes - 1] bytes
    move down by one place, [buffer_len] drops by one, and no other field
    and no byte outside the moved range changes; a buffer that matches is
    left as it was after the byte was stored.  No callback runs. *)
Theorem sync_checkpoint
    (sc : sercomm) (sm : list sercomm_msg) (byte : Z) :
  1 <= frame_start_bytes sc <= 255 ->
  reset_fires sc byte = false ->
  u32 (buffer_len sc + 1) = frame_start_bytes sc ->
  let a := appended sc byte in
  let n := frame_start_bytes sc in
  (read (buffer a) 0 n <> read (frame_start sc) 0 n ->
   exists b',
     sc_get_message big_endian sc sm byte =
       (with_buffer_len (with_buffer a b') (buffer_len a - 1), []) /\
     buffer_len a - 1 = n - 1 /\
     (forall j, 0 <= j < n - 1 -> b' j = buffer a (j + 1)) /\
     (forall j, j < 0 \/ n - 1 <= j -> b' j = buffer a j)) /\
  (read (buffer a) 0 n = read (frame_start sc) 0 n ->
   sc_get_message big_endian sc sm byte = (a, [])).
Proof.
  intros Hn R H0 a n. rewrite sync_step by assumption. fold a n.
  assert (La : buffer_len a = n).
  { subst a n. destruct sc; unfold appended; step_cbn. exact H0. }
  split; intros Hm.
  - destruct (Z.eqb_spec (memcmp (buffer a) 0 (frame_start sc) 0 n) 0)
      as [E|E].
    { apply memcmp_zero in E. contradiction. }
    exists (shift_loop (buffer a) 1 1 (Z.to_nat (u8 (n - 1)))).
    assert (U8 : u8 (n - 1) = n - 1).
    { unfold u8. apply Z.mod_small. subst n. lia. }
    assert (U32 : u32 (n - 1) = n - 1).
    { unfold u32. apply Z.mod_small. subst n. lia. }
    repeat split.
    + unfold shift_message. rewrite La, U32. reflexivity.
    + now rewrite La.
    + intros j Hj. rewrite shift_loop_spec, U8 by lia.
      destruct (Z.leb_spec (1 - 1) j), (Z.ltb_spec j (1 - 1 + Z.of_nat (Z.to_nat (n - 1))));
        simpl; auto; lia.
    + intros j Hj. rewrite shift_loop_spec, U8 by lia.
      destruct (Z.leb_spec (1 - 1) j), (Z.ltb_spec j (1 - 1 + Z.of_nat (Z.to_nat (n - 1))));
        simpl; auto; lia.
  - apply memcmp_zero in Hm. now rewrite Hm.
Qed.

End Checkpoints.

(** ** The dispatch scan *)

Lemma scan_first_match (sm : list sercomm_msg) (c : Z) (f : callback) :
  first_match sm c f -> scan sm c = Some f.
Proof.
  intros (pre & e & post & -> & Hpre & Hc & Hf).
  induction pre as [|e0 pre IH]; simpl.
  - rewrite Hf, Hc, Z.eqb_refl. reflexivity.
  - destruct (Hpre e0 (or_introl eq_refl)) as [F0 C0].
    destruct (fn e0) as [f0|]; [|contradiction].
    destruct (Z.eqb_spec (cmd e0) c); [contradiction|].
    apply IH. intros e' He'. apply Hpre. now right.
Qed.

Lemma scan_no_match (sm : list sercomm_msg) (c : Z) :
  no_match sm c -> scan sm c = None.
Proof.
  induction sm as [|e0 sm IH]; intros H; simpl; [reflexivity|].
  destruct (fn e0) as [f0|] eqn:F0; [|reflexivity].
  destruct (Z.eqb_spec (cmd e0) c) as [E|E].
  - exfalso. apply (H [] e0 sm eq_refl); [intros ? []| congruence | exact E].
  - apply IH. intros pre e post -> Hpre Hf.
    apply (H (e0 :: pre) e post eq_refl); [|exact Hf].
    intros e' [<-|He']; [congruence | now apply Hpre].
Qed.

Lemma scan_some (sm : list sercomm_msg) (c : Z) (f : callback) :
  scan sm c = Some f -> first_match sm c f.
Proof.
  induction sm as [|e0 sm IH]; simpl; [discriminate|].
  destruct (fn e0) as [f0|] eqn:F0; [|discriminate].
  destruct (Z.eqb_spec (cmd e0) c) as [E|E]; intros H.
  - injection H as <-. exists [], e0, sm.
    split; [reflexivity|]. split; [intros ? []|now split].
  - destruct (IH H) as (pre & e & post & -> & Hpre & Hc & Hf).
    exists (e0 :: pre), e, post. split; [reflexivity|].
    split; [|now split].
    intros e' [<-|He']; [split; congruence | now apply Hpre].
Qed.

Section Codec.

Variable big_endian : bool.

Lemma get_field_ext (d : Z) (m m' : mem) (off len : Z) :
  (forall j, off <= j < off + len -> m j = m' j) ->
  get_field big_endian d m off len = get_field big_endian d m' off len.
Proof.
  intros H. unfold get_field, load16, load32.
  destruct (Z.eqb_spec len 1); [apply H; lia|].
  destruct (Z.eqb_spec len 2).
  { rewrite (H off), (H (off + 1)) by lia. reflexivity. }
  destruct (Z.eqb_spec len 4); [|reflexivity].
  rewrite (H off), (H (off + 1)), (H (off + 2)), (H (off + 3)) by lia.
  reflexivity.
Qed.

End Codec.

Ltac typed_fields H :=
  unfold well_typed, is_u8, is_u32 in H;
  destruct H as (? & ? & ? & ? & ? & ? & ? & ? & ? & ? & ? & ? & ? & ?).

Lemma u32_small (x : Z) : 0 <= x <= 4294967295 -> u32 x = x.
Proof. intros H. unfold u32. apply Z.mod_small. lia. Qed.

Lemma u8_small (x : Z) : 0 <= x <= 255 -> u8 x = x.
Proof. intros H. unfold u8. apply Z.mod_small. lia. Qed.

Section Completion.

Variable big_endian : bool.

(** The completion checkpoint with a hasher configured, for a completion
    threshold that fits 32 bits: the hasher
    runs over the bytes from the start of the command field to the end of
    the payload and what it stores is compared with the hash field that
    was received.  If they differ, [buffer_len] becomes 0 and no handler
    runs.  If they agree, the handler of the first table entry for the
    decoded command runs once, with the offset of the timestamp field, the
    payload length, the offset of the payload, the decoded control value
    (0 when there is no control field) and [priv]; [buffer_len] becomes 0
    whether or not an entry was found.  The bytes below the threshold are
    not touched: the recomputed hash goes above them. *)
Theorem completion_with_hasher
    (sc : sercomm) (sm : list sercomm_msg) (byte : Z) (h : hash_fn) :
  let cmd_ptr := frame_start_bytes sc in
  let ts_ptr := cmd_ptr + cmd_bytes sc in
  let msg_ptr := ts_ptr + ts_bytes sc + len_bytes sc in
  let hash_ptr := msg_ptr + message_len sc in
  let ctrl_ptr := hash_ptr + hash_bytes sc in
  let a := appended sc byte in
  let computed := h (read (buffer a) cmd_ptr (hash_ptr - cmd_ptr)) in
  let received := read (buffer a) hash_ptr (hash_bytes sc) in
  let c := get_field big_endian 0 (buffer a) cmd_ptr (cmd_bytes sc) in
  let cc :=
    if comm_ctrl_bytes sc =? 0 then 0
    else get_field big_endian 0 (buffer a) ctrl_ptr (comm_ctrl_bytes sc) in
  well_typed sc ->
  hash sc = Some h ->
  reset_fires sc byte = false ->
  ctrl_ptr + comm_ctrl_bytes sc <= 4294967295 ->
  buffer_len sc + 1 = ctrl_ptr + comm_ctrl_bytes sc ->
  buffer_len sc + 1 <> cmd_ptr ->
  buffer_len sc + 1 <> msg_ptr ->
  length computed = Z.to_nat (hash_bytes sc) ->
  exists b',
    (forall j, j < buffer_len sc + 1 -> b' j = buffer a j) /\
    (computed <> received ->
     sc_get_message big_endian sc sm byte =
       (with_buffer_len (with_buffer a b') 0, [])) /\
    (computed = received ->
     (forall f, first_match sm c f ->
        sc_get_message big_endian sc sm byte =
          (with_buffer_len (with_buffer a b') 0,
           [EvCall f ts_ptr (message_len sc) msg_ptr cc (priv sc)])) /\
     (no_match sm c ->
        sc_get_message big_endian sc sm byte =
          (with_buffer_len (with_buffer a b') 0, []))).
Proof.
  intros cmd_ptr ts_ptr msg_ptr hash_ptr ctrl_ptr a computed received c cc
    WT Hh R Hmax Hlen H0 H1 Hhl.
  typed_fields WT.
  assert (A : u32 (buffer_len sc + 1) = buffer_len sc + 1)
    by (apply u32_small; lia).
  assert (La : buffer_len a = buffer_len sc + 1).
  { subst a. destruct sc; unfold appended; step_cbn. exact A. }
  assert (HL : header_len sc = msg_ptr).
  { unfold header_len. subst msg_ptr ts_ptr cmd_ptr.
    rewrite u32_small by lia. lia. }
  assert (FL : frame_len sc = buffer_len sc + 1).
  { unfold frame_len. rewrite Hlen.
    subst ctrl_ptr hash_ptr msg_ptr ts_ptr cmd_ptr.
    rewrite u32_small by lia. lia. }
  rewrite completion_step;
    [| assumption | rewrite A; exact H0 | rewrite A, HL; exact H1
     | now rewrite A, FL ].
  rewrite Hh. fold a. cbv zeta.
  assert (Hd : u32 (cmd_bytes sc + ts_bytes sc + len_bytes sc
                    + message_len sc) = hash_ptr - cmd_ptr).
  { subst hash_ptr msg_ptr ts_ptr cmd_ptr. rewrite u32_small by lia. lia. }
  rewrite Hd. fold cmd_ptr. fold computed.
  replace (u32 (hash_ptr - cmd_ptr + cmd_ptr)) with hash_ptr
    by (rewrite u32_small; subst hash_ptr msg_ptr ts_ptr cmd_ptr; lia).
  set (b' := store_bytes (buffer a) (buffer_len a) computed).
  assert (Hlow : forall j, j < buffer_len sc + 1 -> b' j = buffer a j).
  { intros j Hj. subst b'. apply store_bytes_out. lia. }
  assert (Hcmp : memcmp b' (buffer_len a) b' hash_ptr (hash_bytes sc) = 0
                 <-> computed = received).
  { rewrite memcmp_zero.
    replace (read b' (buffer_len a) (hash_bytes sc)) with computed.
    2:{ subst b'. replace (hash_bytes sc)
          with (Z.of_nat (length computed)) by lia.
        now rewrite read_store_bytes. }
    replace (read b' hash_ptr (hash_bytes sc)) with received; [tauto|].
    subst received. apply read_ext. intros i Hi. symmetry. apply Hlow.
    subst ctrl_ptr. lia. }
  assert (Hc : get_field big_endian 0 b' cmd_ptr (cmd_bytes sc) = c).
  { subst c. apply get_field_ext. intros j Hj. apply Hlow.
    subst ctrl_ptr hash_ptr msg_ptr ts_ptr. lia. }
  assert (Hcc : (if 0 <? comm_ctrl_bytes sc
                 then get_field big_endian 0 b'
                        (u32 (buffer_len a - comm_ctrl_bytes sc))
                        (comm_ctrl_bytes sc)
                 else 0) = cc).
  { subst cc. destruct (Z.ltb_spec 0 (comm_ctrl_bytes sc)),
      (Z.eqb_spec (comm_ctrl_bytes sc) 0); try lia.
    rewrite La, u32_small by lia.
    replace (buffer_len sc + 1 - comm_ctrl_bytes sc) with ctrl_ptr by lia.
    apply get_field_ext. intros j Hj. apply Hlow. lia. }
  rewrite Hc, Hcc, HL.
  exists b'. split; [exact Hlow|]. split.
  - intros Hne.
    destruct (Z.eqb_spec (memcmp b' (buffer_len a) b' hash_ptr
                            (hash_bytes sc)) 0) as [E|E]; [|reflexivity].
    apply Hcmp in E. contradiction.
  - intros Heq. apply Hcmp in Heq. rewrite Heq, Z.eqb_refl. split.
    + intros f Hf. now rewrite (scan_first_match _ _ _ Hf).
    + intros Hn. now rewrite (scan_no_match _ _ Hn).
Qed.

End Completion.

(** ** What a call can change *)

Section Frame.

Variable big_endian : bool.

(** A call writes [buffer], [buffer_len], [message_len] and the reset-byte
    counter, and the counter always ends as reset detection computed it. *)
Lemma step_frame (sc : sercomm) (sm : list sercomm_msg) (byte : Z) :
  exists b l m,
    fst (sc_get_message big_endian sc sm byte) =
    with_message_len
      (with_buffer_len
         (with_buffer (with_buffer_reset_bytes sc (reset_counter sc byte)) b)
         l) m.
Proof.
  destruct sc; step_unfold.
  destruct (reset_bytes0 =? SERCOMM_OMIT_RESET) eqn:E; step_cbn;
    [|destruct (byte =? reset_byte0); step_cbn];
    rewrite ?E; step_cbn;
    repeat match goal with
      | |- context [match ?c with _ => _ end] =>
          lazymatch c with
          | scan _ _ => fail
          | _ => destruct c; step_cbn
          end
      end;
    cbn [fst]; do 3 eexists; reflexivity.
Qed.

(** The reset routine is called by reset detection and by nothing else. *)
Lemma step_resets (sc : sercomm) (sm : list sercomm_msg) (byte : Z) :
  resets (snd (sc_get_message big_endian sc sm byte)) =
  if reset_fires sc byte
  then match reset sc with Some r => [EvReset r] | None => [] end
  else [].
Proof.
  destruct sc; step_unfold.
  destruct (reset_bytes0 =? SERCOMM_OMIT_RESET) eqn:E; step_cbn;
    [|destruct (byte =? reset_byte0); step_cbn];
    rewrite ?E; step_cbn;
    repeat match goal with
      | |- context [if ?c then _ else _] => destruct c; step_cbn
      | |- context [match ?c with Some _ => _ | None => _ end] =>
          destruct c; step_cbn
      end;
    reflexivity.
Qed.

End Frame.

(** ** Streams *)

Section Streams.

Variable big_endian : bool.

Lemma sc_feed_cons (sc : sercomm) (sm : list sercomm_msg) (b : Z)
    (rest : list Z) :
  sc_feed big_endian sc sm (b :: rest) =
  (fst (sc_feed big_endian (fst (sc_get_message big_endian sc sm b)) sm rest),
   snd (sc_get_message big_endian sc sm b)
   ++ snd (sc_feed big_endian (fst (sc_get_message big_endian sc sm b))
             sm rest)).
Proof.
  cbn [sc_feed].
  destruct (sc_get_message big_endian sc sm b) as [sc1 ev1]. cbn [fst snd].
  destruct (sc_feed big_endian sc1 sm rest) as [sc2 ev2]. reflexivity.
Qed.

Lemma sc_feed_app (sm : list sercomm_msg) (l1 l2 : list Z) :
  forall sc,
    sc_feed big_endian sc sm (l1 ++ l2) =
    (fst (sc_feed big_endian (fst (sc_feed big_endian sc sm l1)) sm l2),
     snd (sc_feed big_endian sc sm l1)
     ++ snd (sc_feed big_endian (fst (sc_feed big_endian sc sm l1)) sm l2)).
Proof.
  induction l1 as [|b l1 IH]; intros sc.
  - cbn [app sc_feed fst snd].
    now destruct (sc_feed big_endian sc sm l2).
  - rewrite <- app_comm_cons, !sc_feed_cons, IH. cbn [fst snd].
    now rewrite app_assoc.
Qed.

Lemma resets_app (e1 e2 : list event) :
  resets (e1 ++ e2) = resets e1 ++ resets e2.
Proof. apply filter_app. Qed.

(** A run of reset bytes, from any state: the reset routine is called
    exactly when the counter passes [reset_bytes] on the way up, and the
    counter is never cleared along the run. *)
Lemma reset_run (sm : list sercomm_msg) (k : nat) :
  forall sc,
    reset_bytes sc <> SERCOMM_OMIT_RESET ->
    0 <= buffer_reset_bytes sc ->
    buffer_reset_bytes sc + Z.of_nat k <= 255 ->
    let r := sc_feed big_endian sc sm (repeat (reset_byte sc) k) in
    buffer_reset_bytes (fst r) = buffer_reset_bytes sc + Z.of_nat k /\
    reset_bytes (fst r) = reset_bytes sc /\
    reset_byte (fst r) = reset_byte sc /\
    reset (fst r) = reset sc /\
    resets (snd r) =
      if (buffer_reset_bytes sc <? reset_bytes sc)
         && (reset_bytes sc <=? buffer_reset_bytes sc + Z.of_nat k)
      then match reset sc with Some f => [EvReset f] | None => [] end
      else [].
Proof.
  induction k as [|k IH]; intros sc En C0 Ck.
  - cbn [repeat sc_feed fst snd resets filter].
    repeat split; try lia.
    destruct (Z.ltb_spec (buffer_reset_bytes sc) (reset_bytes sc)),
      (Z.leb_spec (reset_bytes sc) (buffer_reset_bytes sc + Z.of_nat 0));
      cbn [andb]; auto; lia.
  - cbn [repeat]. rewrite sc_feed_cons. cbn [fst snd].
    pose proof (step_resets big_endian sc sm (reset_byte sc)) as Hr.
    destruct (step_frame big_endian sc sm (reset_byte sc))
      as (b & l & m & Hf).
    set (sc1 := fst (sc_get_message big_endian sc sm (reset_byte sc))) in *.
    assert (Hc : reset_counter sc (reset_byte sc)
                 = buffer_reset_bytes sc + 1).
    { unfold reset_counter.
      destruct (Z.eqb_spec (reset_bytes sc) SERCOMM_OMIT_RESET);
        [contradiction|].
      rewrite Z.eqb_refl. apply u8_small. lia. }
    assert (H1 : buffer_reset_bytes sc1 = buffer_reset_bytes sc + 1
                 /\ reset_bytes sc1 = reset_bytes sc
                 /\ reset_byte sc1 = reset_byte sc
                 /\ reset sc1 = reset sc).
    { rewrite Hf, Hc. destruct sc; step_cbn. auto. }
    destruct H1 as (B1 & N1 & R1 & F1).
    destruct (IH sc1) as (B2 & N2 & R2 & F2 & E2); try lia.
    rewrite R1 in *. rewrite B2, N2, R2, F2.
    repeat split; try congruence; try lia.
    rewrite resets_app, Hr, E2. unfold reset_fires. rewrite Hc, B1, N1, F1.
    destruct (Z.eqb_spec (reset_bytes sc) SERCOMM_OMIT_RESET);
      [contradiction|]. cbn [negb andb].
    destruct (Z.eqb_spec (reset_bytes sc) (buffer_reset_bytes sc + 1)),
      (Z.ltb_spec (buffer_reset_bytes sc + 1) (reset_bytes sc)),
      (Z.leb_spec (reset_bytes sc)
         (buffer_reset_bytes sc + 1 + Z.of_nat k)),
      (Z.ltb_spec (buffer_reset_bytes sc) (reset_bytes sc)),
      (Z.leb_spec (reset_bytes sc)
         (buffer_reset_bytes sc + Z.of_nat (S k)));
      cbn [andb]; try lia; rewrite ?app_nil_r; reflexivity.
Qed.

End Streams.

Section Reset.

Variable big_endian : bool.

(** C10.  The reset-byte counter is cleared only by a byte other than
    [reset_byte]; triggering the reset does not clear it.  So, with
    [2 <= reset_bytes <= 127] and the counter at 0, a run of
    [2 * reset_bytes] reset bytes calls the reset routine at byte number
    [reset_bytes] (not before: the first [reset_bytes - 1] bytes call
    nothing) and never again, while the counter climbs to
    [2 * reset_bytes]. *)
Theorem reset_counter_not_cleared
    (sc : sercomm) (sm : list sercomm_msg) (r : callback) :
  2 <= reset_bytes sc <= 127 ->
  buffer_reset_bytes sc = 0 ->
  reset sc = Some r ->
  let n := Z.to_nat (reset_bytes sc) in
  let run k := sc_feed big_endian sc sm (repeat (reset_byte sc) k) in
  resets (snd (run (n - 1)%nat)) = [] /\
  resets (snd (run n)) = [EvReset r] /\
  buffer_reset_bytes (fst (run n)) = reset_bytes sc /\
  resets (snd (run (2 * n)%nat)) = [EvReset r] /\
  buffer_reset_bytes (fst (run (2 * n)%nat)) = 2 * reset_bytes sc.
Proof.
  intros Hn C0 Hr n run.
  assert (En : reset_bytes sc <> SERCOMM_OMIT_RESET)
    by (unfold SERCOMM_OMIT_RESET, UINT8_MAX; lia).
  assert (Q : forall k : nat,
             Z.of_nat k <= 255 ->
             buffer_reset_bytes (fst (run k)) = Z.of_nat k /\
             resets (snd (run k)) =
               if reset_bytes sc <=? Z.of_nat k then [EvReset r] else []).
  { intros k Hk.
    destruct (reset_run big_endian sm k sc En) as (B & _ & _ & _ & E);
      try lia.
    fold (run k) in B, E. rewrite B, E, C0, Hr.
    split; [lia|].
    destruct (Z.ltb_spec 0 (reset_bytes sc)); [reflexivity | lia]. }
  destruct (Q (n - 1)%nat) as [_ E1]; [lia|].
  destruct (Q n) as [B2 E2]; [lia|].
  destruct (Q (2 * n)%nat) as [B3 E3]; [lia|].
  rewrite E1, E2, E3, B2, B3.
  destruct (Z.leb_spec (reset_bytes sc) (Z.of_nat (n - 1))); [lia|].
  destruct (Z.leb_spec (reset_bytes sc) (Z.of_nat n)); [|lia].
  destruct (Z.leb_spec (reset_bytes sc) (Z.of_nat (2 * n))); [|lia].
  repeat split; lia.
Qed.

End Reset.

(** ** The field codec *)

Section Fields.

Variable big_endian : bool.

Lemma put_field_out (m : mem) (off v w j : Z) :
  j < off \/ off + w <= j -> put_field big_endian m off v w j = m j.
Proof.
  intros H. unfold put_field, store16, store32.
  destruct (Z.eqb_spec w 1); [apply upd_other; lia|].
  destruct (Z.eqb_spec w 2).
  { destruct big_endian; rewrite !upd_other by lia; reflexivity. }
  destruct (Z.eqb_spec w 4); [|reflexivity].
  destruct big_endian; rewrite !upd_other by lia; reflexivity.
Qed.

Lemma put_field_zero (m : mem) (off v : Z) :
  put_field big_endian m off v 0 = m.
Proof. reflexivity. Qed.

Lemma read_1 (m : mem) (off : Z) : read m off 1 = [m off].
Proof.
  unfold read. change (Z.to_nat 1) with 1%nat. simpl.
  rewrite ?Z.add_0_r. reflexivity.
Qed.

Lemma read_2 (m : mem) (off : Z) : read m off 2 = [m off; m (off + 1)].
Proof.
  unfold read. change (Z.to_nat 2) with 2%nat. simpl.
  rewrite ?Z.add_0_r. reflexivity.
Qed.

Lemma read_4 (m : mem) (off : Z) :
  read m off 4 = [m off; m (off + 1); m (off + 2); m (off + 3)].
Proof.
  unfold read. change (Z.to_nat 4) with 4%nat. simpl.
  rewrite ?Z.add_0_r. reflexivity.
Qed.

Lemma read_put_field (m : mem) (off v w : Z) :
  supported w ->
  read (put_field big_endian m off v w) off w = field_bytes big_endian v w.
Proof.
  intros [-> | [-> | ->]]; unfold put_field, field_bytes, store16, store32,
    u8, u16, u32; cbn [Z.eqb Pos.eqb].
  - rewrite read_1, upd_same.
    change (256 ^ 0) with 1. rewrite Z.div_1_r.
    now destruct big_endian.
  - rewrite read_2. change (256 ^ 0) with 1. change (256 ^ 1) with 256.
    rewrite Z.div_1_r.
    assert (E0 : v mod 65536 mod 256 = v mod 256)
      by (pose proof (Z.mod_pos_bound v 65536);
          Z.div_mod_to_equations; lia).
    assert (E1 : v mod 65536 / 256 = v / 256 mod 256)
      by (Z.div_mod_to_equations; lia).
    destruct big_endian; cbn [rev app];
      rewrite ?upd_same, ?(upd_other _ (off + 1)), ?upd_same by lia;
      now rewrite E0, E1.
  - rewrite read_4. change (256 ^ 0) with 1. change (256 ^ 1) with 256.
    change (256 ^ 2) with 65536. change (256 ^ 3) with 16777216.
    rewrite Z.div_1_r.
    assert (E0 : v mod 4294967296 mod 256 = v mod 256)
      by (Z.div_mod_to_equations; lia).
    assert (E1 : v mod 4294967296 / 256 mod 256 = v / 256 mod 256)
      by (Z.div_mod_to_equations; lia).
    assert (E2 : v mod 4294967296 / 65536 mod 256 = v / 65536 mod 256)
      by (Z.div_mod_to_equations; lia).
    assert (E3 : v mod 4294967296 / 16777216 = v / 16777216 mod 256)
      by (Z.div_mod_to_equations; lia).
    destruct big_endian; cbn [rev app];
      repeat (rewrite upd_same || rewrite upd_other by lia);
      now rewrite E0, E1, E2, E3.
Qed.

Lemma field_bytes_length (v w : Z) :
  supported w -> length (field_bytes big_endian v w) = Z.to_nat w.
Proof.
  intros [-> | [-> | ->]]; unfold field_bytes; cbn [Z.eqb Pos.eqb];
    destruct big_endian; reflexivity.
Qed.

(** Reading back what [put_field] stored. *)
Lemma get_put_field (d : Z) (m : mem) (off v w : Z) :
  supported w -> 0 <= v < 256 ^ w ->
  get_field big_endian d (put_field big_endian m off v w) off w = v.
Proof.
  intros [-> | [-> | ->]] Hv; unfold get_field, put_field, load16, load32,
    store16, store32, u8, u16, u32; cbn [Z.eqb Pos.eqb].
  - rewrite upd_same. apply Z.mod_small. lia.
  - change (256 ^ 2) with 65536 in Hv.
    rewrite (Z.mod_small v 65536) by lia.
    destruct big_endian;
      repeat (rewrite upd_same || rewrite upd_other by lia);
      Z.div_mod_to_equations; lia.
  - change (256 ^ 4) with 4294967296 in Hv.
    rewrite (Z.mod_small v 4294967296) by lia.
    destruct big_endian;
      repeat (rewrite upd_same || rewrite upd_other by lia);
      Z.div_mod_to_equations; lia.
Qed.

End Fields.

(** ** The encoder *)

Section Encoder.

Variable big_endian : bool.

Ltac u32_clean :=
  repeat match goal with
    | |- context [u32 ?x] => rewrite (u32_small x) by lia
    end.

(** The guards of the encoder, when no sum wraps around. *)
Lemma sc_make_message_guards (sc : sercomm) (cmd cctrl : Z)
    (msg : option mem) (mlen : Z) (output : mem) (olen : Z) :
  well_typed sc -> 0 <= mlen -> 0 <= olen <= 4294967295 ->
  let total :=
    frame_start_bytes sc + cmd_bytes sc + ts_bytes sc + len_bytes sc
    + mlen + hash_bytes sc + comm_ctrl_bytes sc in
  total <= 4294967295 ->
  fst (sc_make_message big_endian sc cmd cctrl msg mlen output olen) =
  if (olen <? total) || ((0 <? mlen) && match msg with None => true | Some _ => false end)
  then 0 else total.
Proof.
  intros WT Hm Ho total Ht. typed_fields WT.
  unfold sc_make_message. fold total. rewrite (u32_small total) by (subst total; lia).
  destruct (olen <? total); [reflexivity|].
  destruct ((0 <? mlen) && _); reflexivity.
Qed.

(** The frame before the hasher runs, field by field. *)
Lemma frame_regions (sc : sercomm) (cmd cctrl : Z)
    (msg : option mem) (mlen : Z) (output : mem) (olen : Z) :
  let cmd_ptr := frame_start_bytes sc in
  let ts_ptr := cmd_ptr + cmd_bytes sc in
  let len_ptr := ts_ptr + ts_bytes sc in
  let msg_ptr := len_ptr + len_bytes sc in
  let hash_ptr := msg_ptr + mlen in
  let ctrl_ptr := hash_ptr + hash_bytes sc in
  let total := ctrl_ptr + comm_ctrl_bytes sc in
  let stamp :=
    match (if 0 <? ts_bytes sc then ts sc else None) with
    | Some stamp => stamp
    | None => read output ts_ptr (ts_bytes sc)
    end in
  let payload :=
    match msg with Some body => read body 0 mlen | None => [] end in
  well_typed sc ->
  supported (cmd_bytes sc) ->
  supported (len_bytes sc) ->
  comm_ctrl_bytes sc = 0 \/ supported (comm_ctrl_bytes sc) ->
  0 <= mlen ->
  total <= olen <= 4294967295 ->
  (0 < mlen -> msg <> None) ->
  (0 < ts_bytes sc -> forall s, ts sc = Some s ->
     length s = Z.to_nat (ts_bytes sc)) ->
  exists o1,
    fst (sc_make_message big_endian sc cmd cctrl msg mlen output olen)
      = total /\
    snd (sc_make_message big_endian sc cmd cctrl msg mlen output olen)
      = (if 0 <? hash_bytes sc
         then match hash sc with
              | Some h =>
                  store_bytes o1 hash_ptr
                    (h (read o1 cmd_ptr
                          (cmd_bytes sc + ts_bytes sc + len_bytes sc + mlen)))
              | None => o1
              end
         else o1) /\
    read o1 0 cmd_ptr = read (frame_start sc) 0 (frame_start_bytes sc) /\
    read o1 cmd_ptr (cmd_bytes sc)
      = field_bytes big_endian cmd (cmd_bytes sc) /\
    read o1 ts_ptr (ts_bytes sc) = stamp /\
    read o1 len_ptr (len_bytes sc)
      = field_bytes big_endian mlen (len_bytes sc) /\
    read o1 msg_ptr mlen = payload /\
    read o1 hash_ptr (hash_bytes sc) = repeat 0 (Z.to_nat (hash_bytes sc)) /\
    read o1 ctrl_ptr (comm_ctrl_bytes sc)
      = field_bytes big_endian cctrl (comm_ctrl_bytes sc) /\
    (forall j, j < 0 \/ total <= j -> o1 j = output j).
Proof.
  intros cmd_ptr ts_ptr len_ptr msg_ptr hash_ptr ctrl_ptr total stamp payload
    WT Sc Sl Scc Hm Ho Hmsg Hts.
  typed_fields WT.
  assert (Hg : (0 <? mlen) && match msg with None => true | Some _ => false end
               = false).
  { destruct msg; [apply andb_false_r|].
    destruct (Z.ltb_spec 0 mlen); [|reflexivity].
    now destruct Hmsg. }
  unfold sc_make_message. rewrite Hg.
  subst total ctrl_ptr hash_ptr msg_ptr len_ptr ts_ptr cmd_ptr.
  u32_clean.
  destruct (Z.ltb_spec olen (frame_start_bytes sc + cmd_bytes sc + ts_bytes sc
                 + len_bytes sc + mlen + hash_bytes sc + comm_ctrl_bytes sc));
    [lia|].
  cbn [fst snd]. rewrite Z.add_simpl_r.
  set (p1 := frame_start_bytes sc + cmd_bytes sc) in *.
  set (p2 := p1 + ts_bytes sc) in *.
  set (p3 := p2 + len_bytes sc) in *.
  set (p4 := p3 + mlen) in *.
  set (p5 := p4 + hash_bytes sc) in *.
  set (m1 := if 0 <? frame_start_bytes sc
             then memcpy output 0 (frame_start sc) 0 (frame_start_bytes sc)
             else output).
  set (m2 := put_field big_endian m1 (frame_start_bytes sc) cmd
               (cmd_bytes sc)).
  set (m3 := if 0 <? ts_bytes sc
             then match ts sc with
                  | Some s => store_bytes m2 p1 s
                  | None => m2
                  end
             else m2).
  set (m4 := put_field big_endian m3 p2 mlen (len_bytes sc)).
  set (m5 := match msg with
             | Some body => memcpy m4 p3 body 0 mlen
             | None => m4
             end).
  set (m6 := if 0 <? hash_bytes sc then memset m5 p4 0 (hash_bytes sc)
             else m5).
  set (m7 := if 0 <? comm_ctrl_bytes sc
             then put_field big_endian m6 p5 cctrl (comm_ctrl_bytes sc)
             else m6).
  exists m7. split; [reflexivity|]. split; [reflexivity|].
  assert (Aout : forall j, j < 0 \/ frame_start_bytes sc <= j ->
                           m1 j = output j).
  { intros j Hj. subst m1. destruct (0 <? frame_start_bytes sc); auto.
    apply memcpy_out. lia. }
  assert (Bout : forall j, j < frame_start_bytes sc \/ p1 <= j ->
                           m2 j = m1 j).
  { intros j Hj. subst m2. apply put_field_out. subst p1. lia. }
  assert (Cout : forall j, j < p1 \/ p2 <= j -> m3 j = m2 j).
  { intros j Hj. subst m3.
    destruct (Z.ltb_spec 0 (ts_bytes sc)); auto.
    destruct (ts sc) as [s|] eqn:Es; auto.
    apply store_bytes_out. rewrite (Hts H14 s eq_refl). subst p2. lia. }
  assert (Dout : forall j, j < p2 \/ p3 <= j -> m4 j = m3 j).
  { intros j Hj. subst m4. apply put_field_out. subst p3. lia. }
  assert (Eout : forall j, j < p3 \/ p4 <= j -> m5 j = m4 j).
  { intros j Hj. subst m5. destruct msg; auto. apply memcpy_out.
    subst p4. lia. }
  assert (Fout : forall j, j < p4 \/ p5 <= j -> m6 j = m5 j).
  { intros j Hj. subst m6. destruct (0 <? hash_bytes sc); auto.
    apply memset_out. subst p5. lia. }
  assert (Gout : forall j, j < p5 \/ p5 + comm_ctrl_bytes sc <= j ->
                           m7 j = m6 j).
  { intros j Hj. subst m7. destruct (0 <? comm_ctrl_bytes sc); auto.
    apply put_field_out. lia. }
  subst p1 p2 p3 p4 p5.
  split; [|split; [|split; [|split; [|split; [|split; [|split]]]]]].
  8:{ intros j Hj.
      rewrite Gout, Fout, Eout, Dout, Cout, Bout, Aout by lia.
      reflexivity. }
  - transitivity (read m1 0 (frame_start_bytes sc)).
    + apply read_ext. intros i Hi.
      rewrite Gout, Fout, Eout, Dout, Cout, Bout by lia. reflexivity.
    + apply read_ext. intros i Hi. subst m1.
      destruct (Z.ltb_spec 0 (frame_start_bytes sc)); [|lia].
      rewrite memcpy_in by lia. f_equal. lia.
  - transitivity (read m2 (frame_start_bytes sc) (cmd_bytes sc)).
    + apply read_ext. intros i Hi.
      rewrite Gout, Fout, Eout, Dout, Cout by lia. reflexivity.
    + subst m2. now apply read_put_field.
  - transitivity (read m3 (frame_start_bytes sc + cmd_bytes sc) (ts_bytes sc)).
    + apply read_ext. intros i Hi.
      rewrite Gout, Fout, Eout, Dout by lia. reflexivity.
    + subst m3 stamp. destruct (Z.ltb_spec 0 (ts_bytes sc)).
      * destruct (ts sc) as [s|] eqn:Es.
        -- replace (ts_bytes sc) with (Z.of_nat (length s))
             by (rewrite (Hts H14 s eq_refl); lia).
           apply read_store_bytes.
        -- apply read_ext. intros i Hi. rewrite Bout, Aout by lia.
           reflexivity.
      * apply read_ext. intros i Hi. lia.
  - transitivity (read m4 (frame_start_bytes sc + cmd_bytes sc + ts_bytes sc) (len_bytes sc)).
    + apply read_ext. intros i Hi.
      rewrite Gout, Fout, Eout by lia. reflexivity.
    + subst m4. now apply read_put_field.
  - transitivity (read m5 (frame_start_bytes sc + cmd_bytes sc + ts_bytes sc + len_bytes sc) mlen).
    + apply read_ext. intros i Hi.
      rewrite Gout, Fout by lia. reflexivity.
    + subst m5 payload. destruct msg as [body|].
      * apply read_ext. intros i Hi. rewrite memcpy_in by lia.
        f_equal. lia.
      * destruct (Z.ltb_spec 0 mlen); [now destruct Hmsg|].
        replace mlen with 0 by lia. reflexivity.
  - transitivity (read m6 (frame_start_bytes sc + cmd_bytes sc + ts_bytes sc + len_bytes sc + mlen) (hash_bytes sc)).
    + apply read_ext. intros i Hi. rewrite Gout by lia. reflexivity.
    + apply nth_ext with (d := 0) (d' := 0).
      * now rewrite read_length, repeat_length.
      * intros i Hi. rewrite read_length in Hi.
        rewrite read_nth, nth_repeat by assumption. subst m6.
        destruct (Z.ltb_spec 0 (hash_bytes sc)); [|lia].
        apply memset_in. lia.
  - subst m7. destruct Scc as [Z0|S].
    + rewrite Z0. now destruct big_endian.
    + destruct (Z.ltb_spec 0 (comm_ctrl_bytes sc));
        [|destruct S as [?|[?|?]]; lia].
      now apply read_put_field.
Qed.


(** C6.  On success the frame is laid out as sync pattern, command,
    timestamp, length, payload, hash field, control value, with the hash
    field between the payload and the control value.  [o1] is the output
    once the control value is stored: its hash field is all zeros.  Only
    then does the hasher run, over the bytes of [o1] from the start of the
    command field to the end of the payload, and what it stores goes over
    the zeros at the start of the hash field.  Nothing outside the frame is
    written before the hasher runs. *)
Theorem encoder_layout (sc : sercomm) (cmd cctrl : Z)
    (msg : option mem) (mlen : Z) (output : mem) (olen : Z) :
  let cmd_ptr := frame_start_bytes sc in
  let ts_ptr := cmd_ptr + cmd_bytes sc in
  let len_ptr := ts_ptr + ts_bytes sc in
  let msg_ptr := len_ptr + len_bytes sc in
  let hash_ptr := msg_ptr + mlen in
  let ctrl_ptr := hash_ptr + hash_bytes sc in
  let total := ctrl_ptr + comm_ctrl_bytes sc in
  let stamp :=
    match (if 0 <? ts_bytes sc then ts sc else None) with
    | Some stamp => stamp
    | None => read output ts_ptr (ts_bytes sc)
    end in
  let payload :=
    match msg with Some body => read body 0 mlen | None => [] end in
  well_typed sc ->
  supported (cmd_bytes sc) ->
  supported (len_bytes sc) ->
  comm_ctrl_bytes sc = 0 \/ supported (comm_ctrl_bytes sc) ->
  0 <= mlen ->
  total <= olen <= 4294967295 ->
  (0 < mlen -> msg <> None) ->
  (0 < ts_bytes sc -> forall s, ts sc = Some s ->
     length s = Z.to_nat (ts_bytes sc)) ->
  exists o1,
    fst (sc_make_message big_endian sc cmd cctrl msg mlen output olen)
      = total /\
    snd (sc_make_message big_endian sc cmd cctrl msg mlen output olen)
      = (if 0 <? hash_bytes sc
         then match hash sc with
              | Some h =>
                  store_bytes o1 hash_ptr
                    (h (read o1 cmd_ptr
                          (cmd_bytes sc + ts_bytes sc + len_bytes sc + mlen)))
              | None => o1
              end
         else o1) /\
    read o1 0 total =
      read (frame_start sc) 0 (frame_start_bytes sc)
      ++ field_bytes big_endian cmd (cmd_bytes sc)
      ++ stamp
      ++ field_bytes big_endian mlen (len_bytes sc)
      ++ payload
      ++ repeat 0 (Z.to_nat (hash_bytes sc))
      ++ field_bytes big_endian cctrl (comm_ctrl_bytes sc) /\
    (forall j, j < 0 \/ total <= j -> o1 j = output j).
Proof.
  intros cmd_ptr ts_ptr len_ptr msg_ptr hash_ptr ctrl_ptr total stamp payload
    WT Sc Sl Scc Hm Ho Hmsg Hts.
  destruct (frame_regions sc cmd cctrl msg mlen output olen
              WT Sc Sl Scc Hm Ho Hmsg Hts)
    as (o1 & R & O & A & B & C & D & E & F & G & Out).
  exists o1. split; [exact R|]. split; [exact O|]. split; [|exact Out].
  typed_fields WT.
  subst total ctrl_ptr hash_ptr msg_ptr len_ptr ts_ptr cmd_ptr.
  rewrite !read_split by lia. rewrite <- !app_assoc, !Z.add_0_l.
  now rewrite A, B, C, D, E, F, G.
Qed.

End Encoder.

(** ** Decoder states over a fixed layout *)

Lemma at_cmd_bytes (sc : sercomm) (b : mem) (l m c : Z) :
  cmd_bytes (decoder_at sc b l m c) = cmd_bytes sc.
Proof. now destruct sc. Qed.

Lemma at_ts_bytes (sc : sercomm) (b : mem) (l m c : Z) :
  ts_bytes (decoder_at sc b l m c) = ts_bytes sc.
Proof. now destruct sc. Qed.

Lemma at_ts (sc : sercomm) (b : mem) (l m c : Z) :
  ts (decoder_at sc b l m c) = ts sc.
Proof. now destruct sc. Qed.

Lemma at_len_bytes (sc : sercomm) (b : mem) (l m c : Z) :
  len_bytes (decoder_at sc b l m c) = len_bytes sc.
Proof. now destruct sc. Qed.

Lemma at_hash_bytes (sc : sercomm) (b : mem) (l m c : Z) :
  hash_bytes (decoder_at sc b l m c) = hash_bytes sc.
Proof. now destruct sc. Qed.

Lemma at_hash (sc : sercomm) (b : mem) (l m c : Z) :
  hash (decoder_at sc b l m c) = hash sc.
Proof. now destruct sc. Qed.

Lemma at_comm_ctrl_bytes (sc : sercomm) (b : mem) (l m c : Z) :
  comm_ctrl_bytes (decoder_at sc b l m c) = comm_ctrl_bytes sc.
Proof. now destruct sc. Qed.

Lemma at_frame_start_bytes (sc : sercomm) (b : mem) (l m c : Z) :
  frame_start_bytes (decoder_at sc b l m c) = frame_start_bytes sc.
Proof. now destruct sc. Qed.

Lemma at_reset_byte (sc : sercomm) (b : mem) (l m c : Z) :
  reset_byte (decoder_at sc b l m c) = reset_byte sc.
Proof. now destruct sc. Qed.

Lemma at_reset_bytes (sc : sercomm) (b : mem) (l m c : Z) :
  reset_bytes (decoder_at sc b l m c) = reset_bytes sc.
Proof. now destruct sc. Qed.

Lemma at_reset (sc : sercomm) (b : mem) (l m c : Z) :
  reset (decoder_at sc b l m c) = reset sc.
Proof. now destruct sc. Qed.

Lemma at_buffer_size (sc : sercomm) (b : mem) (l m c : Z) :
  buffer_size (decoder_at sc b l m c) = buffer_size sc.
Proof. now destruct sc. Qed.

Lemma at_message_valid_len (sc : sercomm) (b : mem) (l m c : Z) :
  message_valid_len (decoder_at sc b l m c) = message_valid_len sc.
Proof. now destruct sc. Qed.

Lemma at_message_max_len (sc : sercomm) (b : mem) (l m c : Z) :
  message_max_len (decoder_at sc b l m c) = message_max_len sc.
Proof. now destruct sc. Qed.

Lemma at_priv (sc : sercomm) (b : mem) (l m c : Z) :
  priv (decoder_at sc b l m c) = priv sc.
Proof. now destruct sc. Qed.

Lemma at_frame_start (sc : sercomm) (b : mem) (l m c : Z) :
  frame_start (decoder_at sc b l m c) = frame_start sc.
Proof. now destruct sc. Qed.

Lemma at_buffer (sc : sercomm) (b : mem) (l m c : Z) :
  buffer (decoder_at sc b l m c) = b.
Proof. now destruct sc. Qed.

Lemma at_buffer_len (sc : sercomm) (b : mem) (l m c : Z) :
  buffer_len (decoder_at sc b l m c) = l.
Proof. now destruct sc. Qed.

Lemma at_message_len (sc : sercomm) (b : mem) (l m c : Z) :
  message_len (decoder_at sc b l m c) = m.
Proof. now destruct sc. Qed.

Lemma at_buffer_reset_bytes (sc : sercomm) (b : mem) (l m c : Z) :
  buffer_reset_bytes (decoder_at sc b l m c) = c.
Proof. now destruct sc. Qed.

Lemma at_self (sc : sercomm) :
  decoder_at sc (buffer sc) (buffer_len sc) (message_len sc)
    (buffer_reset_bytes sc) = sc.
Proof. now destruct sc. Qed.

Lemma at_with_buffer (sc : sercomm) (b : mem) (l m c : Z) (b' : mem) :
  with_buffer (decoder_at sc b l m c) b' = decoder_at sc b' l m c.
Proof. now destruct sc. Qed.

Lemma at_with_buffer_len (sc : sercomm) (b : mem) (l m c l' : Z) :
  with_buffer_len (decoder_at sc b l m c) l' = decoder_at sc b l' m c.
Proof. now destruct sc. Qed.

Lemma at_with_message_len (sc : sercomm) (b : mem) (l m c m' : Z) :
  with_message_len (decoder_at sc b l m c) m' = decoder_at sc b l m' c.
Proof. now destruct sc. Qed.

Lemma at_header_len (sc : sercomm) (b : mem) (l m c : Z) :
  header_len (decoder_at sc b l m c) = header_len sc.
Proof. now destruct sc. Qed.

Lemma at_frame_len (sc : sercomm) (b : mem) (l m c : Z) :
  frame_len (decoder_at sc b l m c) =
  u32 (frame_start_bytes sc + cmd_bytes sc + ts_bytes sc + len_bytes sc
       + m + hash_bytes sc + comm_ctrl_bytes sc).
Proof. now destruct sc. Qed.

Lemma at_reset_counter (sc : sercomm) (b : mem) (l m c y : Z) :
  reset_counter (decoder_at sc b l m c) y =
  if reset_bytes sc =? SERCOMM_OMIT_RESET then c
  else if y =? reset_byte sc then u8 (c + 1) else 0.
Proof. now destruct sc. Qed.

Lemma at_appended (sc : sercomm) (b : mem) (l m c y : Z) :
  appended (decoder_at sc b l m c) y =
  decoder_at sc (upd b l y) (u32 (l + 1)) m
    (reset_counter (decoder_at sc b l m c) y).
Proof. now destruct sc. Qed.

Create Rewrite HintDb at_proj.
#[global] Hint Rewrite
  at_cmd_bytes at_ts_bytes at_ts at_len_bytes at_hash_bytes at_hash
  at_comm_ctrl_bytes at_frame_start_bytes at_reset_byte at_reset_bytes
  at_reset at_buffer_size at_message_valid_len at_message_max_len at_priv
  at_frame_start at_buffer at_buffer_len at_message_len
  at_buffer_reset_bytes at_with_buffer at_with_buffer_len
  at_with_message_len at_header_len at_frame_len at_appended : at_proj.

(** ** Decoding a frame *)

Lemma read_cons (m : mem) (off : Z) (k : nat) :
  read m off (Z.of_nat (S k)) = m off :: read m (off + 1) (Z.of_nat k).
Proof.
  unfold read. rewrite !Nat2Z.id. cbn [seq map]. rewrite Z.add_0_r.
  f_equal. rewrite <- seq_shift, map_map. apply map_ext. intros i.
  f_equal. lia.
Qed.

Section FieldDecoding.

Variable big_endian : bool.

(** A field that holds the bytes of [v] decodes to [v]. *)
Lemma get_field_of_bytes (d : Z) (m : mem) (off v w : Z) :
  supported w -> 0 <= v < 256 ^ w ->
  read m off w = field_bytes big_endian v w ->
  get_field big_endian d m off w = v.
Proof.
  intros S Hv Hr.
  rewrite <- (get_put_field big_endian d m off v w S Hv).
  apply get_field_ext. intros j Hj.
  assert (E : read m off w = read (put_field big_endian m off v w) off w)
    by now rewrite read_put_field.
  assert (Hn : (Z.to_nat (j - off) < Z.to_nat w)%nat) by lia.
  pose proof (read_nth m off w (Z.to_nat (j - off)) 0 Hn) as E1.
  pose proof (read_nth (put_field big_endian m off v w) off w
                (Z.to_nat (j - off)) 0 Hn) as E2.
  rewrite E in E1. rewrite E1 in E2.
  replace (off + Z.of_nat (Z.to_nat (j - off))) with j in E2 by lia.
  exact E2.
Qed.

End FieldDecoding.

Section FrameDecode.

Variable big_endian : bool.
Variables (sc0 : sercomm) (sm : list sercomm_msg) (out : mem).
Variables (c0 cc0 mlen m0 : Z) (h : hash_fn) (f : callback).

Let cmd_ptr := frame_start_bytes sc0.
Let ts_ptr := cmd_ptr + cmd_bytes sc0.
Let msg_ptr := ts_ptr + ts_bytes sc0 + len_bytes sc0.
Let hash_ptr := msg_ptr + mlen.
Let ctrl_ptr := hash_ptr + hash_bytes sc0.
Let total := ctrl_ptr + comm_ctrl_bytes sc0.

Hypothesis WT : well_typed sc0.
Hypothesis Hcb : 0 < cmd_bytes sc0 + ts_bytes sc0 + len_bytes sc0.
Hypothesis Hml : 0 <= mlen.
Hypothesis Hpos : 0 < mlen + hash_bytes sc0 + comm_ctrl_bytes sc0.
Hypothesis Htot : total <= 4294967295.
Hypothesis Hm0 : 0 <= m0.
Hypothesis Hm0' :
  msg_ptr + m0 + hash_bytes sc0 + comm_ctrl_bytes sc0 <= 4294967295.
Hypothesis Hh : hash sc0 = Some h.
Hypothesis Hhl : forall l, length (h l) = Z.to_nat (hash_bytes sc0).
Hypothesis Hok : length_ok sc0 mlen.
Hypothesis Hf : first_match sm c0 f.
Hypothesis Fsync :
  read out 0 cmd_ptr = read (frame_start sc0) 0 (frame_start_bytes sc0).
Hypothesis Flen :
  forall d, get_field big_endian d out (msg_ptr - len_bytes sc0)
              (len_bytes sc0) = mlen.
Hypothesis Fcmd : get_field big_endian 0 out cmd_ptr (cmd_bytes sc0) = c0.
Hypothesis Fctrl :
  (if 0 <? comm_ctrl_bytes sc0
   then get_field big_endian 0 out ctrl_ptr (comm_ctrl_bytes sc0)
   else 0) = cc0.
Hypothesis Fhash :
  read out hash_ptr (hash_bytes sc0)
  = h (read out cmd_ptr (hash_ptr - cmd_ptr)).

Let quiet (c : Z) (l : list Z) : Prop :=
  reset_bytes sc0 = SERCOMM_OMIT_RESET \/
  reset_trips (reset_byte sc0) (reset_bytes sc0) c l = false.

Lemma quiet_cons (b : mem) (p m c y : Z) (l : list Z) :
  quiet c (y :: l) ->
  reset_fires (decoder_at sc0 b p m c) y = false /\
  quiet (reset_counter (decoder_at sc0 b p m c) y) l.
Proof.
  unfold quiet, reset_fires. rewrite at_reset_counter.
  autorewrite with at_proj.
  intros [E|E].
  - rewrite E, Z.eqb_refl. cbn [negb andb]. auto.
  - destruct (Z.eqb_spec (reset_bytes sc0) SERCOMM_OMIT_RESET) as [O|O];
      cbn [negb andb]; [auto|].
    cbn [reset_trips] in E. apply orb_false_iff in E. destruct E as [E1 E2].
    split; [exact E1 | now right].
Qed.

Ltac ptr_lia :=
  unfold total, ctrl_ptr, hash_ptr, msg_ptr, ts_ptr, cmd_ptr in *; lia.

Ltac next_state IH b1 p1 m c1 Hb1 Hlo Hhi Hq1 :=
  destruct (IH b1 p1 m c1) as (b' & c' & E & Hb');
  [ ptr_lia | ptr_lia | ptr_lia | exact Hb1
  | intros L; first [apply Hlo; ptr_lia | exfalso; ptr_lia | reflexivity]
  | intros L; first [apply Hhi; ptr_lia | exfalso; ptr_lia | reflexivity]
  | exact Hq1
  | exists b', c'; rewrite E; cbn [fst snd]; auto ].

Lemma decode_from (k : nat) :
  forall (b : mem) (p m c : Z),
    (1 <= k)%nat -> p + Z.of_nat k = total -> 0 <= p ->
    (forall j, 0 <= j < p -> b j = out j) ->
    (p < msg_ptr -> m = m0) -> (msg_ptr <= p -> m = mlen) ->
    quiet c (read out p (Z.of_nat k)) ->
    exists b' c',
      sc_feed big_endian (decoder_at sc0 b p m c) sm
        (read out p (Z.of_nat k)) =
      (decoder_at sc0 b' 0 mlen c',
       [EvCall f ts_ptr mlen msg_ptr cc0 (priv sc0)]) /\
      (forall j, 0 <= j < total -> b' j = out j).
Proof.
  pose proof WT as WT'. typed_fields WT'.
  induction k as [|k IH]; intros b p m c Hk Hp Hp0 Hb Hlo Hhi Hq; [lia|].
  rewrite read_cons in *. rewrite sc_feed_cons.
  set (y := out p) in *.
  set (sc := decoder_at sc0 b p m c).
  destruct (quiet_cons b p m c y _ Hq) as [Hr Hq1]. fold sc in Hr, Hq1.
  set (c1 := reset_counter sc y) in *.
  set (b1 := upd b p y).
  assert (Hb1 : forall j, 0 <= j < p + 1 -> b1 j = out j).
  { intros j Hj. subst b1. unfold upd.
    destruct (Z.eqb_spec j p) as [->|]; [reflexivity|]. apply Hb. lia. }
  assert (Up : u32 (p + 1) = p + 1) by (apply u32_small; lia).
  assert (Hl : buffer_len sc = p) by (subst sc; now autorewrite with at_proj).
  assert (HH : header_len sc = msg_ptr).
  { subst sc. autorewrite with at_proj. unfold header_len.
    rewrite u32_small; ptr_lia. }
  assert (HF : frame_len sc = msg_ptr + m + hash_bytes sc0
                              + comm_ctrl_bytes sc0).
  { subst sc. autorewrite with at_proj.
    destruct (Z.lt_ge_cases p msg_ptr) as [L|L].
    - rewrite (Hlo L). rewrite u32_small; ptr_lia.
    - rewrite (Hhi L).
      rewrite u32_small; ptr_lia. }
  assert (HA : appended sc y = decoder_at sc0 b1 (p + 1) m c1).
  { subst sc. rewrite at_appended, Up. reflexivity. }
  assert (Hfs : frame_start_bytes sc = cmd_ptr)
    by (subst sc; now autorewrite with at_proj).
  destruct (Z.eq_dec (p + 1) cmd_ptr) as [Esync|Nsync].
  { (* sync checkpoint: the buffer holds the sync pattern *)
    rewrite sync_step by (rewrite ?Hl, ?Up, ?Hfs; auto).
    rewrite HA. subst sc. autorewrite with at_proj.
    replace (memcmp b1 0 (frame_start sc0) 0 (frame_start_bytes sc0)) with 0.
    2:{ symmetry. apply memcmp_zero. rewrite <- Fsync. apply read_ext.
        intros i Hi. apply Hb1. ptr_lia. }
    cbn [Z.eqb fst snd app].
    next_state IH b1 (p + 1) m c1 Hb1 Hlo Hhi Hq1. }
  destruct (Z.eq_dec (p + 1) msg_ptr) as [Ehdr|Nhdr].
  { (* header checkpoint: the length field holds [mlen] *)
    rewrite header_step by (rewrite ?Hl, ?Up, ?Hfs, ?HH; auto).
    rewrite HA. subst sc. autorewrite with at_proj.
    cbv zeta. autorewrite with at_proj.
    replace (get_field big_endian m b1 (u32 (header_len sc0 - len_bytes sc0))
               (len_bytes sc0)) with mlen.
    2:{ symmetry. rewrite <- (Flen m).
        rewrite at_header_len in HH. rewrite HH.
        rewrite u32_small by (ptr_lia).
        apply get_field_ext. intros j Hj. apply Hb1.
        ptr_lia. }
    assert (Pol : (if message_valid_len sc0 =? SERCOMM_IGNORE_MSG_VALID_LENGTH
                   then message_max_len sc0 <? mlen
                   else negb (mlen =? message_valid_len sc0)) = false).
    { unfold length_ok in Hok.
      destruct (message_valid_len sc0 =? SERCOMM_IGNORE_MSG_VALID_LENGTH).
      - apply Z.ltb_ge. exact Hok.
      - rewrite Hok, Z.eqb_refl. reflexivity. }
    rewrite Pol. cbn [fst snd app].
    next_state IH b1 (p + 1) mlen c1 Hb1 Hlo Hhi Hq1. }
  destruct (Z.eq_dec (p + 1) total) as [Eend|Nend].
  { (* completion checkpoint: the hash field holds the hash *)
    assert (Em : m = mlen).
    { apply Hhi. ptr_lia. }
    assert (K : k = O) by lia. subst k.
    rewrite completion_step;
      [| exact Hr | rewrite Hl, Up, Hfs; exact Nsync
       | rewrite Hl, Up, HH; exact Nhdr
       | rewrite Hl, Up, HF, Em;
         ptr_lia ].
    rewrite HA. subst sc. autorewrite with at_proj. rewrite Hh.
    cbv zeta. autorewrite with at_proj. rewrite Em.
    replace (u32 (cmd_bytes sc0 + ts_bytes sc0 + len_bytes sc0 + mlen))
      with (hash_ptr - cmd_ptr)
      by (rewrite u32_small; ptr_lia).
    replace (u32 (hash_ptr - cmd_ptr + frame_start_bytes sc0)) with hash_ptr
      by (rewrite u32_small; ptr_lia).
    set (computed := h (read b1 (frame_start_bytes sc0) (hash_ptr - cmd_ptr))).
    set (b2 := store_bytes b1 (p + 1) computed).
    assert (Hb2 : forall j, 0 <= j < p + 1 -> b2 j = out j).
    { intros j Hj. subst b2. rewrite store_bytes_out by lia. now apply Hb1. }
    assert (Hcomp : computed = read out hash_ptr (hash_bytes sc0)).
    { rewrite Fhash. subst computed. f_equal. apply read_ext.
      intros i Hi. apply Hb1.
      ptr_lia. }
    replace (memcmp b2 (p + 1) b2 hash_ptr (hash_bytes sc0)) with 0.
    2:{ symmetry. apply memcmp_zero.
        transitivity computed.
        - subst b2. replace (hash_bytes sc0)
            with (Z.of_nat (length computed))
            by (subst computed; rewrite Hhl; lia).
          apply read_store_bytes.
        - rewrite Hcomp. apply read_ext. intros i Hi. symmetry. apply Hb2.
          ptr_lia. }
    cbn [Z.eqb].
    replace (get_field big_endian 0 b2 (frame_start_bytes sc0)
               (cmd_bytes sc0)) with c0.
    2:{ rewrite <- Fcmd. apply get_field_ext. intros j Hj. symmetry.
        apply Hb2. ptr_lia. }
    rewrite (scan_first_match _ _ _ Hf).
    replace (if 0 <? comm_ctrl_bytes sc0
             then get_field big_endian 0 b2
                    (u32 (p + 1 - comm_ctrl_bytes sc0))
                    (comm_ctrl_bytes sc0)
             else 0) with cc0.
    2:{ rewrite <- Fctrl. destruct (Z.ltb_spec 0 (comm_ctrl_bytes sc0));
          [|reflexivity].
        rewrite u32_small by lia.
        replace (p + 1 - comm_ctrl_bytes sc0) with ctrl_ptr
          by (ptr_lia).
        apply get_field_ext. intros j Hj. symmetry. apply Hb2.
        ptr_lia. }
    cbn [read Z.of_nat Z.to_nat seq map sc_feed fst snd app].
    exists b2, c1. split.
    - rewrite at_header_len in HH. rewrite HH. reflexivity.
    - intros j Hj. apply Hb2. lia. }
  (* any other byte is stored and nothing else happens *)
  rewrite plain_step;
    [| exact Hr | rewrite Hl, Up, Hfs; exact Nsync
     | rewrite Hl, Up, HH; exact Nhdr | rewrite Hl, Up, HF ].
  2:{ destruct (Z.lt_ge_cases p msg_ptr) as [L|L].
      - rewrite (Hlo L). lia.
      - rewrite (Hhi L). ptr_lia. }
  rewrite HA. cbn [fst snd app].
  next_state IH b1 (p + 1) m c1 Hb1 Hlo Hhi Hq1.
Qed.

End FrameDecode.

(** ** Round trip *)

Section RoundTrip.

Variable big_endian : bool.

(** Encoding a frame and feeding it to a decoder at rest, for any stale
    payload length [message_len sc] that keeps the completion threshold
    within 32 bits. *)
Lemma encode_then_decode (sc : sercomm) (sm : list sercomm_msg)
    (cmd cctrl : Z) (msg : option mem) (mlen : Z) (output : mem) (olen : Z)
    (h : hash_fn) (f : callback) :
  let ts_ptr := frame_start_bytes sc + cmd_bytes sc in
  let msg_ptr := ts_ptr + ts_bytes sc + len_bytes sc in
  let total := msg_ptr + mlen + hash_bytes sc + comm_ctrl_bytes sc in
  let payload :=
    match msg with Some body => read body 0 mlen | None => [] end in
  let r := sc_make_message big_endian sc cmd cctrl msg mlen output olen in
  let frame := read (snd r) 0 (fst r) in
  well_typed sc ->
  supported (cmd_bytes sc) ->
  supported (len_bytes sc) ->
  comm_ctrl_bytes sc = 0 \/ supported (comm_ctrl_bytes sc) ->
  hash sc = Some h ->
  (forall l, length (h l) = Z.to_nat (hash_bytes sc)) ->
  (0 < ts_bytes sc -> forall s, ts sc = Some s ->
     length s = Z.to_nat (ts_bytes sc)) ->
  0 <= cmd < 256 ^ cmd_bytes sc ->
  0 <= mlen < 256 ^ len_bytes sc ->
  0 <= cctrl < 256 ^ comm_ctrl_bytes sc ->
  (0 < mlen -> msg <> None) ->
  length_ok sc mlen ->
  0 < mlen + hash_bytes sc + comm_ctrl_bytes sc ->
  total <= olen <= 4294967295 ->
  first_match sm cmd f ->
  buffer_len sc = 0 ->
  msg_ptr + message_len sc + hash_bytes sc + comm_ctrl_bytes sc
    <= 4294967295 ->
  reset_quiet sc frame ->
  exists sc',
    sc_feed big_endian sc sm frame =
      (sc', [EvCall f ts_ptr mlen msg_ptr cctrl (priv sc)]) /\
    read (buffer sc') msg_ptr mlen = payload /\
    buffer_len sc' = 0.
Proof.
  intros ts_ptr msg_ptr total payload r frame
    WT Sc Sl Scc Hh Hhl Hts Hcmd Hmlen Hctrl Hmsg Hok Hpos Ho Hf Hbl Hstale Hq.
  destruct (frame_regions big_endian sc cmd cctrl msg mlen output olen
              WT Sc Sl Scc (proj1 Hmlen) Ho Hmsg Hts)
    as (o1 & R & O & RA & RB & RC & RD & RE & RF & RG & Out).
  fold r in R, O. subst frame. rewrite R in *.
  set (out := snd r) in *. rewrite Hh in O.
  pose proof WT as WT'. typed_fields WT'.
  set (hash_ptr := msg_ptr + mlen) in *.
  assert (Hout : forall j, j < hash_ptr \/ hash_ptr + hash_bytes sc <= j ->
                           out j = o1 j).
  { intros j Hj. rewrite O. destruct (0 <? hash_bytes sc); [|reflexivity].
    apply store_bytes_out. rewrite Hhl. lia. }
  assert (Hcb : 0 < cmd_bytes sc + ts_bytes sc + len_bytes sc)
    by (destruct Sc as [?|[?|?]]; lia).
  assert (Fhash : read out hash_ptr (hash_bytes sc)
                  = h (read out (frame_start_bytes sc)
                         (hash_ptr - frame_start_bytes sc))).
  { assert (X : read out (frame_start_bytes sc)
                  (hash_ptr - frame_start_bytes sc)
                = read o1 (frame_start_bytes sc)
                    (cmd_bytes sc + ts_bytes sc + len_bytes sc + mlen)).
    { replace (hash_ptr - frame_start_bytes sc)
        with (cmd_bytes sc + ts_bytes sc + len_bytes sc + mlen)
        by (subst hash_ptr msg_ptr ts_ptr; lia).
      apply read_ext. intros i Hi. apply Hout.
      subst hash_ptr msg_ptr ts_ptr. lia. }
    rewrite X. rewrite O. destruct (Z.ltb_spec 0 (hash_bytes sc)).
    - set (hv := h _). replace (hash_bytes sc) with (Z.of_nat (length hv))
        by (subst hv; rewrite Hhl; lia).
      subst hash_ptr msg_ptr ts_ptr. apply read_store_bytes.
    - replace (hash_bytes sc) with 0 by lia.
      specialize (Hhl (read o1 (frame_start_bytes sc)
                         (cmd_bytes sc + ts_bytes sc + len_bytes sc + mlen))).
      replace (hash_bytes sc) with 0 in Hhl by lia.
      destruct (h _); [reflexivity | discriminate]. }
  assert (Region : forall off w,
             off + w <= hash_ptr \/ hash_ptr + hash_bytes sc <= off ->
             read out off w = read o1 off w).
  { intros off w Hw. apply read_ext. intros i Hi. apply Hout. lia. }
  assert (Fs : read out 0 (frame_start_bytes sc)
               = read (frame_start sc) 0 (frame_start_bytes sc)).
  { rewrite Region by (subst hash_ptr msg_ptr ts_ptr; lia). exact RA. }
  assert (Fl : forall d,
             get_field big_endian d out (msg_ptr - len_bytes sc)
               (len_bytes sc) = mlen).
  { intros d. apply get_field_of_bytes; auto.
    rewrite Region by (subst hash_ptr msg_ptr ts_ptr; lia).
    rewrite <- RD. f_equal. subst msg_ptr ts_ptr. lia. }
  assert (Fc : get_field big_endian 0 out (frame_start_bytes sc)
                 (cmd_bytes sc) = cmd).
  { apply get_field_of_bytes; auto.
    rewrite Region by (subst hash_ptr msg_ptr ts_ptr; lia). exact RB. }
  assert (Fcc : (if 0 <? comm_ctrl_bytes sc
                 then get_field big_endian 0 out
                        (hash_ptr + hash_bytes sc) (comm_ctrl_bytes sc)
                 else 0) = cctrl).
  { destruct (Z.ltb_spec 0 (comm_ctrl_bytes sc)).
    - destruct Scc as [?|S]; [lia|]. apply get_field_of_bytes; auto.
      rewrite Region by (subst hash_ptr msg_ptr ts_ptr; lia). exact RG.
    - replace (comm_ctrl_bytes sc) with 0 in Hctrl by lia.
      change (256 ^ 0) with 1 in Hctrl. lia. }
  assert (T1 : total <= 4294967295) by lia.
  assert (M0 : 0 <= message_len sc) by lia.
  assert (K1 : (1 <= Z.to_nat total)%nat)
    by (subst total hash_ptr msg_ptr ts_ptr; lia).
  assert (K2 : 0 + Z.of_nat (Z.to_nat total) = total)
    by (subst total hash_ptr msg_ptr ts_ptr; lia).
  assert (K4 : forall j, 0 <= j < 0 -> buffer sc j = out j)
    by (intros j Hj; lia).
  assert (K6 : msg_ptr <= 0 -> message_len sc = mlen)
    by (intros L; subst msg_ptr ts_ptr; lia).
  assert (K7 : reset_bytes sc = SERCOMM_OMIT_RESET \/
               reset_trips (reset_byte sc) (reset_bytes sc)
                 (buffer_reset_bytes sc)
                 (read out 0 (Z.of_nat (Z.to_nat total))) = false).
  { destruct Hq as [Hq|Hq]; [now left|right].
    rewrite Z2Nat.id by (subst total hash_ptr msg_ptr ts_ptr; lia).
    exact Hq. }
  destruct (decode_from big_endian sc sm out cmd cctrl mlen (message_len sc)
              h f WT Hcb (proj1 Hmlen) Hpos T1 M0 Hstale Hh Hhl Hok Hf
              Fs Fl Fc Fcc Fhash
              (Z.to_nat total) (buffer sc) 0 (message_len sc)
              (buffer_reset_bytes sc) K1 K2 (Z.le_refl 0) K4
              (fun _ => eq_refl) K6 K7)
    as (b' & c' & Ed & Hb').
  rewrite Z2Nat.id in Ed by (subst total hash_ptr msg_ptr ts_ptr; lia).
  rewrite <- Hbl in Ed at 1. rewrite at_self in Ed.
  exists (decoder_at sc b' 0 mlen c'). split; [exact Ed|].
  autorewrite with at_proj. split; [|reflexivity].
  transitivity (read out msg_ptr mlen).
  - apply read_ext. intros i Hi. apply Hb'.
    subst total hash_ptr msg_ptr ts_ptr. lia.
  - rewrite Region by (subst hash_ptr; lia). exact RE.
Qed.

(** C1, as the code has it.  A frame built by [sc_make_message] and fed
    byte by byte to a decoder at rest calls the handler registered for the
    command exactly once, on the last byte, with the payload, the command
    and the control value that were encoded, provided that
    - a hasher is configured and stores [hash_bytes] bytes (without a
      hasher the completion checkpoint calls nothing),
    - the command and length fields are 1, 2 or 4 bytes wide and the
      control field 0, 1, 2 or 4, and the command, the payload length and
      the control value fit their fields,
    - the timestamp writer stores [ts_bytes] bytes,
    - the payload length satisfies the length policy and the frame fits
      the output buffer,
    - payload, hash field and control field are not all empty,
    - a handler is registered for the command, and
    - no call made for a byte of the frame is ended by reset detection. *)
Theorem round_trip (sc : sercomm) (sm : list sercomm_msg)
    (cmd cctrl : Z) (msg : option mem) (mlen : Z) (output : mem) (olen : Z)
    (h : hash_fn) (f : callback) :
  let ts_ptr := frame_start_bytes sc + cmd_bytes sc in
  let msg_ptr := ts_ptr + ts_bytes sc + len_bytes sc in
  let total := msg_ptr + mlen + hash_bytes sc + comm_ctrl_bytes sc in
  let payload :=
    match msg with Some body => read body 0 mlen | None => [] end in
  let r := sc_make_message big_endian sc cmd cctrl msg mlen output olen in
  let frame := read (snd r) 0 (fst r) in
  well_typed sc ->
  supported (cmd_bytes sc) ->
  supported (len_bytes sc) ->
  comm_ctrl_bytes sc = 0 \/ supported (comm_ctrl_bytes sc) ->
  hash sc = Some h ->
  (forall l, length (h l) = Z.to_nat (hash_bytes sc)) ->
  (0 < ts_bytes sc -> forall s, ts sc = Some s ->
     length s = Z.to_nat (ts_bytes sc)) ->
  0 <= cmd < 256 ^ cmd_bytes sc ->
  0 <= mlen < 256 ^ len_bytes sc ->
  0 <= cctrl < 256 ^ comm_ctrl_bytes sc ->
  (0 < mlen -> msg <> None) ->
  length_ok sc mlen ->
  0 < mlen + hash_bytes sc + comm_ctrl_bytes sc ->
  total <= olen <= 4294967295 ->
  first_match sm cmd f ->
  buffer_len sc = 0 ->
  message_len sc = 0 ->
  buffer_reset_bytes sc = 0 ->
  reset_quiet sc frame ->
  exists sc',
    sc_feed big_endian sc sm frame =
      (sc', [EvCall f ts_ptr mlen msg_ptr cctrl (priv sc)]) /\
    read (buffer sc') msg_ptr mlen = payload /\
    buffer_len sc' = 0.
Proof.
  intros ts_ptr msg_ptr total payload r frame
    WT Sc Sl Scc Hh Hhl Hts Hcmd Hmlen Hctrl Hmsg Hok Hpos Ho Hf Hbl Hml
    Hrc Hq.
  apply encode_then_decode with (h := h); auto.
  rewrite Hml. subst total msg_ptr ts_ptr. lia.
Qed.

End RoundTrip.

(** ** Deciding [well_typed] *)

Lemma well_typedb_ok (sc : sercomm) : well_typedb sc = true -> well_typed sc.
Proof.
  unfold well_typedb, well_typed, u8b, u32b, is_u8, is_u32. intros H.
  repeat match goal with
    | H : (_ && _) = true |- _ => apply andb_prop in H; destruct H
    end.
  repeat match goal with
    | H : (_ <=? _) = true |- _ => apply Z.leb_le in H
    end.
  repeat split; assumption.
Qed.

(** ** The reset sequence *)

Section ResetSequence.

Variable big_endian : bool.

(** A full reset sequence, from a counter at 0: the reset routine is
    called once, by the call for the last byte of the run, which does
    nothing else than set [buffer_len] to 0. *)
Lemma reset_sequence (sc : sercomm) (sm : list sercomm_msg) (r : callback) :
  1 <= reset_bytes sc <= 254 ->
  buffer_reset_bytes sc = 0 ->
  reset sc = Some r ->
  let n := Z.to_nat (reset_bytes sc) in
  let before := sc_feed big_endian sc sm (repeat (reset_byte sc) (n - 1)) in
  let after := sc_feed big_endian sc sm (repeat (reset_byte sc) n) in
  resets (snd before) = [] /\
  sc_get_message big_endian (fst before) sm (reset_byte sc) =
    (with_buffer_len (appended (fst before) (reset_byte sc)) 0, [EvReset r]) /\
  resets (snd after) = [EvReset r] /\
  buffer_len (fst after) = 0.
Proof.
  intros Hn C0 Hr n before after.
  assert (En : reset_bytes sc <> SERCOMM_OMIT_RESET)
    by (unfold SERCOMM_OMIT_RESET, UINT8_MAX; lia).
  destruct (reset_run big_endian sm (n - 1) sc En)
    as (B & N & R & F & E); try lia.
  fold before in B, N, R, F, E. rewrite C0 in *.
  assert (E' : resets (snd before) = []).
  { rewrite E.
    destruct (Z.ltb_spec 0 (reset_bytes sc)),
      (Z.leb_spec (reset_bytes sc) (0 + Z.of_nat (n - 1)));
      cbn [andb]; auto; lia. }
  assert (Fire : reset_fires (fst before) (reset_byte sc) = true).
  { unfold reset_fires, reset_counter. rewrite N, R, B.
    destruct (Z.eqb_spec (reset_bytes sc) SERCOMM_OMIT_RESET);
      [contradiction|].
    rewrite Z.eqb_refl, u8_small by lia. cbn [negb andb].
    apply Z.eqb_eq. lia. }
  assert (Last : sc_get_message big_endian (fst before) sm (reset_byte sc) =
                 (with_buffer_len (appended (fst before) (reset_byte sc)) 0,
                  [EvReset r])).
  { rewrite reset_step by exact Fire. now rewrite F, Hr. }
  assert (Split : after =
            (fst (sc_get_message big_endian (fst before) sm (reset_byte sc)),
             snd before
             ++ snd (sc_get_message big_endian (fst before) sm
                       (reset_byte sc)))).
  { subst after before.
    replace n with ((n - 1) + 1)%nat at 1 by lia.
    rewrite repeat_app, sc_feed_app. cbn [repeat].
    rewrite sc_feed_cons. cbn [sc_feed fst snd].
    now rewrite app_nil_r. }
  repeat split; auto.
  - rewrite Split, Last. cbn [fst snd]. rewrite resets_app, E'. reflexivity.
  - rewrite Split, Last. cbn [fst snd].
    now destruct (appended (fst before) (reset_byte sc)).
Qed.

End ResetSequence.

(** ** Further facts about the parts that hold *)

Section Support.

Variable big_endian : bool.

(** When the encoder refuses a frame it leaves the output as it was. *)
Lemma refused_frame_writes_nothing (sc : sercomm) (cmd cctrl : Z)
    (msg : option mem) (mlen : Z) (output : mem) (olen : Z) :
  (olen <? u32 (frame_start_bytes sc + cmd_bytes sc + ts_bytes sc
                + len_bytes sc + mlen + hash_bytes sc + comm_ctrl_bytes sc))
  || ((0 <? mlen) && match msg with None => true | Some _ => false end)
  = true ->
  sc_make_message big_endian sc cmd cctrl msg mlen output olen = (0, output).
Proof.
  intros H. unfold sc_make_message.
  destruct (olen <? _); [reflexivity|]. cbn [orb] in H. now rewrite H.
Qed.

(** The header checkpoint on a length that the policy rejects: the
    declared length is kept in [message_len], [buffer_len] returns to 0
    and no callback runs. *)
Lemma rejected_length (sc : sercomm) (sm : list sercomm_msg) (byte : Z) :
  let declared :=
    get_field big_endian (message_len sc) (buffer (appended sc byte))
      (u32 (header_len sc - len_bytes sc)) (len_bytes sc) in
  reset_fires sc byte = false ->
  u32 (buffer_len sc + 1) <> frame_start_bytes sc ->
  u32 (buffer_len sc + 1) = header_len sc ->
  ~ length_ok sc declared ->
  sc_get_message big_endian sc sm byte =
  (with_buffer_len (with_message_len (appended sc byte) declared) 0, []).
Proof.
  intros declared R H0 H1 Hbad. rewrite header_step by assumption.
  cbv zeta. fold declared.
  assert (E : message_len (with_message_len (appended sc byte) declared)
              = declared) by now destruct sc.
  rewrite E. unfold length_ok in Hbad.
  destruct (message_valid_len sc =? SERCOMM_IGNORE_MSG_VALID_LENGTH).
  - destruct (Z.ltb_spec (message_max_len sc) declared);
      [reflexivity | contradiction].
  - destruct (Z.eqb_spec declared (message_valid_len sc));
      [contradiction | reflexivity].
Qed.

End Support.

(** A stream without the reset byte never completes a reset sequence,
    unless the sequence is empty. *)
Lemma reset_quiet_without_reset_byte (sc : sercomm) (bytes : list Z) :
  reset_bytes sc <> 0 ->
  (forall y, In y bytes -> y <> reset_byte sc) ->
  reset_quiet sc bytes.
Proof.
  intros Hn Hy. right.
  generalize (buffer_reset_bytes sc) as c.
  induction bytes as [|y rest IH]; intros c; cbn [reset_trips];
    [reflexivity|].
  destruct (Z.eqb_spec y (reset_byte sc)) as [E|_].
  - exfalso. apply (Hy y); [now left | exact E].
  - destruct (Z.eqb_spec (reset_bytes sc) 0); [contradiction|].
    cbn [orb]. apply IH. intros y' Hy'. apply Hy. now right.
Qed.

(** * Concrete runs *)

Ltac by_eval := vm_compute; first [reflexivity | discriminate | lia].

(** C2.  The example of the specification.  The six bytes are as stated,
    on either kind of host, but the layout has no hasher, so the
    completion checkpoint calls nothing: the handler of command 5 never
    runs, and the six bytes stay in the buffer. *)
Theorem example_frame_not_dispatched (big_endian : bool) :
  let r :=
    sc_make_message big_endian plain_layout 5 0
      (Some (mem_of_list [170; 187])) 2 zeros 64 in
  let d := sc_feed big_endian plain_layout handlers [0; 1; 5; 2; 170; 187] in
  fst r = 6 /\
  read (snd r) 0 6 = [0; 1; 5; 2; 170; 187] /\
  first_match handlers 5 7%nat /\
  snd d = [] /\
  buffer_len (fst d) = 6.
Proof.
  intros r d. repeat split; try (destruct big_endian; reflexivity).
  apply scan_some. reflexivity.
Qed.

(** C5.  A payload length of 0xFFFFFFFF makes the frame length
    4294967299, far more than the 16 bytes of the output buffer; the
    32-bit sum is 3, which passes the capacity check.  The encoder returns
    3 and copies payload bytes to offsets 16, 1000 and beyond. *)
Theorem frame_length_wraps (big_endian : bool) :
  let mlen := 4294967295 in
  let r :=
    sc_make_message big_endian plain_layout 5 0 (Some (fun _ => 170)) mlen
      zeros 16 in
  16 < frame_start_bytes plain_layout + cmd_bytes plain_layout
       + ts_bytes plain_layout + len_bytes plain_layout + mlen
       + hash_bytes plain_layout + comm_ctrl_bytes plain_layout /\
  fst r = 3 /\
  snd r 16 = 170 /\ zeros 16 = 0 /\
  snd r 1000 = 170.
Proof.
  intros mlen r. repeat split; destruct big_endian; reflexivity.
Qed.

(** The checksum of a range whose tail holds zeros only is the checksum
    of its head. *)
Lemma sum_zero_tail (m : mem) (off : Z) (n : nat) :
  (forall j, off <= j -> m j = 0) ->
  fold_right Z.add 0 (read m off (Z.of_nat n)) = 0.
Proof.
  revert off. induction n as [|n IH]; intros off H; [reflexivity|].
  rewrite read_cons. cbn [fold_right].
  rewrite (H off) by lia. rewrite IH; [reflexivity|].
  intros j Hj. apply H. lia.
Qed.

Lemma sum_hash_zero_tail (m : mem) (off k n : Z) :
  0 <= k -> 0 <= n ->
  (forall j, off + k <= j -> m j = 0) ->
  sum_hash (read m off (k + n)) = sum_hash (read m off k).
Proof.
  intros Hk Hn H. unfold sum_hash.
  rewrite read_split by assumption. rewrite fold_right_app.
  rewrite <- (Z2Nat.id n) by exact Hn.
  rewrite (sum_zero_tail m (off + k) (Z.to_nat n) H). reflexivity.
Qed.

(** What the buffer holds above the stale header after [wrapping_prefix]
    and a byte 00. *)
Lemma wrapping_prefix_tail :
  forall j, 7 <= j ->
    buffer (appended (fst (sc_feed false hashed_layout handlers_zero
                             wrapping_prefix)) 0) j = 0.
Proof.
  intros j Hj. destruct j as [|p|p]; [lia | | lia].
  destruct p as [p|p|]; [| |lia];
    (destruct p as [p|p|]; [| |lia]);
    (destruct p as [p|p|]; try lia); vm_compute; reflexivity.
Qed.

(** C3.  A completion checkpoint at which a handler runs although the
    hash over command and payload differs from the hash field.  The
    header of [wrapping_prefix] is rejected, but its length 0xFFFFFFFB
    stays in [message_len]; the completion threshold 7 + 0xFFFFFFFB + 1
    is 3 modulo 2^32, so the byte 00 after the next sync pattern is taken
    for the last byte of a frame.  The hashed length 5 + 0xFFFFFFFB is 0
    modulo 2^32: the hasher runs over no byte at all, its result 00 is
    compared with the byte at index 2 and the handler of command 0 is
    called with a payload length of 0xFFFFFFFB, three bytes into the
    frame. *)
Theorem unverified_frame_dispatched :
  let sc := fst (sc_feed false hashed_layout handlers_zero wrapping_prefix) in
  let cmd_ptr := frame_start_bytes sc in
  let ts_ptr := cmd_ptr + cmd_bytes sc in
  let msg_ptr := ts_ptr + ts_bytes sc + len_bytes sc in
  let hash_ptr := msg_ptr + message_len sc in
  let a := appended sc 0 in
  let computed := sum_hash (read (buffer a) cmd_ptr (hash_ptr - cmd_ptr)) in
  let received := read (buffer a) hash_ptr (hash_bytes sc) in
  hash sc = Some sum_hash /\
  reset_fires sc 0 = false /\
  buffer_len sc = 2 /\
  message_len sc = 4294967291 /\
  hash_ptr + hash_bytes sc + comm_ctrl_bytes sc = 4294967299 /\
  frame_len sc = 3 /\
  header_len sc = 7 /\
  computed = [248] /\
  received = [0] /\
  computed <> received /\
  snd (sc_get_message false sc handlers_zero 0)
    = [EvCall 8%nat 3 4294967291 7 0 0] /\
  buffer_len (fst (sc_get_message false sc handlers_zero 0)) = 0.
Proof.
  intros sc cmd_ptr ts_ptr msg_ptr hash_ptr a computed received.
  assert (C : computed = [248]).
  { subst computed hash_ptr msg_ptr ts_ptr cmd_ptr.
    replace (frame_start_bytes sc) with 2 by reflexivity.
    replace (cmd_bytes sc) with 1 by reflexivity.
    replace (ts_bytes sc) with 0 by reflexivity.
    replace (len_bytes sc) with 4 by reflexivity.
    replace (message_len sc) with 4294967291 by (vm_compute; reflexivity).
    replace (2 + 1 + 0 + 4 + 4294967291 - 2) with (5 + 4294967291)
      by reflexivity.
    rewrite sum_hash_zero_tail;
      [vm_compute; reflexivity | lia | lia | ].
    intros j Hj. apply wrapping_prefix_tail. lia. }
  assert (R : received = [0]) by (vm_compute; reflexivity).
  split; [reflexivity|].
  split; [reflexivity|].
  split; [reflexivity|].
  split; [vm_compute; reflexivity|].
  split; [vm_compute; reflexivity|].
  split; [vm_compute; reflexivity|].
  split; [vm_compute; reflexivity|].
  split; [exact C|].
  split; [exact R|].
  split; [rewrite C, R; discriminate|].
  split; vm_compute; reflexivity.
Qed.

(** C7.  A header that declares 0xFFFFFFFC payload bytes is rejected by
    the length policy and [buffer_len] returns to 0, but the declared
    length stays in [message_len]; with it the completion threshold wraps
    around to 4.  The frame that a decoder at rest dispatches is then cut
    off at its fourth byte and its handler never runs. *)
Theorem oversized_length_blocks_decoder :
  let frame := encoded false hashed_layout 5 0 [170; 187] in
  let dropped := sc_feed false hashed_layout handlers oversized_header in
  snd dropped = [] /\
  buffer_len (fst dropped) = 0 /\
  message_len (fst dropped) = 4294967292 /\
  frame_len (fst dropped) = 4 /\
  frame = [0; 1; 5; 2; 0; 0; 0; 170; 187; 108] /\
  snd (sc_feed false hashed_layout handlers frame)
    = [EvCall 7%nat 3 2 7 0 0] /\
  snd (sc_feed false (fst dropped) handlers frame) = [] /\
  buffer_len (fst (sc_feed false (fst dropped) handlers (firstn 4 frame)))
    = 0.
Proof. repeat split; reflexivity. Qed.

(** C9.  The reset sequence itself works: three bytes EE call the reset
    routine once and leave [buffer_len] at 0.  The frame fed after it is
    lost all the same when [message_len] still holds the length of a
    header rejected earlier: the reset does not touch [message_len], so
    the completion threshold still wraps around to 4. *)
Theorem frame_after_reset_lost :
  let frame := encoded false hashed_layout 5 0 [170; 187] in
  let dropped := fst (sc_feed false hashed_layout handlers oversized_header) in
  let run := sc_feed false dropped handlers [238; 238; 238] in
  buffer_reset_bytes dropped = 0 /\
  snd run = [EvReset 9%nat] /\
  buffer_len (fst run) = 0 /\
  snd (sc_feed false hashed_layout handlers frame)
    = [EvCall 7%nat 3 2 7 0 0] /\
  snd (sc_feed false (fst run) handlers frame) = [].
Proof. repeat split; reflexivity. Qed.

(** C1 fails where reset detection is in the way: the payload FF FF is a
    reset sequence of [reset_layout], so the frame calls the reset
    routine and no handler, although the length policy accepts the
    payload and command 5 has a handler. *)
Lemma round_trip_fails_on_reset_bytes :
  let frame := encoded false reset_layout 5 1 [255; 255] in
  length_ok reset_layout 2 /\
  first_match handlers 5 7%nat /\
  frame = [0; 1; 5; 2; 255; 255; 5; 1] /\
  snd (sc_feed false reset_layout handlers frame) = [EvReset 9%nat] /\
  calls (snd (sc_feed false reset_layout handlers frame)) = [] /\
  ~ (exists sc' e,
       sc_feed false reset_layout handlers frame = (sc', [e]) /\
       is_reset e = false).
Proof.
  intros frame.
  split; [by_eval|]. split; [apply scan_some; reflexivity|].
  split; [reflexivity|]. split; [reflexivity|]. split; [reflexivity|].
  intros (sc' & e & E & Hcall).
  assert (Ev : snd (sc_feed false reset_layout handlers frame) = [e])
    by now rewrite E.
  change (snd (sc_feed false reset_layout handlers frame))
    with [EvReset 9%nat] in Ev.
  injection Ev as <-. discriminate Hcall.
Qed.

(** ** Instances of the general theorems *)

(** The sixth byte of the frame 00 01 05 02 AA BB under [plain_layout]. *)
Lemma completion_without_hasher_witness :
  let st := fst (sc_feed false plain_layout handlers [0; 1; 5; 2; 170]) in
  sc_get_message false st handlers 187 = (appended st 187, []) /\
  buffer_len (appended st 187) = 6.
Proof.
  intros st.
  assert (H1 : hash st = None) by reflexivity.
  assert (H2 : reset_fires st 187 = false) by reflexivity.
  assert (H3 : u32 (buffer_len st + 1) = frame_len st) by reflexivity.
  assert (H4 : frame_len st <> frame_start_bytes st) by by_eval.
  assert (H5 : frame_len st <> header_len st) by by_eval.
  destruct (completion_without_hasher false st handlers 187 H1 H2 H3 H4 H5)
    as (A & B & _).
  split; [exact A | exact B].
Defined.

(** The bytes 05 07 against the sync pattern 00 01. *)
Lemma sync_checkpoint_witness :
  let st := fst (sc_feed false hashed_layout handlers [5]) in
  exists b',
    sc_get_message false st handlers 7 =
      (with_buffer_len (with_buffer (appended st 7) b') 1, []) /\
    b' 0 = 7.
Proof.
  intros st.
  assert (H1 : 1 <= frame_start_bytes st <= 255) by (split; by_eval).
  assert (H2 : reset_fires st 7 = false) by reflexivity.
  assert (H3 : u32 (buffer_len st + 1) = frame_start_bytes st)
    by reflexivity.
  assert (H4 : read (buffer (appended st 7)) 0 (frame_start_bytes st)
               <> read (frame_start st) 0 (frame_start_bytes st))
    by by_eval.
  destruct (proj1 (sync_checkpoint false st handlers 7 H1 H2 H3) H4)
    as (b' & E & _ & Hin & _).
  exists b'. split; [exact E|].
  apply (Hin 0). split; by_eval.
Defined.

(** The last byte of a frame with a correct checksum. *)
Lemma completion_with_hasher_witness :
  let st :=
    fst (sc_feed false hashed_layout handlers
           [0; 1; 5; 2; 0; 0; 0; 170; 187]) in
  exists b',
    sc_get_message false st handlers 108 =
      (with_buffer_len (with_buffer (appended st 108) b') 0,
       [EvCall 7%nat 3 2 7 0 0]).
Proof.
  intros st.
  assert (H1 : well_typed st) by (apply well_typedb_ok; reflexivity).
  assert (H2 : hash st = Some sum_hash) by reflexivity.
  assert (H3 : reset_fires st 108 = false) by reflexivity.
  assert (H4 : frame_start_bytes st + cmd_bytes st + ts_bytes st
               + len_bytes st + message_len st + hash_bytes st
               + comm_ctrl_bytes st <= 4294967295) by by_eval.
  assert (H5 : buffer_len st + 1
               = frame_start_bytes st + cmd_bytes st + ts_bytes st
                 + len_bytes st + message_len st + hash_bytes st
                 + comm_ctrl_bytes st) by reflexivity.
  assert (H6 : buffer_len st + 1 <> frame_start_bytes st) by by_eval.
  assert (H7 : buffer_len st + 1
               <> frame_start_bytes st + cmd_bytes st + ts_bytes st
                  + len_bytes st) by by_eval.
  assert (H8 : length (sum_hash
                         (read (buffer (appended st 108))
                            (frame_start_bytes st)
                            (frame_start_bytes st + cmd_bytes st
                             + ts_bytes st + len_bytes st + message_len st
                             - frame_start_bytes st)))
               = Z.to_nat (hash_bytes st)) by reflexivity.
  destruct (completion_with_hasher false st handlers 108 sum_hash
              H1 H2 H3 H4 H5 H6 H7 H8)
    as (b' & _ & _ & Hm).
  exists b'. apply Hm; [reflexivity|]. apply scan_some. reflexivity.
Defined.

(** Command 5 with payload AA BB under [hashed_layout]. *)
Lemma encoder_layout_witness :
  let r :=
    sc_make_message false hashed_layout 5 0 (Some (mem_of_list [170; 187]))
      2 zeros 64 in
  exists o1,
    fst r = 10 /\
    snd r = store_bytes o1 9 (sum_hash (read o1 2 7)) /\
    read o1 0 10 = [0; 1; 5; 2; 0; 0; 0; 170; 187; 0].
Proof.
  intros r.
  assert (H1 : well_typed hashed_layout)
    by (apply well_typedb_ok; reflexivity).
  assert (H2 : supported (cmd_bytes hashed_layout))
    by (left; reflexivity).
  assert (H3 : supported (len_bytes hashed_layout))
    by (right; right; reflexivity).
  assert (H4 : comm_ctrl_bytes hashed_layout = 0
               \/ supported (comm_ctrl_bytes hashed_layout))
    by (left; reflexivity).
  assert (H5 : 0 <= 2) by by_eval.
  assert (H6 : frame_start_bytes hashed_layout + cmd_bytes hashed_layout
               + ts_bytes hashed_layout + len_bytes hashed_layout + 2
               + hash_bytes hashed_layout + comm_ctrl_bytes hashed_layout
               <= 64 <= 4294967295) by (split; by_eval).
  assert (H7 : 0 < 2 -> Some (mem_of_list [170; 187]) <> None)
    by (intros _; discriminate).
  assert (H8 : 0 < ts_bytes hashed_layout ->
               forall s, ts hashed_layout = Some s ->
                         length s = Z.to_nat (ts_bytes hashed_layout))
    by (intros H; vm_compute in H; discriminate H).
  destruct (encoder_layout false hashed_layout 5 0
              (Some (mem_of_list [170; 187])) 2 zeros 64
              H1 H2 H3 H4 H5 H6 H7 H8)
    as (o1 & A & B & C & _).
  exists o1. split; [exact A|]. split; [exact B | exact C].
Defined.

(** Six bytes EE where three make a reset sequence. *)
Lemma reset_counter_not_cleared_witness :
  let run := sc_feed false hashed_layout handlers (repeat 238 6) in
  resets (snd run) = [EvReset 9%nat] /\
  buffer_reset_bytes (fst run) = 6.
Proof.
  intros run.
  assert (H1 : 2 <= reset_bytes hashed_layout <= 127) by (split; by_eval).
  assert (H2 : buffer_reset_bytes hashed_layout = 0) by reflexivity.
  assert (H3 : reset hashed_layout = Some 9%nat) by reflexivity.
  destruct (reset_counter_not_cleared false hashed_layout handlers 9%nat
              H1 H2 H3)
    as (_ & _ & _ & A & B).
  split; [exact A | exact B].
Defined.

(** Command 5 with payload AA BB, encoded and decoded under
    [hashed_layout]. *)
Lemma round_trip_witness :
  exists sc',
    sc_feed false hashed_layout handlers
      (encoded false hashed_layout 5 0 [170; 187]) =
      (sc', [EvCall 7%nat 3 2 7 0 0]) /\
    read (buffer sc') 7 2 = [170; 187] /\
    buffer_len sc' = 0.
Proof.
  assert (H1 : well_typed hashed_layout)
    by (apply well_typedb_ok; reflexivity).
  assert (H2 : supported (cmd_bytes hashed_layout))
    by (left; reflexivity).
  assert (H3 : supported (len_bytes hashed_layout))
    by (right; right; reflexivity).
  assert (H4 : comm_ctrl_bytes hashed_layout = 0
               \/ supported (comm_ctrl_bytes hashed_layout))
    by (left; reflexivity).
  assert (H5 : hash hashed_layout = Some sum_hash) by reflexivity.
  assert (H6 : forall l, length (sum_hash l)
                         = Z.to_nat (hash_bytes hashed_layout))
    by (intros l; reflexivity).
  assert (H7 : 0 < ts_bytes hashed_layout ->
               forall s, ts hashed_layout = Some s ->
                         length s = Z.to_nat (ts_bytes hashed_layout))
    by (intros H; vm_compute in H; discriminate H).
  assert (H8 : 0 <= 5 < 256 ^ cmd_bytes hashed_layout) by (split; by_eval).
  assert (H9 : 0 <= 2 < 256 ^ len_bytes hashed_layout) by (split; by_eval).
  assert (H10 : 0 <= 0 < 256 ^ comm_ctrl_bytes hashed_layout)
    by (split; by_eval).
  assert (H11 : 0 < 2 -> Some (mem_of_list [170; 187]) <> None)
    by (intros _; discriminate).
  assert (H12 : length_ok hashed_layout 2) by by_eval.
  assert (H13 : 0 < 2 + hash_bytes hashed_layout
                    + comm_ctrl_bytes hashed_layout) by by_eval.
  assert (H14 : frame_start_bytes hashed_layout + cmd_bytes hashed_layout
                + ts_bytes hashed_layout + len_bytes hashed_layout + 2
                + hash_bytes hashed_layout + comm_ctrl_bytes hashed_layout
                <= 64 <= 4294967295) by (split; by_eval).
  assert (H15 : first_match handlers 5 7%nat)
    by (apply scan_some; reflexivity).
  assert (H16 : buffer_len hashed_layout = 0) by reflexivity.
  assert (H17 : message_len hashed_layout = 0) by reflexivity.
  assert (H18 : buffer_reset_bytes hashed_layout = 0) by reflexivity.
  assert (H19 : reset_quiet hashed_layout
                  (encoded false hashed_layout 5 0 [170; 187]))
    by (right; reflexivity).
  exact (round_trip false hashed_layout handlers 5 0
           (Some (mem_of_list [170; 187])) 2 zeros 64 sum_hash 7%nat
           H1 H2 H3 H4 H5 H6 H7 H8 H9 H10 H11 H12 H13 H14 H15 H16 H17 H18
           H19).
Defined.

(** * Further properties *)

(** ** The field codec on its own *)

Section FieldCodec.

Variable big_endian : bool.

(** X1.  A field read back holds the value that was put, reduced modulo
    [256 ^ w]: values wider than the field lose their high bytes, values
    that fit come back unchanged, on either kind of host. *)
Theorem field_codec_truncates (d : Z) (m : mem) (off v w : Z) :
  supported w ->
  get_field big_endian d (put_field big_endian m off v w) off w
  = v mod 256 ^ w.
Proof.
  intros [-> | [-> | ->]]; unfold get_field, put_field, load16, load32,
    store16, store32, u8, u16, u32; cbn [Z.eqb Pos.eqb].
  - now rewrite upd_same.
  - change (256 ^ 2) with 65536.
    destruct big_endian;
      repeat (rewrite upd_same || rewrite upd_other by lia);
      Z.div_mod_to_equations; lia.
  - change (256 ^ 4) with 4294967296.
    destruct big_endian;
      repeat (rewrite upd_same || rewrite upd_other by lia);
      Z.div_mod_to_equations; lia.
Qed.

(** X2.  [put_field] writes the [w] bytes of its field and nothing else,
    what it writes are byte values, and for a width other than 1, 2 and 4
    it writes nothing at all. *)
Theorem put_field_footprint (m : mem) (off v w j : Z) :
  (j < off \/ off + w <= j -> put_field big_endian m off v w j = m j) /\
  (supported w -> off <= j < off + w ->
   0 <= put_field big_endian m off v w j <= 255) /\
  (~ supported w -> put_field big_endian m off v w j = m j).
Proof.
  split; [apply put_field_out|]. split.
  - intros [-> | [-> | ->]] Hj; unfold put_field, store16, store32,
      u8, u16, u32; cbn [Z.eqb Pos.eqb].
    + replace j with off by lia. rewrite upd_same.
      Z.div_mod_to_equations; lia.
    + assert (E : j = off \/ j = off + 1) by lia.
      destruct big_endian, E as [-> | ->];
        repeat (rewrite upd_same || rewrite upd_other by lia);
        Z.div_mod_to_equations; lia.
    + assert (E : j = off \/ j = off + 1 \/ j = off + 2 \/ j = off + 3)
        by lia.
      destruct big_endian, E as [-> | [-> | [-> | ->]]];
        repeat (rewrite upd_same || rewrite upd_other by lia);
        Z.div_mod_to_equations; lia.
  - intros Hn. unfold put_field, supported in *.
    destruct (Z.eqb_spec w 1); [tauto|].
    destruct (Z.eqb_spec w 2); [tauto|].
    destruct (Z.eqb_spec w 4); [tauto|]. reflexivity.
Qed.

(** X3.  [get_field] on byte values yields a value that fits the field,
    and for a width other than 1, 2 and 4 it yields what the destination
    held before. *)
Theorem get_field_range (d : Z) (m : mem) (off w : Z) :
  (supported w ->
   (forall j, off <= j < off + w -> 0 <= m j <= 255) ->
   0 <= get_field big_endian d m off w < 256 ^ w) /\
  (~ supported w -> get_field big_endian d m off w = d).
Proof.
  split.
  - intros [-> | [-> | ->]] Hb; unfold get_field, load16, load32;
      cbn [Z.eqb Pos.eqb].
    + change (256 ^ 1) with 256. specialize (Hb off). lia.
    + change (256 ^ 2) with 65536.
      pose proof (Hb off). pose proof (Hb (off + 1)).
      destruct big_endian; lia.
    + change (256 ^ 4) with 4294967296.
      pose proof (Hb off). pose proof (Hb (off + 1)).
      pose proof (Hb (off + 2)). pose proof (Hb (off + 3)).
      destruct big_endian; lia.
  - intros Hn. unfold get_field, supported in *.
    destruct (Z.eqb_spec w 1); [tauto|].
    destruct (Z.eqb_spec w 2); [tauto|].
    destruct (Z.eqb_spec w 4); [tauto|]. reflexivity.
Qed.

End FieldCodec.

(** ** What the decoder never does *)

Section DecoderInvariants.

Variable big_endian : bool.

Lemma same_layout_refl (a : sercomm) : same_layout a a.
Proof. unfold same_layout. repeat split. Qed.

Lemma same_layout_trans (a b c : sercomm) :
  same_layout a b -> same_layout b c -> same_layout a c.
Proof.
  unfold same_layout. intros H1 H2.
  repeat match goal with H : _ /\ _ |- _ => destruct H end.
  repeat split; congruence.
Qed.

Lemma step_same_layout (sc : sercomm) (sm : list sercomm_msg) (byte : Z) :
  same_layout sc (fst (sc_get_message big_endian sc sm byte)).
Proof.
  destruct (step_frame big_endian sc sm byte) as (b & l & m & E).
  rewrite E. destruct sc. unfold same_layout. cbn. repeat split.
Qed.

Lemma feed_same_layout (sm : list sercomm_msg) (bytes : list Z) :
  forall sc, same_layout sc (fst (sc_feed big_endian sc sm bytes)).
Proof.
  induction bytes as [|y rest IH]; intros sc.
  - apply same_layout_refl.
  - rewrite sc_feed_cons. cbn [fst].
    eapply same_layout_trans; [apply step_same_layout | apply IH].
Qed.

(** X4.  Feeding bytes never changes the layout: the field widths, the
    sync pattern, the callbacks, the reset configuration, the length
    policy, [buffer_size] and [priv] are after any stream what they were
    before it. *)
Theorem layout_unchanged
    (sc : sercomm) (sm : list sercomm_msg) (bytes : list Z) :
  same_layout sc (fst (sc_feed big_endian sc sm bytes)).
Proof. apply feed_same_layout. Qed.

(** One call: at most one callback, a callback leaves [buffer_len] at 0,
    and a handler is called only with a hasher configured and only as the
    first match of the table for some command. *)
Lemma step_callbacks (sc : sercomm) (sm : list sercomm_msg) (byte : Z) :
  let r := sc_get_message big_endian sc sm byte in
  (length (snd r) <= 1)%nat /\
  (snd r <> [] -> buffer_len (fst r) = 0) /\
  (calls (snd r) <> [] -> hash sc <> None) /\
  (forall f t l p cc pv,
     In (EvCall f t l p cc pv) (snd r) -> exists c, first_match sm c f).
Proof.
  destruct sc; step_unfold.
  destruct (reset_bytes0 =? SERCOMM_OMIT_RESET) eqn:E; step_cbn;
    [|destruct (byte =? reset_byte0); step_cbn];
    rewrite ?E; step_cbn;
    repeat match goal with
      | |- context [if ?c then _ else _] => destruct c; step_cbn
      | |- context [match ?c with Some _ => _ | None => _ end] =>
          lazymatch c with
          | scan _ _ => destruct c eqn:?; step_cbn
          | _ => destruct c; step_cbn
          end
      end;
    cbn [fst snd length calls filter is_reset negb];
    (split; [lia|]); (split; [try reflexivity; intros []; reflexivity|]);
    (split; [try discriminate; intros []; reflexivity|]);
    intros f t l p cc pv Hin; cbn [In] in Hin;
    repeat match goal with H : _ \/ _ |- _ => destruct H end;
    try contradiction; try discriminate;
    match goal with
    | H : EvCall _ _ _ _ _ _ = EvCall _ _ _ _ _ _ |- _ =>
        injection H as <- <- <- <- <- <-
    end;
    eexists; apply scan_some; eassumption.
Qed.

(** X5.  A call runs at most one callback, and whenever it runs one (the
    reset routine or a handler) it leaves [buffer_len] at 0. *)
Theorem one_callback_then_flush
    (sc : sercomm) (sm : list sercomm_msg) (byte : Z) :
  let r := sc_get_message big_endian sc sm byte in
  (length (snd r) <= 1)%nat /\ (snd r <> [] -> buffer_len (fst r) = 0).
Proof.
  destruct (step_callbacks sc sm byte) as (A & B & _). split; assumption.
Qed.

Lemma calls_app (e1 e2 : list event) :
  calls (e1 ++ e2) = calls e1 ++ calls e2.
Proof. apply filter_app. Qed.

(** X6.  Every handler call of a stream is the call of the first entry of
    the table for some command: a handler that is not in the table, or
    that stands behind the entry without a handler, never runs. *)
Theorem only_registered_handlers (sm : list sercomm_msg) (bytes : list Z) :
  forall sc f t l p cc pv,
    In (EvCall f t l p cc pv) (snd (sc_feed big_endian sc sm bytes)) ->
    exists c, first_match sm c f.
Proof.
  induction bytes as [|y rest IH]; intros sc f t l p cc pv Hin.
  - destruct Hin.
  - rewrite sc_feed_cons in Hin. cbn [snd] in Hin.
    apply in_app_or in Hin. destruct Hin as [Hin|Hin].
    + destruct (step_callbacks sc sm y) as (_ & _ & _ & D).
      eapply D. exact Hin.
    + eapply IH. exact Hin.
Qed.

(** X7.  Without a hasher no handler ever runs, whatever is fed. *)
Theorem no_hasher_no_dispatch (sm : list sercomm_msg) (bytes : list Z) :
  forall sc,
    hash sc = None ->
    calls (snd (sc_feed big_endian sc sm bytes)) = [].
Proof.
  induction bytes as [|y rest IH]; intros sc Hh; [reflexivity|].
  rewrite sc_feed_cons. cbn [snd]. rewrite calls_app.
  destruct (step_callbacks sc sm y) as (_ & _ & C & _).
  destruct (calls (snd (sc_get_message big_endian sc sm y))) eqn:Ec.
  - cbn [app]. apply IH.
    pose proof (step_same_layout sc sm y) as L. unfold same_layout in L.
    repeat match goal with H : _ /\ _ |- _ => destruct H end. congruence.
  - exfalso. apply C; [discriminate | exact Hh].
Qed.

(** X8.  With reset detection disabled the reset routine never runs and
    the reset-byte counter never changes, whatever is fed. *)
Theorem reset_disabled (sm : list sercomm_msg) (bytes : list Z) :
  forall sc,
    reset_bytes sc = SERCOMM_OMIT_RESET ->
    resets (snd (sc_feed big_endian sc sm bytes)) = [] /\
    buffer_reset_bytes (fst (sc_feed big_endian sc sm bytes))
    = buffer_reset_bytes sc.
Proof.
  induction bytes as [|y rest IH]; intros sc Hd; [split; reflexivity|].
  rewrite sc_feed_cons. cbn [fst snd]. rewrite resets_app.
  pose proof (step_resets big_endian sc sm y) as Hr.
  destruct (step_frame big_endian sc sm y) as (b & l & m & Hf).
  assert (Hc : reset_counter sc y = buffer_reset_bytes sc).
  { unfold reset_counter. now rewrite Hd, Z.eqb_refl. }
  assert (Hfire : reset_fires sc y = false).
  { unfold reset_fires. now rewrite Hd, Z.eqb_refl. }
  rewrite Hfire in Hr. rewrite Hr.
  set (sc1 := fst (sc_get_message big_endian sc sm y)) in *.
  assert (H1 : reset_bytes sc1 = SERCOMM_OMIT_RESET
               /\ buffer_reset_bytes sc1 = buffer_reset_bytes sc).
  { rewrite Hf, Hc. destruct sc; cbn in *. auto. }
  destruct H1 as [N1 B1]. destruct (IH sc1 N1) as [E1 E2].
  rewrite E1, E2, B1. split; reflexivity.
Qed.

End DecoderInvariants.

(** ** Reset detection beyond one sequence *)

Section ResetWrap.

Variable big_endian : bool.

Lemma reset_run_counter (sm : list sercomm_msg) (k : nat) :
  forall sc,
    reset_bytes sc <> SERCOMM_OMIT_RESET ->
    is_u8 (buffer_reset_bytes sc) ->
    let run := sc_feed big_endian sc sm (repeat (reset_byte sc) k) in
    buffer_reset_bytes (fst run) = u8 (buffer_reset_bytes sc + Z.of_nat k) /\
    same_layout sc (fst run).
Proof.
  induction k as [|k IH]; intros sc En Hc.
  - cbn [repeat sc_feed fst]. split; [|apply same_layout_refl].
    rewrite Z.add_0_r. symmetry. apply u8_small. exact Hc.
  - cbn [repeat]. rewrite sc_feed_cons. cbn [fst].
    destruct (step_frame big_endian sc sm (reset_byte sc))
      as (b & l & m & Hf).
    pose proof (step_same_layout big_endian sc sm (reset_byte sc)) as L.
    set (sc1 := fst (sc_get_message big_endian sc sm (reset_byte sc))) in *.
    assert (C1 : buffer_reset_bytes sc1 = u8 (buffer_reset_bytes sc + 1)).
    { rewrite Hf. unfold reset_counter.
      destruct (Z.eqb_spec (reset_bytes sc) SERCOMM_OMIT_RESET);
        [contradiction|].
      rewrite Z.eqb_refl. now destruct sc. }
    assert (L' := L). unfold same_layout in L'.
    destruct L' as (_ & _ & _ & _ & _ & _ & _ & _ & Rb & Rn & _).
    destruct (IH sc1) as [B S].
    { now rewrite <- Rn. }
    { rewrite C1. unfold is_u8, u8.
      pose proof (Z.mod_pos_bound (buffer_reset_bytes sc + 1) 256). lia. }
    rewrite <- Rb in B, S. split.
    + rewrite B, C1. unfold u8.
      rewrite Zplus_mod_idemp_l. f_equal. lia.
    + eapply same_layout_trans; eassumption.
Qed.

(** X9.  The reset-byte counter is eight bits wide and is never cleared
    by a reset byte, so in a run of reset bytes byte number [k + 1]
    calls the reset routine exactly when the counter, counted modulo 256,
    reaches [reset_bytes]: from a counter at 0, at bytes [reset_bytes],
    [reset_bytes + 256], [reset_bytes + 512] and so on. *)
Theorem reset_run_wraps
    (sc : sercomm) (sm : list sercomm_msg) (r : callback) (k : nat) :
  reset_bytes sc <> SERCOMM_OMIT_RESET ->
  is_u8 (buffer_reset_bytes sc) ->
  reset sc = Some r ->
  let before := fst (sc_feed big_endian sc sm (repeat (reset_byte sc) k)) in
  buffer_reset_bytes before = u8 (buffer_reset_bytes sc + Z.of_nat k) /\
  resets (snd (sc_get_message big_endian before sm (reset_byte sc))) =
    if reset_bytes sc =? u8 (buffer_reset_bytes sc + Z.of_nat k + 1)
    then [EvReset r] else [].
Proof.
  intros En Hc Hr before.
  destruct (reset_run_counter sm k sc En Hc) as [B L]. fold before in B, L.
  split; [exact B|].
  unfold same_layout in L.
  destruct L as (_ & _ & _ & _ & _ & _ & _ & _ & Rb & Rn & Rr & _).
  assert (Hcnt : reset_counter before (reset_byte sc)
                 = u8 (buffer_reset_bytes sc + Z.of_nat k + 1)).
  { unfold reset_counter. rewrite <- Rn, <- Rb, B.
    destruct (Z.eqb_spec (reset_bytes sc) SERCOMM_OMIT_RESET);
      [contradiction|].
    rewrite Z.eqb_refl. unfold u8. now rewrite Zplus_mod_idemp_l. }
  rewrite step_resets. unfold reset_fires. rewrite Hcnt, <- Rn, <- Rr, Hr.
  destruct (Z.eqb_spec (reset_bytes sc) SERCOMM_OMIT_RESET);
    [contradiction|]. reflexivity.
Qed.

End ResetWrap.

(** ** The header checkpoint and the reach of a call *)

Section Reach.

Variable big_endian : bool.

Lemma header_step_buffer (sc : sercomm) (sm : list sercomm_msg) (byte : Z) :
  reset_fires sc byte = false ->
  u32 (buffer_len sc + 1) <> frame_start_bytes sc ->
  u32 (buffer_len sc + 1) = header_len sc ->
  buffer (fst (sc_get_message big_endian sc sm byte))
  = buffer (appended sc byte).
Proof.
  intros R H0 H1. rewrite header_step by assumption. cbv zeta.
  match goal with
  | |- context [if ?c then _ else _] => destruct c
  end; cbn [fst]; now destruct sc.
Qed.

(** X10.  The header checkpoint reads the declared payload length into
    [message_len] and runs no callback; [buffer_len] returns to 0 exactly
    when the length policy rejects the declared length.  This is all that
    happens even when the frame is complete at the header (empty payload,
    no hash field, no control field): the completion checkpoint is an
    alternative of the same [if] chain and is not reached. *)
Theorem header_checkpoint
    (sc : sercomm) (sm : list sercomm_msg) (byte : Z) :
  let declared :=
    get_field big_endian (message_len sc) (buffer (appended sc byte))
      (u32 (header_len sc - len_bytes sc)) (len_bytes sc) in
  let r := sc_get_message big_endian sc sm byte in
  reset_fires sc byte = false ->
  u32 (buffer_len sc + 1) <> frame_start_bytes sc ->
  u32 (buffer_len sc + 1) = header_len sc ->
  snd r = [] /\
  message_len (fst r) = declared /\
  buffer (fst r) = buffer (appended sc byte) /\
  (length_ok sc declared -> buffer_len (fst r) = header_len sc) /\
  (~ length_ok sc declared -> buffer_len (fst r) = 0).
Proof.
  intros declared r R H0 H1. subst r.
  rewrite header_step by assumption. cbv zeta. fold declared.
  set (sc1 := with_message_len (appended sc byte) declared).
  assert (P1 : message_len sc1 = declared) by (subst sc1; now destruct sc).
  assert (P2 : buffer sc1 = buffer (appended sc byte))
    by (subst sc1; now destruct sc).
  assert (P3 : buffer_len sc1 = header_len sc).
  { rewrite <- H1. subst sc1. now destruct sc. }
  assert (P4 : message_len (with_buffer_len sc1 0) = message_len sc1
               /\ buffer (with_buffer_len sc1 0) = buffer sc1
               /\ buffer_len (with_buffer_len sc1 0) = 0)
    by now destruct sc1.
  destruct P4 as (P4 & P5 & P6).
  rewrite P1. unfold length_ok.
  destruct (message_valid_len sc =? SERCOMM_IGNORE_MSG_VALID_LENGTH).
  - destruct (Z.ltb_spec (message_max_len sc) declared); cbn [fst snd].
    + rewrite P4, P5, P6, P1, P2. repeat split; auto. intros Hok. lia.
    + rewrite P1, P2, P3. repeat split; auto. intros Hok. lia.
  - destruct (Z.eqb_spec declared (message_valid_len sc)); cbn [fst snd negb].
    + rewrite P1, P2, P3. repeat split; auto. intros Hok. contradiction.
    + rewrite P4, P5, P6, P1, P2. repeat split; auto.
      intros Hok. contradiction.
Qed.

(** X11.  The reach of a call in the buffer: it writes the new byte at
    index [buffer_len], may move bytes below it (sync search) and lets
    the hasher store above it, so with a hasher that stores at most
    [hash_bytes] bytes no byte beyond index [buffer_len + hash_bytes] is
    ever written. *)
Theorem decoder_write_reach
    (sc : sercomm) (sm : list sercomm_msg) (byte : Z) :
  well_typed sc ->
  buffer_len sc < 4294967295 ->
  (forall h l, hash sc = Some h ->
     Z.of_nat (length (h l)) <= hash_bytes sc) ->
  forall j,
    j < 0 \/ buffer_len sc + hash_bytes sc < j ->
    buffer (fst (sc_get_message big_endian sc sm byte)) j = buffer sc j.
Proof.
  intros WT Hlen Hh j Hj. pose proof WT as WT'. typed_fields WT'.
  assert (U : u32 (buffer_len sc + 1) = buffer_len sc + 1)
    by (apply u32_small; lia).
  assert (Ba : buffer (appended sc byte) j = buffer sc j).
  { destruct sc; cbn in *. apply upd_other. lia. }
  assert (La : buffer_len (appended sc byte) = buffer_len sc + 1).
  { rewrite <- U. now destruct sc. }
  destruct (reset_fires sc byte) eqn:R.
  { rewrite reset_step by exact R. cbn [fst].
    rewrite <- Ba. now destruct (appended sc byte). }
  destruct (Z.eq_dec (u32 (buffer_len sc + 1)) (frame_start_bytes sc))
    as [E0|N0].
  { rewrite sync_step by assumption.
    destruct (memcmp _ _ _ _ _ =? 0); cbn [fst]; [exact Ba|].
    unfold shift_message. rewrite <- Ba.
    transitivity (shift_loop (buffer (appended sc byte)) 1 1
                    (Z.to_nat (u8 (frame_start_bytes sc - 1))) j);
      [now destruct (appended sc byte)|].
    rewrite shift_loop_spec by lia.
    rewrite u8_small by lia.
    destruct (Z.leb_spec (1 - 1) j),
      (Z.ltb_spec j (1 - 1 + Z.of_nat (Z.to_nat (frame_start_bytes sc - 1))));
      cbn [andb]; try reflexivity. lia. }
  destruct (Z.eq_dec (u32 (buffer_len sc + 1)) (header_len sc)) as [E1|N1].
  { rewrite header_step_buffer by assumption. exact Ba. }
  destruct (Z.eq_dec (u32 (buffer_len sc + 1)) (frame_len sc)) as [E2|N2].
  { rewrite completion_step by assumption.
    destruct (hash sc) as [h|] eqn:Eh; [|exact Ba]. cbv zeta.
    set (hv := h _).
    assert (Hs : store_bytes (buffer (appended sc byte))
                   (buffer_len (appended sc byte)) hv j = buffer sc j).
    { rewrite store_bytes_out; [exact Ba|].
      rewrite La. specialize (Hh h (read (buffer (appended sc byte))
        (frame_start_bytes sc)
        (u32 (cmd_bytes sc + ts_bytes sc + len_bytes sc + message_len sc)))
        eq_refl). fold hv in Hh. lia. }
    destruct (memcmp _ _ _ _ _ =? 0); cbn [fst]; rewrite <- Hs;
      now destruct (appended sc byte). }
  rewrite plain_step by assumption. exact Ba.
Qed.

End Reach.

(** ** A decoder without hasher, and the encoder within bounds *)

Section Growth.

Variable big_endian : bool.

Lemma hasherless_growth (sc0 : sercomm) (sm : list sercomm_msg)
    (bytes : list Z) :
  well_typed sc0 ->
  hash sc0 = None ->
  reset_bytes sc0 = SERCOMM_OMIT_RESET ->
  forall b l m c,
    frame_start_bytes sc0 <= l ->
    header_len sc0 <= l ->
    l + Z.of_nat (length bytes) <= 4294967295 ->
    exists b',
      sc_feed big_endian (decoder_at sc0 b l m c) sm bytes =
        (decoder_at sc0 b' (l + Z.of_nat (length bytes)) m c, []) /\
      (forall j, j < l -> b' j = b j) /\
      read b' l (Z.of_nat (length bytes)) = bytes.
Proof.
  intros WT Hh Hd. pose proof WT as WT'. typed_fields WT'.
  induction bytes as [|y rest IH]; intros b l m c Hfs Hhd Hl.
  - exists b. cbn [sc_feed length Z.of_nat]. rewrite Z.add_0_r.
    repeat split; auto.
  - rewrite sc_feed_cons.
    set (sc := decoder_at sc0 b l m c).
    assert (U : u32 (l + 1) = l + 1)
      by (apply u32_small; cbn [length] in Hl; lia).
    assert (R : reset_fires sc y = false).
    { unfold reset_fires. subst sc. autorewrite with at_proj.
      now rewrite Hd, Z.eqb_refl. }
    assert (C : reset_counter sc y = c).
    { subst sc. rewrite at_reset_counter. now rewrite Hd, Z.eqb_refl. }
    assert (Lb : buffer_len sc = l)
      by (subst sc; now autorewrite with at_proj).
    assert (Fs : frame_start_bytes sc = frame_start_bytes sc0)
      by (subst sc; now autorewrite with at_proj).
    assert (HL : header_len sc = header_len sc0)
      by (subst sc; now autorewrite with at_proj).
    assert (Hs : hash sc = None)
      by (subst sc; now autorewrite with at_proj).
    assert (A : sc_get_message big_endian sc sm y = (appended sc y, [])).
    { destruct (Z.eq_dec (u32 (buffer_len sc + 1)) (frame_len sc))
        as [E|N].
      - rewrite completion_step;
          [ now rewrite Hs | exact R | rewrite Lb, U, Fs; lia
          | rewrite Lb, U, HL; lia | exact E ].
      - apply plain_step;
          [ exact R | rewrite Lb, U, Fs; lia | rewrite Lb, U, HL; lia
          | exact N ]. }
    rewrite A. cbn [fst snd app].
    subst sc. rewrite at_appended, U, C.
    destruct (IH (upd b l y) (l + 1) m c) as (b' & E & Lo & Hi);
      try (cbn [length] in Hl; lia).
    exists b'. rewrite E. cbn [fst snd].
    split; [f_equal; f_equal; cbn [length]; lia|]. split.
    + intros j Hj. rewrite Lo by lia. apply upd_other. lia.
    + cbn [length]. rewrite read_cons. f_equal; [|exact Hi].
      rewrite Lo by lia. apply upd_same.
Qed.

(** X12.  A decoder without hasher and without reset detection that has
    taken in a header never lets go of it: every further byte is stored
    behind the last, [buffer_len] grows by one per byte and no callback
    runs, so nothing brings the decoder back to the search for a sync
    pattern. *)
Theorem hasherless_decoder_only_grows
    (sc : sercomm) (sm : list sercomm_msg) (bytes : list Z) :
  well_typed sc ->
  hash sc = None ->
  reset_bytes sc = SERCOMM_OMIT_RESET ->
  frame_start_bytes sc <= buffer_len sc ->
  header_len sc <= buffer_len sc ->
  buffer_len sc + Z.of_nat (length bytes) <= 4294967295 ->
  let r := sc_feed big_endian sc sm bytes in
  snd r = [] /\
  buffer_len (fst r) = buffer_len sc + Z.of_nat (length bytes) /\
  read (buffer (fst r)) (buffer_len sc) (Z.of_nat (length bytes)) = bytes /\
  (forall j, j < buffer_len sc -> buffer (fst r) j = buffer sc j).
Proof.
  intros WT Hh Hd H0 H1 Hl r.
  destruct (hasherless_growth sc sm bytes WT Hh Hd (buffer sc) (buffer_len sc)
              (message_len sc) (buffer_reset_bytes sc) H0 H1 Hl)
    as (b' & E & Lo & Hi).
  rewrite at_self in E. subst r. rewrite E. cbn [fst snd].
  autorewrite with at_proj. repeat split; auto.
Qed.

End Growth.

Section EncoderBounds.

Variable big_endian : bool.

(** X13.  As long as the frame length fits 32 bits the encoder keeps to
    the output buffer: it returns 0 or a frame length of at most [olen],
    and no byte at index [olen] or beyond (or below 0) is changed,
    provided the timestamp writer and the hasher store no more than their
    fields hold. *)
Theorem encoder_stays_in_bounds (sc : sercomm) (cmd cctrl : Z)
    (msg : option mem) (mlen : Z) (output : mem) (olen : Z) :
  let total :=
    frame_start_bytes sc + cmd_bytes sc + ts_bytes sc + len_bytes sc
    + mlen + hash_bytes sc + comm_ctrl_bytes sc in
  let r := sc_make_message big_endian sc cmd cctrl msg mlen output olen in
  well_typed sc ->
  supported (cmd_bytes sc) ->
  supported (len_bytes sc) ->
  comm_ctrl_bytes sc = 0 \/ supported (comm_ctrl_bytes sc) ->
  0 <= mlen ->
  total <= 4294967295 ->
  0 <= olen <= 4294967295 ->
  (0 < ts_bytes sc -> forall s, ts sc = Some s ->
     length s = Z.to_nat (ts_bytes sc)) ->
  (forall h l, hash sc = Some h ->
     length (h l) = Z.to_nat (hash_bytes sc)) ->
  (fst r = 0 \/ fst r = total /\ total <= olen) /\
  (forall j, j < 0 \/ olen <= j -> snd r j = output j).
Proof.
  intros total r WT Sc Sl Scc Hm Ht Ho Hts Hhl.
  pose proof WT as WT'. typed_fields WT'.
  destruct ((olen <? u32 total)
            || ((0 <? mlen)
                && match msg with None => true | Some _ => false end))
    eqn:G.
  - subst r total. rewrite refused_frame_writes_nothing by exact G.
    cbn [fst snd]. split; [now left | reflexivity].
  - apply orb_false_iff in G. destruct G as [G1 G2].
    rewrite u32_small in G1 by (subst total; lia).
    apply Z.ltb_ge in G1.
    assert (Hmsg : 0 < mlen -> msg <> None).
    { intros Hp. destruct msg; [discriminate|].
      apply Z.ltb_lt in Hp. rewrite Hp in G2. discriminate. }
    destruct (frame_regions big_endian sc cmd cctrl msg mlen output olen
                WT Sc Sl Scc Hm (conj G1 (proj2 Ho)) Hmsg Hts)
      as (o1 & R & O & _ & _ & _ & _ & _ & _ & _ & Out).
    fold r in R, O. split; [right; split; [exact R | exact G1]|].
    intros j Hj. rewrite O.
    destruct (0 <? hash_bytes sc); [|apply Out; subst total; lia].
    destruct (hash sc) as [h|] eqn:Eh; [|apply Out; subst total; lia].
    rewrite store_bytes_out; [apply Out; subst total; lia|].
    rewrite (Hhl h _ eq_refl). subst total. lia.
Qed.

End EncoderBounds.

(** ** The search for the sync pattern *)

Lemma at_shift_message (sc : sercomm) (b : mem) (l m c off amt : Z) :
  shift_message (decoder_at sc b l m c) off amt =
  decoder_at sc (shift_loop b off off (Z.to_nat amt)) (u32 (l - off)) m c.
Proof. now destruct sc. Qed.

Lemma read_zero (m : mem) (off : Z) : read m off 0 = [].
Proof. reflexivity. Qed.

Lemma read_snoc (m : mem) (off : Z) (k : nat) :
  read m off (Z.of_nat (S k))
  = read m off (Z.of_nat k) ++ [m (off + Z.of_nat k)].
Proof.
  replace (Z.of_nat (S k)) with (Z.of_nat k + 1) by lia.
  rewrite read_split by lia. f_equal.
  unfold read. change (Z.to_nat 1) with 1%nat. cbn [seq map].
  now rewrite Z.add_0_r.
Qed.

Lemma read_pointwise (m m' : mem) (off off' n : Z) :
  read m off n = read m' off' n ->
  forall i, 0 <= i < n -> m (off + i) = m' (off' + i).
Proof.
  intros E i Hi.
  assert (Hn : (Z.to_nat i < Z.to_nat n)%nat) by lia.
  pose proof (read_nth m off n (Z.to_nat i) 0 Hn) as E1.
  pose proof (read_nth m' off' n (Z.to_nat i) 0 Hn) as E2.
  rewrite E, E2 in E1. rewrite Z2Nat.id in E1 by lia. now symmetry.
Qed.

Section SyncSearch.

Variable big_endian : bool.
Variables (sc0 : sercomm) (sm : list sercomm_msg) (m : Z) (more : list Z).

Let n := frame_start_bytes sc0.
Let pattern := read (frame_start sc0) 0 n.

Hypothesis WT : well_typed sc0.
Hypothesis Hn : 1 <= n.
Hypothesis Hm : 0 <= m.
Hypothesis Hstale :
  frame_start_bytes sc0 + cmd_bytes sc0 + ts_bytes sc0 + len_bytes sc0
  + m + hash_bytes sc0 + comm_ctrl_bytes sc0 <= 4294967295.

Let quiet (c : Z) (l : list Z) : Prop :=
  reset_bytes sc0 = SERCOMM_OMIT_RESET \/
  reset_trips (reset_byte sc0) (reset_bytes sc0) c l = false.

(** The search keeps the last [n - 1] bytes in the buffer and moves on
    one byte at a time until the buffer holds the sync pattern. *)
Lemma sync_search (rest : list Z) :
  forall (w : list Z) (b : mem) (c : Z),
    Z.of_nat (length w) < n ->
    read b 0 (Z.of_nat (length w)) = w ->
    only_at_end pattern (w ++ rest) ->
    ends_with pattern (w ++ rest) ->
    quiet c (rest ++ more) ->
    exists b' c',
      sc_feed big_endian (decoder_at sc0 b (Z.of_nat (length w)) m c) sm rest
      = (decoder_at sc0 b' n m c', []) /\
      read b' 0 n = pattern /\
      quiet c' more.
Proof.
  pose proof WT as WT'. typed_fields WT'.
  assert (Lp : length pattern = Z.to_nat n)
    by (subst pattern; apply read_length).
  induction rest as [|y rest IH]; intros w b c Hw Hb Honly Hends Hq.
  { exfalso. destruct Hends as (g & Eg). rewrite app_nil_r in Eg.
    apply (f_equal (@length Z)) in Eg. rewrite length_app, Lp in Eg. lia. }
  rewrite sc_feed_cons.
  set (q := Z.of_nat (length w)) in *.
  set (sc := decoder_at sc0 b q m c).
  destruct (quiet_cons sc0 b q m c y (rest ++ more) Hq) as [R Hq1].
  fold sc in R, Hq1. set (c1 := reset_counter sc y) in *.
  set (b1 := upd b q y).
  assert (Hb1 : read b1 0 (Z.of_nat (length (w ++ [y]))) = w ++ [y]).
  { rewrite length_app. cbn [length].
    replace (length w + 1)%nat with (S (length w)) by lia.
    rewrite read_snoc. f_equal.
    - etransitivity; [|exact Hb]. apply read_ext. intros i Hi. subst b1.
      apply upd_other. subst q. lia.
    - rewrite Z.add_0_l. subst b1 q. now rewrite upd_same. }
  assert (Lw : Z.of_nat (length (w ++ [y])) = q + 1)
    by (rewrite length_app; cbn [length]; lia).
  assert (Up : u32 (q + 1) = q + 1) by (apply u32_small; lia).
  assert (Hl : buffer_len sc = q) by (subst sc; now autorewrite with at_proj).
  assert (Hfs : frame_start_bytes sc = n)
    by (subst sc; now autorewrite with at_proj).
  assert (HA : appended sc y = decoder_at sc0 b1 (q + 1) m c1).
  { subst sc. rewrite at_appended, Up. reflexivity. }
  destruct (Z.eq_dec (q + 1) n) as [Esync|Nsync].
  - (* the buffer is full: compare *)
    rewrite sync_step by (rewrite ?Hl, ?Up, ?Hfs; auto).
    rewrite HA. subst sc. autorewrite with at_proj. fold n.
    rewrite Lw, Esync in Hb1.
    destruct (Z.eqb_spec (memcmp b1 0 (frame_start sc0) 0 n) 0) as [E|E].
    + apply memcmp_zero in E. fold pattern in E. rewrite Hb1 in E.
      assert (Hrest : rest = []).
      { apply (Honly [] rest). cbn [app]. rewrite <- E.
        now rewrite <- app_assoc. }
      subst rest. cbn [sc_feed fst snd app].
      exists b1, c1. rewrite Esync. repeat split; auto.
      now rewrite Hb1.
    + assert (Hne : w ++ [y] <> pattern).
      { intros Eq. apply E. apply memcmp_zero. fold pattern.
        now rewrite Hb1. }
      rewrite at_shift_message. cbn [fst snd app].
      rewrite u8_small by lia.
      replace (u32 (q + 1 - 1)) with (n - 1)
        by (rewrite u32_small; lia).
      set (b2 := shift_loop b1 1 1 (Z.to_nat (n - 1))).
      destruct (w ++ [y]) as [|x W'] eqn:EW.
      { apply (f_equal (@length Z)) in EW. rewrite length_app in EW.
        cbn [length] in EW. lia. }
      assert (LW : Z.of_nat (length W') = n - 1).
      { apply (f_equal (@length Z)) in EW. rewrite length_app in EW.
        cbn [length] in EW. lia. }
      assert (Hb2 : read b2 0 (Z.of_nat (length W')) = W').
      { rewrite LW.
        assert (S1 : read b1 0 n = read b1 0 1 ++ read b1 (0 + 1) (n - 1)).
        { replace n with (1 + (n - 1)) at 1 by lia.
          apply read_split; lia. }
        rewrite Hb1, read_1 in S1. cbn [app] in S1.
        injection S1 as _ S1. rewrite S1.
        apply read_ext. intros i Hi. subst b2.
        rewrite shift_loop_spec by lia.
        destruct (Z.leb_spec (1 - 1) (0 + i)),
          (Z.ltb_spec (0 + i) (1 - 1 + Z.of_nat (Z.to_nat (n - 1))));
          cbn [andb]; try lia. f_equal. lia. }
      assert (Whole : w ++ y :: rest = x :: W' ++ rest).
      { change (y :: rest) with ([y] ++ rest). rewrite app_assoc, EW.
        reflexivity. }
      destruct (IH W' b2 c1) as (b' & c' & Ef & Hp & Hq');
        [lia | exact Hb2 | | | exact Hq1 |].
      * intros pre post Epp. apply (Honly (x :: pre) post).
        rewrite Whole, Epp. reflexivity.
      * destruct Hends as (g & Eg). rewrite Whole in Eg.
        destruct g as [|x' g'].
        -- exfalso. cbn [app] in Eg.
           assert (Lr : rest = []).
           { apply (f_equal (@length Z)) in Eg.
             cbn [length] in Eg. rewrite length_app, Lp in Eg.
             destruct rest; [reflexivity|]. cbn [length] in Eg. lia. }
           subst rest. rewrite app_nil_r in Eg. apply Hne.
           now rewrite <- Eg.
        -- exists g'. cbn [app] in Eg. now injection Eg.
      * rewrite LW in Ef. exists b', c'. rewrite Ef. cbn [fst snd].
        repeat split; auto.
  - (* the buffer is not full yet *)
    rewrite plain_step;
      [| exact R | rewrite Hl, Up, Hfs; exact Nsync
       | rewrite Hl, Up; subst sc; autorewrite with at_proj;
         unfold header_len; rewrite u32_small by lia; subst n; lia
       | rewrite Hl, Up; subst sc; autorewrite with at_proj;
         rewrite u32_small by lia; subst n; lia ].
    rewrite HA. cbn [fst snd app].
    destruct (IH (w ++ [y]) b1 c1) as (b' & c' & Ef & Hp & Hq');
      [rewrite Lw; lia | exact Hb1 | | | exact Hq1 |].
    + now rewrite <- app_assoc.
    + now rewrite <- app_assoc.
    + rewrite Lw in Ef. exists b', c'. rewrite Ef. cbn [fst snd].
      repeat split; auto.
Qed.

End SyncSearch.

(** ** Frames on the way in *)

Section FramePrefix.

Variable big_endian : bool.
Variables (sc0 : sercomm) (sm : list sercomm_msg) (out : mem).
Variables (mlen m0 : Z) (more : list Z).

Let cmd_ptr := frame_start_bytes sc0.
Let msg_ptr := cmd_ptr + cmd_bytes sc0 + ts_bytes sc0 + len_bytes sc0.
Let total := msg_ptr + mlen + hash_bytes sc0 + comm_ctrl_bytes sc0.

Hypothesis WT : well_typed sc0.
Hypothesis Hcb : 0 < cmd_bytes sc0 + ts_bytes sc0 + len_bytes sc0.
Hypothesis Hml : 0 <= mlen.
Hypothesis Hpos : 0 < mlen + hash_bytes sc0 + comm_ctrl_bytes sc0.
Hypothesis Htot : total <= 4294967295.
Hypothesis Hm0 : 0 <= m0.
Hypothesis Hm0' :
  msg_ptr + m0 + hash_bytes sc0 + comm_ctrl_bytes sc0 <= 4294967295.
Hypothesis Hok : length_ok sc0 mlen.
Hypothesis Fsync :
  read out 0 cmd_ptr = read (frame_start sc0) 0 (frame_start_bytes sc0).
Hypothesis Flen :
  forall d, get_field big_endian d out (msg_ptr - len_bytes sc0)
              (len_bytes sc0) = mlen.

Let quiet (c : Z) (l : list Z) : Prop :=
  reset_bytes sc0 = SERCOMM_OMIT_RESET \/
  reset_trips (reset_byte sc0) (reset_bytes sc0) c l = false.

Ltac ptr_lia := unfold total, msg_ptr, cmd_ptr in *; lia.

(** All bytes of a frame but the last are taken in without a callback. *)
Lemma decode_prefix (k : nat) :
  forall (b : mem) (p m c : Z),
    p + Z.of_nat k = total - 1 -> 0 <= p ->
    (forall j, 0 <= j < p -> b j = out j) ->
    (p < msg_ptr -> m = m0) -> (msg_ptr <= p -> m = mlen) ->
    quiet c (read out p (Z.of_nat k) ++ more) ->
    exists b' c',
      sc_feed big_endian (decoder_at sc0 b p m c) sm
        (read out p (Z.of_nat k)) =
      (decoder_at sc0 b' (total - 1) mlen c', []) /\
      (forall j, 0 <= j < total - 1 -> b' j = out j) /\
      quiet c' more.
Proof.
  pose proof WT as WT'. typed_fields WT'.
  induction k as [|k IH]; intros b p m c Hp Hp0 Hb Hlo Hhi Hq.
  { cbn [Z.of_nat read Z.to_nat seq map sc_feed app] in *.
    exists b, c. replace p with (total - 1) in * by lia.
    rewrite (Hhi ltac:(ptr_lia)). repeat split; auto. }
  rewrite read_cons in *. rewrite sc_feed_cons.
  set (y := out p) in *.
  set (sc := decoder_at sc0 b p m c).
  cbn [app] in Hq.
  destruct (quiet_cons sc0 b p m c y _ Hq) as [Hr Hq1]. fold sc in Hr, Hq1.
  set (c1 := reset_counter sc y) in *.
  set (b1 := upd b p y).
  assert (Hb1 : forall j, 0 <= j < p + 1 -> b1 j = out j).
  { intros j Hj. subst b1. unfold upd.
    destruct (Z.eqb_spec j p) as [->|]; [reflexivity|]. apply Hb. lia. }
  assert (Up : u32 (p + 1) = p + 1) by (apply u32_small; ptr_lia).
  assert (Hl : buffer_len sc = p) by (subst sc; now autorewrite with at_proj).
  assert (HH : header_len sc = msg_ptr).
  { subst sc. autorewrite with at_proj. unfold header_len.
    rewrite u32_small; ptr_lia. }
  assert (HF : frame_len sc = msg_ptr + m + hash_bytes sc0
                              + comm_ctrl_bytes sc0).
  { subst sc. autorewrite with at_proj.
    destruct (Z.lt_ge_cases p msg_ptr) as [L|L].
    - rewrite (Hlo L). rewrite u32_small; ptr_lia.
    - rewrite (Hhi L). rewrite u32_small; ptr_lia. }
  assert (HA : appended sc y = decoder_at sc0 b1 (p + 1) m c1).
  { subst sc. rewrite at_appended, Up. reflexivity. }
  assert (Hfs : frame_start_bytes sc = cmd_ptr)
    by (subst sc; now autorewrite with at_proj).
  assert (Next : forall m',
             (p + 1 < msg_ptr -> m' = m0) -> (msg_ptr <= p + 1 -> m' = mlen) ->
             exists b' c',
               sc_feed big_endian (decoder_at sc0 b1 (p + 1) m' c1) sm
                 (read out (p + 1) (Z.of_nat k)) =
               (decoder_at sc0 b' (total - 1) mlen c', []) /\
               (forall j, 0 <= j < total - 1 -> b' j = out j) /\
               quiet c' more).
  { intros m' L1 L2. apply IH; auto; lia. }
  destruct (Z.eq_dec (p + 1) cmd_ptr) as [Esync|Nsync].
  { rewrite sync_step by (rewrite ?Hl, ?Up, ?Hfs; auto).
    rewrite HA. subst sc. autorewrite with at_proj.
    replace (memcmp b1 0 (frame_start sc0) 0 (frame_start_bytes sc0)) with 0.
    2:{ symmetry. apply memcmp_zero. rewrite <- Fsync. apply read_ext.
        intros i Hi. apply Hb1. ptr_lia. }
    cbn [Z.eqb fst snd app].
    destruct (Next m) as (b' & c' & E & F);
      [intros L; apply Hlo; lia | intros L; exfalso; ptr_lia |].
    exists b', c'. rewrite E. cbn [fst snd]. exact (conj eq_refl F). }
  destruct (Z.eq_dec (p + 1) msg_ptr) as [Ehdr|Nhdr].
  { rewrite header_step by (rewrite ?Hl, ?Up, ?Hfs, ?HH; auto).
    rewrite HA. subst sc. autorewrite with at_proj.
    cbv zeta. autorewrite with at_proj.
    replace (get_field big_endian m b1 (u32 (header_len sc0 - len_bytes sc0))
               (len_bytes sc0)) with mlen.
    2:{ symmetry. rewrite <- (Flen m).
        rewrite at_header_len in HH. rewrite HH.
        rewrite u32_small by ptr_lia.
        apply get_field_ext. intros j Hj. apply Hb1. ptr_lia. }
    assert (Pol : (if message_valid_len sc0 =? SERCOMM_IGNORE_MSG_VALID_LENGTH
                   then message_max_len sc0 <? mlen
                   else negb (mlen =? message_valid_len sc0)) = false).
    { unfold length_ok in Hok.
      destruct (message_valid_len sc0 =? SERCOMM_IGNORE_MSG_VALID_LENGTH).
      - apply Z.ltb_ge. exact Hok.
      - rewrite Hok, Z.eqb_refl. reflexivity. }
    rewrite Pol. cbn [fst snd app].
    destruct (Next mlen) as (b' & c' & E & F);
      [intros L; exfalso; lia | reflexivity |].
    exists b', c'. rewrite E. cbn [fst snd]. exact (conj eq_refl F). }
  rewrite plain_step;
    [| exact Hr | rewrite Hl, Up, Hfs; exact Nsync
     | rewrite Hl, Up, HH; exact Nhdr | rewrite Hl, Up, HF ].
  2:{ destruct (Z.lt_ge_cases p msg_ptr) as [L|L].
      - rewrite (Hlo L). lia.
      - rewrite (Hhi L). ptr_lia. }
  rewrite HA. cbn [fst snd app].
  destruct (Next m) as (b' & c' & E & F);
    [intros L; apply Hlo; lia | intros L; apply Hhi; lia |].
  exists b', c'. rewrite E. cbn [fst snd]. exact (conj eq_refl F).
Qed.

End FramePrefix.

Section FrameOutcome.

Variable big_endian : bool.

(** What becomes of a stream that starts with the sync pattern and
    carries a length that the policy accepts, fed to a decoder at rest:
    nothing happens before the last byte, and on the last byte the
    hash decides. *)
Lemma frame_outcome (sc : sercomm) (sm : list sercomm_msg) (out : mem)
    (mlen : Z) (h : hash_fn) :
  let cmd_ptr := frame_start_bytes sc in
  let ts_ptr := cmd_ptr + cmd_bytes sc in
  let msg_ptr := ts_ptr + ts_bytes sc + len_bytes sc in
  let hash_ptr := msg_ptr + mlen in
  let ctrl_ptr := hash_ptr + hash_bytes sc in
  let total := ctrl_ptr + comm_ctrl_bytes sc in
  let computed := h (read out cmd_ptr (hash_ptr - cmd_ptr)) in
  let received := read out hash_ptr (hash_bytes sc) in
  let c := get_field big_endian 0 out cmd_ptr (cmd_bytes sc) in
  let cc :=
    if 0 <? comm_ctrl_bytes sc
    then get_field big_endian 0 out ctrl_ptr (comm_ctrl_bytes sc)
    else 0 in
  well_typed sc ->
  0 < cmd_bytes sc + ts_bytes sc + len_bytes sc ->
  0 <= mlen ->
  0 < mlen + hash_bytes sc + comm_ctrl_bytes sc ->
  total <= 4294967295 ->
  buffer_len sc = 0 ->
  msg_ptr + message_len sc + hash_bytes sc + comm_ctrl_bytes sc
    <= 4294967295 ->
  hash sc = Some h ->
  (forall l, length (h l) = Z.to_nat (hash_bytes sc)) ->
  length_ok sc mlen ->
  read out 0 cmd_ptr = read (frame_start sc) 0 (frame_start_bytes sc) ->
  (forall d, get_field big_endian d out (msg_ptr - len_bytes sc)
               (len_bytes sc) = mlen) ->
  reset_quiet sc (read out 0 total) ->
  exists sc',
    sc_feed big_endian sc sm (read out 0 total) =
      (sc',
       if list_eq_dec Z.eq_dec computed received
       then match scan sm c with
            | Some f => [EvCall f ts_ptr mlen msg_ptr cc (priv sc)]
            | None => []
            end
       else []) /\
    buffer_len sc' = 0 /\
    message_len sc' = mlen /\
    (forall j, 0 <= j < total -> buffer sc' j = out j).
Proof.
  intros cmd_ptr ts_ptr msg_ptr hash_ptr ctrl_ptr total computed received
    c cc WT Hcb Hml Hpos Htot Hbl Hstale Hh Hhl Hok Fsync Flen Hq.
  pose proof WT as WT'. typed_fields WT'.
  assert (M0 : 0 <= message_len sc) by lia.
  set (y := out (total - 1)).
  assert (Split : read out 0 total
                  = read out 0 (Z.of_nat (Z.to_nat (total - 1))) ++ [y]).
  { replace total with (Z.of_nat (S (Z.to_nat (total - 1)))) at 1
      by (subst total ctrl_ptr hash_ptr msg_ptr ts_ptr cmd_ptr; lia).
    rewrite read_snoc. f_equal. f_equal. subst y. f_equal.
    subst total ctrl_ptr hash_ptr msg_ptr ts_ptr cmd_ptr. lia. }
  assert (Q : reset_bytes sc = SERCOMM_OMIT_RESET \/
              reset_trips (reset_byte sc) (reset_bytes sc)
                (buffer_reset_bytes sc)
                (read out 0 (Z.of_nat (Z.to_nat (total - 1))) ++ [y]) = false).
  { rewrite <- Split. exact Hq. }
  assert (K1 : 0 + Z.of_nat (Z.to_nat (total - 1)) = total - 1)
    by (subst total ctrl_ptr hash_ptr msg_ptr ts_ptr cmd_ptr; lia).
  assert (K2 : forall j, 0 <= j < 0 -> buffer sc j = out j)
    by (intros j Hj; lia).
  assert (K3 : msg_ptr <= 0 -> message_len sc = mlen)
    by (intros L; subst msg_ptr ts_ptr cmd_ptr; lia).
  destruct (decode_prefix big_endian sc sm out mlen (message_len sc) [y]
              WT Hcb Hpos Htot M0 Hstale Hok Fsync Flen
              (Z.to_nat (total - 1)) (buffer sc) 0 (message_len sc)
              (buffer_reset_bytes sc) K1 (Z.le_refl 0) K2 (fun _ => eq_refl)
              K3 Q)
    as (b1 & c1 & E1 & Hb1 & Q1).
  rewrite <- Hbl in E1 at 1. rewrite at_self in E1.
  rewrite Split, sc_feed_app, E1. cbn [fst snd app].
  rewrite sc_feed_cons. cbn [sc_feed fst snd]. rewrite app_nil_r.
  set (p := frame_start_bytes sc + cmd_bytes sc + ts_bytes sc
            + len_bytes sc + mlen + hash_bytes sc + comm_ctrl_bytes sc - 1).
  set (st := decoder_at sc b1 p mlen c1).
  assert (Ep : p = total - 1) by reflexivity.
  destruct (quiet_cons sc b1 p mlen c1 y [] Q1) as [R _]. fold st in R.
  assert (Up : u32 (p + 1) = p + 1) by (apply u32_small; lia).
  assert (Hl : buffer_len st = p) by (subst st; now autorewrite with at_proj).
  assert (Hfs : frame_start_bytes st = cmd_ptr)
    by (subst st; now autorewrite with at_proj).
  assert (HH : header_len st = msg_ptr).
  { subst st. autorewrite with at_proj. unfold header_len.
    rewrite u32_small; subst msg_ptr ts_ptr cmd_ptr; lia. }
  assert (HF : frame_len st = total).
  { subst st. autorewrite with at_proj. rewrite u32_small;
      subst total ctrl_ptr hash_ptr msg_ptr ts_ptr cmd_ptr; lia. }
  rewrite completion_step;
    [| exact R
     | rewrite Hl, Up, Hfs;
       subst p total ctrl_ptr hash_ptr msg_ptr ts_ptr cmd_ptr; lia
     | rewrite Hl, Up, HH;
       subst p total ctrl_ptr hash_ptr msg_ptr ts_ptr cmd_ptr; lia
     | rewrite Hl, Up, HF; lia ].
  subst st. autorewrite with at_proj. rewrite Hh. cbv zeta.
  autorewrite with at_proj. rewrite ?Up.
  set (b2 := upd b1 p y).
  assert (Hb2 : forall j, 0 <= j < total -> b2 j = out j).
  { intros j Hj. subst b2. unfold upd.
    destruct (Z.eqb_spec j p) as [->|]; [subst y; f_equal; lia|].
    apply Hb1. lia. }
  replace (u32 (cmd_bytes sc + ts_bytes sc + len_bytes sc + mlen))
    with (hash_ptr - cmd_ptr)
    by (rewrite u32_small; subst hash_ptr msg_ptr ts_ptr cmd_ptr; lia).
  replace (u32 (hash_ptr - cmd_ptr + frame_start_bytes sc)) with hash_ptr
    by (rewrite u32_small; subst hash_ptr msg_ptr ts_ptr cmd_ptr; lia).
  replace (read b2 (frame_start_bytes sc) (hash_ptr - cmd_ptr))
    with (read out cmd_ptr (hash_ptr - cmd_ptr)).
  2:{ apply read_ext. intros i Hi. symmetry. apply Hb2.
      subst total ctrl_ptr hash_ptr msg_ptr ts_ptr cmd_ptr. lia. }
  fold computed.
  set (b3 := store_bytes b2 (p + 1) computed).
  assert (Hb3 : forall j, 0 <= j < total -> b3 j = out j).
  { intros j Hj. subst b3. rewrite store_bytes_out by lia. now apply Hb2. }
  assert (Hcmp : memcmp b3 (p + 1) b3 hash_ptr (hash_bytes sc) = 0
                 <-> computed = received).
  { rewrite memcmp_zero.
    replace (read b3 (p + 1) (hash_bytes sc)) with computed.
    2:{ subst b3. replace (hash_bytes sc)
          with (Z.of_nat (length computed))
          by (subst computed; rewrite Hhl; lia).
        now rewrite read_store_bytes. }
    replace (read b3 hash_ptr (hash_bytes sc)) with received; [tauto|].
    subst received. apply read_ext. intros i Hi. symmetry. apply Hb3.
    subst total ctrl_ptr. lia. }
  assert (Hc : get_field big_endian 0 b3 (frame_start_bytes sc)
                 (cmd_bytes sc) = c).
  { subst c. apply get_field_ext. intros j Hj. apply Hb3.
    subst total ctrl_ptr hash_ptr msg_ptr ts_ptr cmd_ptr. lia. }
  assert (Hcc : (if 0 <? comm_ctrl_bytes sc
                 then get_field big_endian 0 b3
                        (u32 (p + 1 - comm_ctrl_bytes sc))
                        (comm_ctrl_bytes sc)
                 else 0) = cc).
  { subst cc. destruct (Z.ltb_spec 0 (comm_ctrl_bytes sc)); [|reflexivity].
    rewrite u32_small by lia.
    replace (p + 1 - comm_ctrl_bytes sc) with ctrl_ptr by (subst total; lia).
    apply get_field_ext. intros j Hj. apply Hb3. subst total. lia. }
  assert (Hhd : header_len sc = msg_ptr).
  { unfold header_len. rewrite u32_small; subst msg_ptr ts_ptr cmd_ptr; lia. }
  rewrite Hc, Hcc, Hhd.
  exists (decoder_at sc b3 0 mlen (reset_counter (decoder_at sc b1 p mlen c1) y)).
  autorewrite with at_proj.
  split; [|repeat split; auto].
  destruct (list_eq_dec Z.eq_dec computed received) as [Eq|Ne].
  - apply Hcmp in Eq. rewrite Eq. reflexivity.
  - destruct (Z.eqb_spec (memcmp b3 (p + 1) b3 hash_ptr (hash_bytes sc)) 0)
      as [E|E]; [apply Hcmp in E; contradiction | reflexivity].
Qed.

End FrameOutcome.

(** ** Dropped frames and resynchronisation *)

Lemma prefixb_app (pat post : list Z) : prefixb pat (pat ++ post) = true.
Proof.
  induction pat as [|x pat IH]; cbn [prefixb app]; [reflexivity|].
  now rewrite Z.eqb_refl, IH.
Qed.

Lemma only_at_endb_ok (pat l : list Z) :
  only_at_endb pat l = true -> only_at_end pat l.
Proof.
  induction l as [|y l IH]; intros H pre post E.
  - destruct pre; [|discriminate]. cbn [app] in E.
    symmetry in E. apply app_eq_nil in E. tauto.
  - cbn [only_at_endb] in H. apply andb_prop in H. destruct H as [H1 H2].
    destruct pre as [|x pre].
    + cbn [app] in E. rewrite E, prefixb_app in H1. cbn [negb orb] in H1.
      apply Nat.eqb_eq in H1. rewrite length_app in H1.
      destruct post; [reflexivity | cbn [length] in H1; lia].
    + cbn [app] in E. injection E as _ E. now apply (IH H2 pre post).
Qed.

Section Dropped.

Variable big_endian : bool.




End Dropped.

Section Resync.

Variable big_endian : bool.

(** What the decoder needs to know about a frame built by the encoder. *)
Lemma encoded_frame_facts (sc : sercomm) (cmd cctrl : Z) (msg : option mem)
    (mlen : Z) (output : mem) (olen : Z) (h : hash_fn) :
  let cmd_ptr := frame_start_bytes sc in
  let ts_ptr := cmd_ptr + cmd_bytes sc in
  let msg_ptr := ts_ptr + ts_bytes sc + len_bytes sc in
  let hash_ptr := msg_ptr + mlen in
  let ctrl_ptr := hash_ptr + hash_bytes sc in
  let total := ctrl_ptr + comm_ctrl_bytes sc in
  let payload :=
    match msg with Some body => read body 0 mlen | None => [] end in
  let r := sc_make_message big_endian sc cmd cctrl msg mlen output olen in
  let out := snd r in
  well_typed sc ->
  supported (cmd_bytes sc) ->
  supported (len_bytes sc) ->
  comm_ctrl_bytes sc = 0 \/ supported (comm_ctrl_bytes sc) ->
  hash sc = Some h ->
  (forall l, length (h l) = Z.to_nat (hash_bytes sc)) ->
  (0 < ts_bytes sc -> forall s, ts sc = Some s ->
     length s = Z.to_nat (ts_bytes sc)) ->
  0 <= cmd < 256 ^ cmd_bytes sc ->
  0 <= mlen < 256 ^ len_bytes sc ->
  0 <= cctrl < 256 ^ comm_ctrl_bytes sc ->
  (0 < mlen -> msg <> None) ->
  total <= olen <= 4294967295 ->
  fst r = total /\
  read out 0 cmd_ptr = read (frame_start sc) 0 (frame_start_bytes sc) /\
  (forall d, get_field big_endian d out (msg_ptr - len_bytes sc)
               (len_bytes sc) = mlen) /\
  get_field big_endian 0 out cmd_ptr (cmd_bytes sc) = cmd /\
  (if 0 <? comm_ctrl_bytes sc
   then get_field big_endian 0 out ctrl_ptr (comm_ctrl_bytes sc)
   else 0) = cctrl /\
  read out hash_ptr (hash_bytes sc)
    = h (read out cmd_ptr (hash_ptr - cmd_ptr)) /\
  read out msg_ptr mlen = payload.
Proof.
  intros cmd_ptr ts_ptr msg_ptr hash_ptr ctrl_ptr total payload r out
    WT Sc Sl Scc Hh Hhl Hts Hcmd Hmlen Hctrl Hmsg Ho.
  destruct (frame_regions big_endian sc cmd cctrl msg mlen output olen
              WT Sc Sl Scc (proj1 Hmlen) Ho Hmsg Hts)
    as (o1 & R & O & RA & RB & RC & RD & RE & RF & RG & Out).
  fold r in R, O. fold out in O. rewrite Hh in O.
  pose proof WT as WT'. typed_fields WT'.
  assert (Hout : forall j, j < hash_ptr \/ hash_ptr + hash_bytes sc <= j ->
                           out j = o1 j).
  { intros j Hj. rewrite O. destruct (0 <? hash_bytes sc); [|reflexivity].
    apply store_bytes_out. rewrite Hhl.
    subst hash_ptr msg_ptr ts_ptr cmd_ptr. lia. }
  assert (Region : forall off w,
             off + w <= hash_ptr \/ hash_ptr + hash_bytes sc <= off ->
             read out off w = read o1 off w).
  { intros off w Hw. apply read_ext. intros i Hi. apply Hout. lia. }
  split; [exact R|].
  split.
  { rewrite Region by (subst hash_ptr msg_ptr ts_ptr cmd_ptr; lia).
    exact RA. }
  split.
  { intros d. apply get_field_of_bytes; auto.
    rewrite Region by (subst hash_ptr msg_ptr ts_ptr cmd_ptr; lia).
    rewrite <- RD. f_equal. subst msg_ptr ts_ptr cmd_ptr. lia. }
  split.
  { apply get_field_of_bytes; auto.
    rewrite Region by (subst hash_ptr msg_ptr ts_ptr cmd_ptr; lia).
    exact RB. }
  split.
  { destruct (Z.ltb_spec 0 (comm_ctrl_bytes sc)).
    - destruct Scc as [?|S]; [lia|]. apply get_field_of_bytes; auto.
      rewrite Region by (subst ctrl_ptr hash_ptr msg_ptr ts_ptr cmd_ptr; lia).
      exact RG.
    - replace (comm_ctrl_bytes sc) with 0 in Hctrl by lia.
      change (256 ^ 0) with 1 in Hctrl. lia. }
  split.
  { assert (X : read out cmd_ptr (hash_ptr - cmd_ptr)
                = read o1 (frame_start_bytes sc)
                    (cmd_bytes sc + ts_bytes sc + len_bytes sc + mlen)).
    { replace (hash_ptr - cmd_ptr)
        with (cmd_bytes sc + ts_bytes sc + len_bytes sc + mlen)
        by (subst hash_ptr msg_ptr ts_ptr cmd_ptr; lia).
      apply read_ext. intros i Hi. apply Hout.
      subst hash_ptr msg_ptr ts_ptr cmd_ptr. lia. }
    rewrite X. rewrite O. destruct (Z.ltb_spec 0 (hash_bytes sc)).
    - set (hv := h _). replace (hash_bytes sc) with (Z.of_nat (length hv))
        by (subst hv; rewrite Hhl; lia).
      subst hash_ptr msg_ptr ts_ptr cmd_ptr. apply read_store_bytes.
    - replace (hash_bytes sc) with 0 by lia.
      specialize (Hhl (read o1 (frame_start_bytes sc)
                         (cmd_bytes sc + ts_bytes sc + len_bytes sc + mlen))).
      replace (hash_bytes sc) with 0 in Hhl by lia.
      destruct (h _); [reflexivity | discriminate]. }
  rewrite Region by (subst hash_ptr; lia). exact RE.
Qed.

(** X17.  Resynchronisation.  Take a frame that the decoder takes back
    from the encoder: a well-typed layout with a sync pattern of at least
    one byte and supported field widths, a hasher and a timestamp writer
    that fill their fields, values that fit their fields, a payload that
    is there and that the length policy accepts, a frame that is not
    complete at its header and that fits the output buffer, and a handler
    in the table for its command.  Fed to a decoder at rest (its
    [buffer_len] at 0, its [message_len] keeping the completion threshold
    within 32 bits) behind bytes that do not make the sync pattern appear
    before its place, with no reset sequence completed on the way, the
    frame calls its handler exactly once, with the payload, the command
    and the control value that were encoded. *)
Theorem resync (sc : sercomm) (sm : list sercomm_msg)
    (cmd cctrl : Z) (msg : option mem) (mlen : Z) (output : mem) (olen : Z)
    (h : hash_fn) (f : callback) (garbage : list Z) :
  let ts_ptr := frame_start_bytes sc + cmd_bytes sc in
  let msg_ptr := ts_ptr + ts_bytes sc + len_bytes sc in
  let total := msg_ptr + mlen + hash_bytes sc + comm_ctrl_bytes sc in
  let payload :=
    match msg with Some body => read body 0 mlen | None => [] end in
  let pattern := read (frame_start sc) 0 (frame_start_bytes sc) in
  let r := sc_make_message big_endian sc cmd cctrl msg mlen output olen in
  let frame := read (snd r) 0 (fst r) in
  well_typed sc ->
  1 <= frame_start_bytes sc ->
  supported (cmd_bytes sc) ->
  supported (len_bytes sc) ->
  comm_ctrl_bytes sc = 0 \/ supported (comm_ctrl_bytes sc) ->
  hash sc = Some h ->
  (forall l, length (h l) = Z.to_nat (hash_bytes sc)) ->
  (0 < ts_bytes sc -> forall s, ts sc = Some s ->
     length s = Z.to_nat (ts_bytes sc)) ->
  0 <= cmd < 256 ^ cmd_bytes sc ->
  0 <= mlen < 256 ^ len_bytes sc ->
  0 <= cctrl < 256 ^ comm_ctrl_bytes sc ->
  (0 < mlen -> msg <> None) ->
  length_ok sc mlen ->
  0 < mlen + hash_bytes sc + comm_ctrl_bytes sc ->
  total <= olen <= 4294967295 ->
  first_match sm cmd f ->
  buffer_len sc = 0 ->
  msg_ptr + message_len sc + hash_bytes sc + comm_ctrl_bytes sc
    <= 4294967295 ->
  only_at_end pattern (garbage ++ pattern) ->
  reset_quiet sc (garbage ++ frame) ->
  exists sc',
    sc_feed big_endian sc sm (garbage ++ frame) =
      (sc', [EvCall f ts_ptr mlen msg_ptr cctrl (priv sc)]) /\
    read (buffer sc') msg_ptr mlen = payload /\
    buffer_len sc' = 0.
Proof.
  intros ts_ptr msg_ptr total payload pattern r frame
    WT Hn Sc Sl Scc Hh Hhl Hts Hcmd Hmlen Hctrl Hmsg Hok Hpos Ho Hf Hbl
    Hstale Honly Hq.
  destruct (encoded_frame_facts sc cmd cctrl msg mlen output olen h
              WT Sc Sl Scc Hh Hhl Hts Hcmd Hmlen Hctrl Hmsg Ho)
    as (R & Fs & Fl & Fc & Fcc & Fh & Fp).
  fold r in R, Fs, Fl, Fc, Fcc, Fh, Fp.
  set (out := snd r) in *. subst frame. rewrite R in *.
  pose proof WT as WT'. typed_fields WT'.
  set (n := frame_start_bytes sc) in *.
  assert (Hcb : 0 < cmd_bytes sc + ts_bytes sc + len_bytes sc)
    by (destruct Sc as [?|[?|?]]; lia).
  assert (M0 : 0 <= message_len sc) by lia.
  assert (T1 : n + cmd_bytes sc + ts_bytes sc + len_bytes sc + mlen
               + hash_bytes sc + comm_ctrl_bytes sc <= 4294967295)
    by (subst total msg_ptr ts_ptr; lia).
  set (k := Z.to_nat (n + cmd_bytes sc + ts_bytes sc + len_bytes sc + mlen
                      + hash_bytes sc + comm_ctrl_bytes sc - n)).
  assert (Split : read out 0 (n + cmd_bytes sc + ts_bytes sc + len_bytes sc
                              + mlen + hash_bytes sc + comm_ctrl_bytes sc)
                  = pattern ++ read out n (Z.of_nat k)).
  { replace (n + cmd_bytes sc + ts_bytes sc + len_bytes sc + mlen
             + hash_bytes sc + comm_ctrl_bytes sc)
      with (n + Z.of_nat k) at 1 by (subst k; lia).
    rewrite read_split by lia. now rewrite Fs. }
  change total with (n + cmd_bytes sc + ts_bytes sc + len_bytes sc + mlen
                     + hash_bytes sc + comm_ctrl_bytes sc) in *.
  rewrite Split in *. rewrite app_assoc in *.
  assert (Q : reset_bytes sc = SERCOMM_OMIT_RESET \/
              reset_trips (reset_byte sc) (reset_bytes sc)
                (buffer_reset_bytes sc)
                ((garbage ++ pattern) ++ read out n (Z.of_nat k)) = false)
    by exact Hq.
  destruct (sync_search big_endian sc sm (message_len sc)
              (read out n (Z.of_nat k)) WT Hn M0 Hstale
              (garbage ++ pattern) [] (buffer sc) (buffer_reset_bytes sc))
    as (b1 & c1 & E1 & P1 & Q1); auto.
  { cbn [length Z.of_nat]. lia. }
  { exists garbage. reflexivity. }
  cbn [length Z.of_nat] in E1. rewrite <- Hbl in E1 at 1.
  rewrite at_self in E1.
  assert (Hb1 : forall j, 0 <= j < n -> b1 j = out j).
  { intros j Hj.
    assert (P1' : read b1 0 n = read out 0 n) by (rewrite Fs; exact P1).
    apply (read_pointwise b1 out 0 0 n P1' j Hj). }
  assert (K1 : (1 <= k)%nat) by (subst k; lia).
  assert (K2 : n + Z.of_nat k
               = n + cmd_bytes sc + ts_bytes sc + len_bytes sc + mlen
                 + hash_bytes sc + comm_ctrl_bytes sc) by (subst k; lia).
  assert (K3 : 0 <= n) by lia.
  assert (K4 : n + cmd_bytes sc + ts_bytes sc + len_bytes sc <= n ->
               message_len sc = mlen) by (intros L; exfalso; lia).
  destruct (decode_from big_endian sc sm out cmd cctrl mlen (message_len sc)
              h f WT Hcb (proj1 Hmlen) Hpos T1 M0 Hstale Hh Hhl Hok Hf
              Fs Fl Fc Fcc Fh k b1 n (message_len sc) c1
              K1 K2 K3 Hb1 (fun _ => eq_refl) K4 Q1)
    as (b2 & c2 & E2 & Hb2).
  subst n. rewrite sc_feed_app, E1. cbn [fst snd app]. rewrite E2.
  exists (decoder_at sc b2 0 mlen c2). split; [reflexivity|].
  autorewrite with at_proj. split; [|reflexivity].
  etransitivity; [|exact Fp]. apply read_ext. intros i Hi. apply Hb2.
  subst msg_ptr ts_ptr. lia.
Qed.

End Resync.

(** ** One frame after another *)

Section Sequences.

Variable big_endian : bool.

(** X18.  The encoder reads the layout only: the state of the decoder
    that shares the [struct sercomm] (its buffer, [buffer_len],
    [message_len], the reset-byte counter) has no influence on the frame,
    so frames can be built while a frame is being received. *)
Theorem encoder_ignores_decoder_state (a b : sercomm) (cmd cctrl : Z)
    (msg : option mem) (mlen : Z) (output : mem) (olen : Z) :
  same_layout a b ->
  sc_make_message big_endian a cmd cctrl msg mlen output olen
  = sc_make_message big_endian b cmd cctrl msg mlen output olen.
Proof.
  unfold same_layout. destruct a, b. cbn.
  intros H. repeat match goal with H : _ /\ _ |- _ => destruct H end.
  subst. reflexivity.
Qed.

(** A stream that leaves reset detection alone does so piece by piece. *)
Lemma reset_quiet_app (sm : list sercomm_msg) (l1 l2 : list Z) :
  forall sc,
    reset_quiet sc (l1 ++ l2) ->
    reset_quiet (fst (sc_feed big_endian sc sm l1)) l2.
Proof.
  induction l1 as [|y l1 IH]; intros sc Hq; [exact Hq|].
  rewrite sc_feed_cons. cbn [fst]. apply IH.
  rewrite <- (at_self sc) in Hq. unfold reset_quiet in Hq.
  autorewrite with at_proj in Hq. cbn [app] in Hq.
  destruct (quiet_cons sc (buffer sc) (buffer_len sc) (message_len sc)
              (buffer_reset_bytes sc) y (l1 ++ l2) Hq) as [_ Hq1].
  rewrite at_self in Hq1.
  destruct (step_frame big_endian sc sm y) as (b & l & m & Hf).
  unfold reset_quiet. rewrite Hf.
  destruct sc; cbn in *. exact Hq1.
Qed.

(** X19.  Frames back to back.  Take two frames that are [encodable]
    (supported field widths, a hasher and a timestamp writer that fill
    their fields, values that fit their fields, payloads that are there
    and that the length policy accepts, frames that are not complete at
    their header and that fit their output buffers), each with a handler
    in the table for its command.  Fed one behind the other to a decoder
    at rest (its [buffer_len] at 0, its [message_len] keeping the
    completion threshold within 32 bits), with no reset sequence
    completed on the way, they call their handlers once each, in order,
    each with its own payload length and control value, and leave
    [buffer_len] at 0. *)
Theorem back_to_back (sc : sercomm) (sm : list sercomm_msg) (h : hash_fn)
    (c1 cc1 : Z) (msg1 : option mem) (mlen1 : Z) (out1 : mem) (olen1 : Z)
    (f1 : callback)
    (c2 cc2 : Z) (msg2 : option mem) (mlen2 : Z) (out2 : mem) (olen2 : Z)
    (f2 : callback) :
  let ts_ptr := frame_start_bytes sc + cmd_bytes sc in
  let msg_ptr := ts_ptr + ts_bytes sc + len_bytes sc in
  let r1 := sc_make_message big_endian sc c1 cc1 msg1 mlen1 out1 olen1 in
  let r2 := sc_make_message big_endian sc c2 cc2 msg2 mlen2 out2 olen2 in
  let stream := read (snd r1) 0 (fst r1) ++ read (snd r2) 0 (fst r2) in
  encodable sc h c1 cc1 msg1 mlen1 olen1 ->
  encodable sc h c2 cc2 msg2 mlen2 olen2 ->
  first_match sm c1 f1 ->
  first_match sm c2 f2 ->
  buffer_len sc = 0 ->
  msg_ptr + message_len sc + hash_bytes sc + comm_ctrl_bytes sc
    <= 4294967295 ->
  reset_quiet sc stream ->
  snd (sc_feed big_endian sc sm stream) =
    [EvCall f1 ts_ptr mlen1 msg_ptr cc1 (priv sc);
     EvCall f2 ts_ptr mlen2 msg_ptr cc2 (priv sc)] /\
  buffer_len (fst (sc_feed big_endian sc sm stream)) = 0.
Proof.
  intros ts_ptr msg_ptr r1 r2 stream E1 E2 Hf1 Hf2 Hbl Hstale Hq.
  destruct E1 as (WT & Sc & Sl & Scc & Hh & Hhl & Hts & Hc1 & Hm1 & Hcc1
                  & Hmsg1 & Hok1 & Hpos1 & Ho1).
  destruct E2 as (_ & _ & _ & _ & _ & _ & _ & Hc2 & Hm2 & Hcc2
                  & Hmsg2 & Hok2 & Hpos2 & Ho2).
  destruct (encoded_frame_facts big_endian sc c1 cc1 msg1 mlen1 out1 olen1 h
              WT Sc Sl Scc Hh Hhl Hts Hc1 Hm1 Hcc1 Hmsg1 Ho1)
    as (R1 & Fs1 & Fl1 & Fc1 & Fcc1 & Fh1 & _).
  destruct (encoded_frame_facts big_endian sc c2 cc2 msg2 mlen2 out2 olen2 h
              WT Sc Sl Scc Hh Hhl Hts Hc2 Hm2 Hcc2 Hmsg2 Ho2)
    as (R2 & Fs2 & Fl2 & Fc2 & Fcc2 & Fh2 & _).
  fold r1 in R1, Fs1, Fl1, Fc1, Fcc1, Fh1.
  fold r2 in R2, Fs2, Fl2, Fc2, Fcc2, Fh2.
  pose proof WT as WT'. typed_fields WT'.
  assert (Hcb : 0 < cmd_bytes sc + ts_bytes sc + len_bytes sc)
    by (destruct Sc as [?|[?|?]]; lia).
  assert (M0 : 0 <= message_len sc) by lia.
  subst stream. rewrite R1, R2 in *.
  set (t1 := frame_start_bytes sc + cmd_bytes sc + ts_bytes sc + len_bytes sc
             + mlen1 + hash_bytes sc + comm_ctrl_bytes sc) in *.
  set (t2 := frame_start_bytes sc + cmd_bytes sc + ts_bytes sc + len_bytes sc
             + mlen2 + hash_bytes sc + comm_ctrl_bytes sc) in *.
  set (l1 := read (snd r1) 0 t1) in *.
  set (l2 := read (snd r2) 0 t2) in *.
  pose proof (reset_quiet_app sm l1 l2 sc Hq) as Hq2.
  assert (Hq1 : reset_quiet sc l1).
  { destruct Hq as [Hq|Hq]; [now left|right].
    revert Hq. generalize (buffer_reset_bytes sc). clear.
    induction l1 as [|y l1 IH]; intros c Hq; [reflexivity|].
    cbn [app reset_trips] in *. apply orb_false_iff in Hq.
    destruct Hq as [A B]. rewrite A. cbn [orb]. now apply IH. }
  assert (K1 : (1 <= Z.to_nat t1)%nat) by (subst t1; lia).
  assert (K2 : 0 + Z.of_nat (Z.to_nat t1) = t1) by (subst t1; lia).
  assert (K4 : forall j, 0 <= j < 0 -> buffer sc j = (snd r1) j)
    by (intros j Hj; lia).
  assert (K6 : frame_start_bytes sc + cmd_bytes sc + ts_bytes sc
               + len_bytes sc <= 0 -> message_len sc = mlen1)
    by (intros L; lia).
  assert (Q1 : reset_bytes sc = SERCOMM_OMIT_RESET \/
               reset_trips (reset_byte sc) (reset_bytes sc)
                 (buffer_reset_bytes sc)
                 (read (snd r1) 0 (Z.of_nat (Z.to_nat t1))) = false).
  { rewrite Z2Nat.id by (subst t1; lia). exact Hq1. }
  destruct (decode_from big_endian sc sm (snd r1) c1 cc1 mlen1
              (message_len sc) h f1 WT Hcb (proj1 Hm1) Hpos1
              (Z.le_trans _ _ _ (proj1 Ho1) (proj2 Ho1)) M0 Hstale Hh Hhl
              Hok1 Hf1 Fs1 Fl1 Fc1 Fcc1 Fh1
              (Z.to_nat t1) (buffer sc) 0 (message_len sc)
              (buffer_reset_bytes sc) K1 K2 (Z.le_refl 0) K4
              (fun _ => eq_refl) K6 Q1)
    as (b1 & k1 & D1 & _).
  rewrite Z2Nat.id in D1 by (subst t1; lia).
  rewrite <- Hbl in D1 at 1. rewrite at_self in D1. fold l1 in D1.
  rewrite D1 in Hq2. cbn [fst] in Hq2. unfold reset_quiet in Hq2.
  autorewrite with at_proj in Hq2.
  assert (J1 : (1 <= Z.to_nat t2)%nat) by (subst t2; lia).
  assert (J2 : 0 + Z.of_nat (Z.to_nat t2) = t2) by (subst t2; lia).
  assert (J4 : forall j, 0 <= j < 0 -> b1 j = (snd r2) j)
    by (intros j Hj; lia).
  assert (J6 : frame_start_bytes sc + cmd_bytes sc + ts_bytes sc
               + len_bytes sc <= 0 -> mlen1 = mlen2)
    by (intros L; lia).
  assert (Q2 : reset_bytes sc = SERCOMM_OMIT_RESET \/
               reset_trips (reset_byte sc) (reset_bytes sc) k1
                 (read (snd r2) 0 (Z.of_nat (Z.to_nat t2))) = false).
  { rewrite Z2Nat.id by (subst t2; lia). exact Hq2. }
  destruct (decode_from big_endian sc sm (snd r2) c2 cc2 mlen2 mlen1
              h f2 WT Hcb (proj1 Hm2) Hpos2
              (Z.le_trans _ _ _ (proj1 Ho2) (proj2 Ho2)) (proj1 Hm1)
              (Z.le_trans _ _ _ (proj1 Ho1) (proj2 Ho1)) Hh Hhl
              Hok2 Hf2 Fs2 Fl2 Fc2 Fcc2 Fh2
              (Z.to_nat t2) b1 0 mlen1 k1 J1 J2 (Z.le_refl 0) J4
              (fun _ => eq_refl) J6 Q2)
    as (b2 & k2 & D2 & _).
  rewrite Z2Nat.id in D2 by (subst t2; lia). fold l2 in D2.
  rewrite sc_feed_app, D1. cbn [fst snd]. rewrite D2. cbn [fst snd app].
  split; [reflexivity | now autorewrite with at_proj].
Qed.

End Sequences.

(** ** After a rejected header *)

Section HeaderPrefix.

Variable big_endian : bool.
Variables (sc0 : sercomm) (sm : list sercomm_msg) (hdr : mem).
Variables (m0 : Z) (more : list Z).

Let cmd_ptr := frame_start_bytes sc0.
Let msg_ptr := cmd_ptr + cmd_bytes sc0 + ts_bytes sc0 + len_bytes sc0.

Hypothesis WT : well_typed sc0.
Hypothesis Hm0 : 0 <= m0.
Hypothesis Hm0' :
  msg_ptr + m0 + hash_bytes sc0 + comm_ctrl_bytes sc0 <= 4294967295.
Hypothesis Fsync :
  read hdr 0 cmd_ptr = read (frame_start sc0) 0 (frame_start_bytes sc0).

Let quiet (c : Z) (l : list Z) : Prop :=
  reset_bytes sc0 = SERCOMM_OMIT_RESET \/
  reset_trips (reset_byte sc0) (reset_bytes sc0) c l = false.

Ltac ptr_lia := unfold msg_ptr, cmd_ptr in *; lia.

(** The bytes of a header up to the last byte of the length field. *)
Lemma header_prefix (k : nat) :
  forall (b : mem) (p c : Z),
    p + Z.of_nat k = msg_ptr - 1 -> 0 <= p ->
    (forall j, 0 <= j < p -> b j = hdr j) ->
    quiet c (read hdr p (Z.of_nat k) ++ more) ->
    exists b' c',
      sc_feed big_endian (decoder_at sc0 b p m0 c) sm
        (read hdr p (Z.of_nat k)) =
      (decoder_at sc0 b' (msg_ptr - 1) m0 c', []) /\
      (forall j, 0 <= j < msg_ptr - 1 -> b' j = hdr j) /\
      quiet c' more.
Proof.
  pose proof WT as WT'. typed_fields WT'.
  induction k as [|k IH]; intros b p c Hp Hp0 Hb Hq.
  { cbn [Z.of_nat read Z.to_nat seq map sc_feed app] in *.
    exists b, c. replace p with (msg_ptr - 1) in * by lia.
    repeat split; auto. }
  rewrite read_cons in *. rewrite sc_feed_cons.
  set (y := hdr p) in *.
  set (sc := decoder_at sc0 b p m0 c).
  cbn [app] in Hq.
  destruct (quiet_cons sc0 b p m0 c y _ Hq) as [Hr Hq1]. fold sc in Hr, Hq1.
  set (c1 := reset_counter sc y) in *.
  set (b1 := upd b p y).
  assert (Hb1 : forall j, 0 <= j < p + 1 -> b1 j = hdr j).
  { intros j Hj. subst b1. unfold upd.
    destruct (Z.eqb_spec j p) as [->|]; [reflexivity|]. apply Hb. lia. }
  assert (Up : u32 (p + 1) = p + 1) by (apply u32_small; ptr_lia).
  assert (Hl : buffer_len sc = p) by (subst sc; now autorewrite with at_proj).
  assert (HH : header_len sc = msg_ptr).
  { subst sc. autorewrite with at_proj. unfold header_len.
    rewrite u32_small; ptr_lia. }
  assert (HF : frame_len sc = msg_ptr + m0 + hash_bytes sc0
                              + comm_ctrl_bytes sc0).
  { subst sc. autorewrite with at_proj. rewrite u32_small; ptr_lia. }
  assert (HA : appended sc y = decoder_at sc0 b1 (p + 1) m0 c1).
  { subst sc. rewrite at_appended, Up. reflexivity. }
  assert (Hfs : frame_start_bytes sc = cmd_ptr)
    by (subst sc; now autorewrite with at_proj).
  destruct (IH b1 (p + 1) c1) as (b' & c' & E & F); auto; try lia.
  destruct (Z.eq_dec (p + 1) cmd_ptr) as [Esync|Nsync].
  { rewrite sync_step by (rewrite ?Hl, ?Up, ?Hfs; auto).
    rewrite HA. subst sc. autorewrite with at_proj.
    replace (memcmp b1 0 (frame_start sc0) 0 (frame_start_bytes sc0)) with 0.
    2:{ symmetry. apply memcmp_zero. rewrite <- Fsync. apply read_ext.
        intros i Hi. apply Hb1. ptr_lia. }
    cbn [Z.eqb fst snd app].
    exists b', c'. rewrite E. cbn [fst snd]. exact (conj eq_refl F). }
  rewrite plain_step;
    [| exact Hr | rewrite Hl, Up, Hfs; exact Nsync
     | rewrite Hl, Up, HH; lia | rewrite Hl, Up, HF; lia ].
  rewrite HA. cbn [fst snd app].
  exists b', c'. rewrite E. cbn [fst snd]. exact (conj eq_refl F).
Qed.

End HeaderPrefix.

Section Recovery.

Variable big_endian : bool.

Lemma get_field_dst (d1 d2 : Z) (m : mem) (off w : Z) :
  supported w ->
  get_field big_endian d1 m off w = get_field big_endian d2 m off w.
Proof. intros [-> | [-> | ->]]; reflexivity. Qed.

(** X20.  Recovery after a length violation.  A decoder at rest (its
    [buffer_len] at 0, its [message_len] keeping the completion threshold
    within 32 bits) is fed a header with an intact sync pattern whose
    declared length the policy rejects, and behind it a frame that is
    [encodable] (supported field widths, a hasher and a timestamp writer
    that fill their fields, values that fit their fields, a payload that
    is there and that the length policy accepts, a frame that is not
    complete at its header and that fits the output buffer) and has a
    handler in the table for its command.  Provided the rejected length,
    which stays in [message_len], is not negative and keeps the
    completion threshold within 32 bits, and no reset sequence is
    completed on the way, the frame calls its handler exactly once and
    [buffer_len] is 0 afterwards. *)
Theorem length_violation_recovery (sc : sercomm) (sm : list sercomm_msg)
    (h : hash_fn) (hdr : mem)
    (cmd cctrl : Z) (msg : option mem) (mlen : Z) (output : mem) (olen : Z)
    (f : callback) :
  let ts_ptr := frame_start_bytes sc + cmd_bytes sc in
  let msg_ptr := ts_ptr + ts_bytes sc + len_bytes sc in
  let declared :=
    get_field big_endian 0 hdr (msg_ptr - len_bytes sc) (len_bytes sc) in
  let r := sc_make_message big_endian sc cmd cctrl msg mlen output olen in
  let stream := read hdr 0 msg_ptr ++ read (snd r) 0 (fst r) in
  encodable sc h cmd cctrl msg mlen olen ->
  first_match sm cmd f ->
  buffer_len sc = 0 ->
  msg_ptr + message_len sc + hash_bytes sc + comm_ctrl_bytes sc
    <= 4294967295 ->
  read hdr 0 (frame_start_bytes sc)
    = read (frame_start sc) 0 (frame_start_bytes sc) ->
  ~ length_ok sc declared ->
  0 <= declared ->
  msg_ptr + declared + hash_bytes sc + comm_ctrl_bytes sc <= 4294967295 ->
  reset_quiet sc stream ->
  snd (sc_feed big_endian sc sm stream) =
    [EvCall f ts_ptr mlen msg_ptr cctrl (priv sc)] /\
  buffer_len (fst (sc_feed big_endian sc sm stream)) = 0.
Proof.
  intros ts_ptr msg_ptr declared r stream En Hf Hbl Hstale Hsync Hbad Hd0
    Hd1 Hq.
  destruct En as (WT & Sc & Sl & Scc & Hh & Hhl & Hts & Hc & Hm & Hcc
                  & Hmsg & Hok & Hpos & Ho).
  destruct (encoded_frame_facts big_endian sc cmd cctrl msg mlen output olen
              h WT Sc Sl Scc Hh Hhl Hts Hc Hm Hcc Hmsg Ho)
    as (R & Fs & Fl & Fc & Fcc & Fh & _).
  fold r in R, Fs, Fl, Fc, Fcc, Fh.
  pose proof WT as WT'. typed_fields WT'.
  assert (Hcb : 0 < cmd_bytes sc + ts_bytes sc + len_bytes sc)
    by (destruct Sc as [?|[?|?]]; lia).
  assert (M0 : 0 <= message_len sc) by lia.
  subst stream. rewrite R in *.
  set (t := frame_start_bytes sc + cmd_bytes sc + ts_bytes sc + len_bytes sc
            + mlen + hash_bytes sc + comm_ctrl_bytes sc) in *.
  set (fr := read (snd r) 0 t) in *.
  set (y := hdr (msg_ptr - 1)).
  assert (Split : read hdr 0 msg_ptr
                  = read hdr 0 (Z.of_nat (Z.to_nat (msg_ptr - 1))) ++ [y]).
  { replace msg_ptr with (Z.of_nat (S (Z.to_nat (msg_ptr - 1)))) at 1
      by (subst msg_ptr ts_ptr; lia).
    rewrite read_snoc. f_equal. f_equal. subst y. f_equal.
    subst msg_ptr ts_ptr. lia. }
  rewrite Split in *. rewrite <- app_assoc in *. cbn [app] in *.
  set (pre := read hdr 0 (Z.of_nat (Z.to_nat (msg_ptr - 1)))) in *.
  assert (Q : reset_bytes sc = SERCOMM_OMIT_RESET \/
              reset_trips (reset_byte sc) (reset_bytes sc)
                (buffer_reset_bytes sc) (pre ++ y :: fr) = false)
    by exact Hq.
  assert (K1 : 0 + Z.of_nat (Z.to_nat (msg_ptr - 1)) = msg_ptr - 1)
    by (subst msg_ptr ts_ptr; lia).
  assert (K2 : forall j, 0 <= j < 0 -> buffer sc j = hdr j)
    by (intros j Hj; lia).
  destruct (header_prefix big_endian sc sm hdr (message_len sc) (y :: fr)
              WT M0 Hstale Hsync (Z.to_nat (msg_ptr - 1)) (buffer sc) 0
              (buffer_reset_bytes sc) K1 (Z.le_refl 0) K2 Q)
    as (b1 & k1 & E1 & Hb1 & Q1).
  fold pre in E1. rewrite <- Hbl in E1 at 1. rewrite at_self in E1.
  rewrite sc_feed_app, E1. cbn [fst snd app]. rewrite sc_feed_cons.
  set (p := frame_start_bytes sc + cmd_bytes sc + ts_bytes sc
            + len_bytes sc - 1).
  set (st := decoder_at sc b1 p (message_len sc) k1).
  destruct (quiet_cons sc b1 p (message_len sc) k1 y fr Q1) as [Rf Q2].
  fold st in Rf, Q2.
  assert (Up : u32 (p + 1) = p + 1) by (apply u32_small; subst p; lia).
  assert (Hl : buffer_len st = p) by (subst st; now autorewrite with at_proj).
  assert (HH : header_len st = msg_ptr).
  { subst st. autorewrite with at_proj. unfold header_len.
    rewrite u32_small; subst msg_ptr ts_ptr; lia. }
  assert (Hfs : frame_start_bytes st = frame_start_bytes sc)
    by (subst st; now autorewrite with at_proj).
  assert (Hlb : len_bytes st = len_bytes sc)
    by (subst st; now autorewrite with at_proj).
  assert (Decl : get_field big_endian (message_len st)
                   (buffer (appended st y))
                   (u32 (header_len st - len_bytes st)) (len_bytes st)
                 = declared).
  { rewrite HH, Hlb. rewrite u32_small by (subst msg_ptr ts_ptr; lia).
    subst declared. rewrite (get_field_dst _ 0) by exact Sl.
    apply get_field_ext. intros j Hj.
    subst st. autorewrite with at_proj. unfold upd.
    destruct (Z.eqb_spec j p) as [->|];
      [subst y p msg_ptr ts_ptr; f_equal; lia|].
    apply Hb1. subst p msg_ptr ts_ptr. lia. }
  rewrite rejected_length;
    [| exact Rf | rewrite Hl, Up, Hfs; subst p; lia
     | rewrite Hl, Up, HH; subst p msg_ptr ts_ptr; lia
     | rewrite Decl; unfold length_ok in *; subst st;
       autorewrite with at_proj; exact Hbad ].
  rewrite Decl. cbn [fst snd app].
  subst st. autorewrite with at_proj.
  set (k2 := reset_counter (decoder_at sc b1 p (message_len sc) k1) y) in *.
  set (b2 := upd b1 p y).
  assert (J1 : (1 <= Z.to_nat t)%nat) by (subst t; lia).
  assert (J2 : 0 + Z.of_nat (Z.to_nat t) = t) by (subst t; lia).
  assert (J4 : forall j, 0 <= j < 0 -> b2 j = (snd r) j)
    by (intros j Hj; lia).
  assert (J6 : frame_start_bytes sc + cmd_bytes sc + ts_bytes sc
               + len_bytes sc <= 0 -> declared = mlen)
    by (intros L; lia).
  assert (Q3 : reset_bytes sc = SERCOMM_OMIT_RESET \/
               reset_trips (reset_byte sc) (reset_bytes sc) k2
                 (read (snd r) 0 (Z.of_nat (Z.to_nat t))) = false).
  { rewrite Z2Nat.id by (subst t; lia). exact Q2. }
  destruct (decode_from big_endian sc sm (snd r) cmd cctrl mlen declared
              h f WT Hcb (proj1 Hm) Hpos
              (Z.le_trans _ _ _ (proj1 Ho) (proj2 Ho)) Hd0 Hd1 Hh Hhl
              Hok Hf Fs Fl Fc Fcc Fh
              (Z.to_nat t) b2 0 declared k2 J1 J2 (Z.le_refl 0) J4
              (fun _ => eq_refl) J6 Q3)
    as (b3 & k3 & D & _).
  rewrite Z2Nat.id in D by (subst t; lia). fold fr in D.
  rewrite D. cbn [fst snd].
  split; [reflexivity | now autorewrite with at_proj].
Qed.

End Recovery.

(** ** The encoder's refusals, the shift and the buffer after a frame *)

Section Remainder.

Variable big_endian : bool.

(** X21.  As long as the frame length fits 32 bits, the encoder refuses
    exactly the frames that do not fit the output buffer and the payloads
    that are announced but absent: it then returns 0 and leaves the
    output buffer as it was; every other frame is built and its length
    returned. *)
Theorem encoder_refusal (sc : sercomm) (cmd cctrl : Z)
    (msg : option mem) (mlen : Z) (output : mem) (olen : Z) :
  let total :=
    frame_start_bytes sc + cmd_bytes sc + ts_bytes sc + len_bytes sc
    + mlen + hash_bytes sc + comm_ctrl_bytes sc in
  let r := sc_make_message big_endian sc cmd cctrl msg mlen output olen in
  well_typed sc ->
  0 <= mlen ->
  0 <= olen <= 4294967295 ->
  total <= 4294967295 ->
  (olen < total \/ (0 < mlen /\ msg = None) -> r = (0, output)) /\
  (~ (olen < total \/ (0 < mlen /\ msg = None)) -> fst r = total).
Proof.
  intros total r WT Hm Ho Ht.
  pose proof WT as WT'. typed_fields WT'.
  assert (U : u32 total = total) by (apply u32_small; subst total; lia).
  split.
  - intros G. subst r. apply refused_frame_writes_nothing.
    fold total. rewrite U.
    destruct G as [G | [G1 G2]].
    + apply orb_true_iff. left. apply Z.ltb_lt. exact G.
    + apply orb_true_iff. right. subst msg.
      apply andb_true_iff. split; [apply Z.ltb_lt; exact G1 | reflexivity].
  - intros G. subst r.
    rewrite (sc_make_message_guards big_endian sc cmd cctrl msg mlen output
               olen WT Hm Ho Ht).
    fold total.
    destruct (Z.ltb_spec olen total) as [L|L].
    + exfalso. apply G. now left.
    + destruct (Z.ltb_spec 0 mlen) as [M|M]; [|reflexivity].
      destruct msg as [body|]; [reflexivity|].
      exfalso. apply G. right. now split.
Qed.

(** X22.  [shift_message] moves the [amount] bytes that start at index
    [offset] down to index 0, leaves every other byte of the buffer where
    it was and takes [offset] off [buffer_len]. *)
Theorem shift_message_moves_down (sc : sercomm) (offset amount : Z) :
  let sc' := shift_message sc offset amount in
  0 < offset ->
  0 <= amount ->
  (forall j, 0 <= j < amount -> buffer sc' j = buffer sc (j + offset)) /\
  (forall j, j < 0 \/ amount <= j -> buffer sc' j = buffer sc j) /\
  buffer_len sc' = u32 (buffer_len sc - offset) /\
  same_layout sc sc'.
Proof.
  intros sc' Ho Ha.
  assert (B : buffer sc'
              = shift_loop (buffer sc) offset offset (Z.to_nat amount))
    by (subst sc'; now destruct sc).
  split; [|split; [|split]].
  - intros j Hj. rewrite B, shift_loop_spec by exact Ho.
    rewrite Z2Nat.id by exact Ha.
    destruct (Z.leb_spec (offset - offset) j),
      (Z.ltb_spec j (offset - offset + amount)); simpl; auto; lia.
  - intros j Hj. rewrite B, shift_loop_spec by exact Ho.
    rewrite Z2Nat.id by exact Ha.
    destruct (Z.leb_spec (offset - offset) j),
      (Z.ltb_spec j (offset - offset + amount)); simpl; auto; lia.
  - subst sc'. now destruct sc.
  - subst sc'. unfold same_layout. destruct sc. cbn.
    repeat split; reflexivity.
Qed.

(** X23.  Take a frame that is [encodable] (supported field widths, a
    hasher and a timestamp writer that fill their fields, values that fit
    their fields, a payload that is there and that the length policy
    accepts, a frame that is not complete at its header and that fits the
    output buffer) and feed it to a decoder at rest (its [buffer_len] at
    0, its [message_len] keeping the completion threshold within 32
    bits), with no reset sequence completed on the way.  After its last
    byte the buffer of the decoder holds the frame byte for byte and
    [buffer_len] is 0, whether or not a handler is registered for its
    command: the timestamp and the payload that a handler is pointed to
    are the bytes that were encoded. *)
Theorem decoder_buffer_holds_frame
    (sc : sercomm) (sm : list sercomm_msg) (h : hash_fn)
    (cmd cctrl : Z) (msg : option mem) (mlen : Z) (output : mem) (olen : Z) :
  let msg_ptr :=
    frame_start_bytes sc + cmd_bytes sc + ts_bytes sc + len_bytes sc in
  let r := sc_make_message big_endian sc cmd cctrl msg mlen output olen in
  let frame := read (snd r) 0 (fst r) in
  encodable sc h cmd cctrl msg mlen olen ->
  buffer_len sc = 0 ->
  msg_ptr + message_len sc + hash_bytes sc + comm_ctrl_bytes sc
    <= 4294967295 ->
  reset_quiet sc frame ->
  read (buffer (fst (sc_feed big_endian sc sm frame))) 0 (fst r) = frame /\
  buffer_len (fst (sc_feed big_endian sc sm frame)) = 0.
Proof.
  intros msg_ptr r frame E Hbl Hstale Hq.
  destruct E as (WT & Sc & Sl & Scc & Hh & Hhl & Hts & Hc & Hm & Hcc
                 & Hmsg & Hok & Hpos & Ho).
  destruct (encoded_frame_facts big_endian sc cmd cctrl msg mlen output olen
              h WT Sc Sl Scc Hh Hhl Hts Hc Hm Hcc Hmsg Ho)
    as (R & Fs & Fl & _).
  fold r in R, Fs, Fl.
  pose proof WT as WT'. typed_fields WT'.
  assert (Hcb : 0 < cmd_bytes sc + ts_bytes sc + len_bytes sc)
    by (destruct Sc as [?|[?|?]]; lia).
  subst frame. rewrite R in *.
  destruct (frame_outcome big_endian sc sm (snd r) mlen h WT Hcb (proj1 Hm)
              Hpos (Z.le_trans _ _ _ (proj1 Ho) (proj2 Ho)) Hbl Hstale Hh
              Hhl Hok Fs Fl Hq)
    as (sc' & D & L & _ & A).
  rewrite D. cbn [fst]. split; [|exact L].
  apply read_ext. intros i Hi. apply A. lia.
Qed.

End Remainder.

(** ** Instances of the further properties *)


Ltac encodable_eval :=
  unfold encodable;
  repeat match goal with |- _ /\ _ => split end;
  first
    [ apply well_typedb_ok; reflexivity
    | left; reflexivity
    | right; left; reflexivity
    | right; right; reflexivity
    | reflexivity
    | intros l; reflexivity
    | intros _; discriminate
    | intros H; vm_compute in H; discriminate H
    | by_eval ].

(** A two-byte field takes the low 16 bits of 0x12345. *)
Lemma field_codec_truncates_witness :
  get_field false 0 (put_field false zeros 3 74565 2) 3 2 = 74565 mod 256 ^ 2.
Proof.
  apply (field_codec_truncates false 0 zeros 3 74565 2).
  right. left. reflexivity.
Defined.

(** The handler that ran for a frame under [hashed_layout] is in the
    table. *)
Lemma only_registered_handlers_witness :
  exists c, first_match handlers c 7%nat.
Proof.
  assert (H1 : In (EvCall 7%nat 3 2 7 0 0)
                 (snd (sc_feed false hashed_layout handlers
                         [0; 1; 5; 2; 0; 0; 0; 170; 187; 108]))).
  { vm_compute. left. reflexivity. }
  exact (only_registered_handlers false handlers
           [0; 1; 5; 2; 0; 0; 0; 170; 187; 108] hashed_layout
           7%nat 3 2 7 0 0 H1).
Defined.

(** Two frames under [plain_layout]. *)
Lemma no_hasher_no_dispatch_witness :
  calls (snd (sc_feed false plain_layout handlers
                [0; 1; 5; 2; 170; 187; 0; 1; 5; 0])) = [].
Proof.
  apply (no_hasher_no_dispatch false handlers
           [0; 1; 5; 2; 170; 187; 0; 1; 5; 0] plain_layout).
  reflexivity.
Defined.

(** Bytes EE under [plain_layout], which has no reset detection. *)
Lemma reset_disabled_witness :
  resets (snd (sc_feed false plain_layout handlers [238; 238; 238])) = [] /\
  buffer_reset_bytes (fst (sc_feed false plain_layout handlers
                             [238; 238; 238]))
  = buffer_reset_bytes plain_layout.
Proof.
  apply (reset_disabled false handlers [238; 238; 238] plain_layout).
  reflexivity.
Defined.

(** Byte number 259 of a run of EE, where three make a reset sequence. *)
Lemma reset_run_wraps_witness :
  resets (snd (sc_get_message false
                 (fst (sc_feed false hashed_layout handlers
                         (repeat 238 258)))
                 handlers 238))
  = [EvReset 9%nat].
Proof.
  assert (H1 : reset_bytes hashed_layout <> SERCOMM_OMIT_RESET) by by_eval.
  assert (H2 : is_u8 (buffer_reset_bytes hashed_layout))
    by (split; by_eval).
  assert (H3 : reset hashed_layout = Some 9%nat) by reflexivity.
  exact (proj2 (reset_run_wraps false hashed_layout handlers 9%nat 258
                  H1 H2 H3)).
Defined.

(** The seventh byte of a frame under [hashed_layout] ends the header. *)
Lemma header_checkpoint_witness :
  let st := fst (sc_feed false hashed_layout handlers [0; 1; 5; 2; 0; 0]) in
  snd (sc_get_message false st handlers 0) = [] /\
  message_len (fst (sc_get_message false st handlers 0)) = 2 /\
  buffer_len (fst (sc_get_message false st handlers 0)) = 7.
Proof.
  intros st.
  assert (H1 : reset_fires st 0 = false) by reflexivity.
  assert (H2 : u32 (buffer_len st + 1) <> frame_start_bytes st) by by_eval.
  assert (H3 : u32 (buffer_len st + 1) = header_len st) by reflexivity.
  destruct (header_checkpoint false st handlers 0 H1 H2 H3)
    as (A & B & _ & C & _).
  split; [exact A|]. split; [exact B|]. apply C. by_eval.
Defined.

(** The last byte of a frame: the hasher stores at index 10, index 11 is
    out of reach. *)
Lemma decoder_write_reach_witness :
  let st :=
    fst (sc_feed false hashed_layout handlers
           [0; 1; 5; 2; 0; 0; 0; 170; 187]) in
  buffer (fst (sc_get_message false st handlers 108)) 11 = buffer st 11.
Proof.
  intros st.
  assert (H1 : well_typed st) by (apply well_typedb_ok; reflexivity).
  assert (H2 : buffer_len st < 4294967295) by by_eval.
  assert (H3 : forall h l, hash st = Some h ->
                 Z.of_nat (length (h l)) <= hash_bytes st).
  { intros h l E. change (Some sum_hash = Some h) in E.
    injection E as <-. by_eval. }
  apply (decoder_write_reach false st handlers 108 H1 H2 H3 11).
  right. by_eval.
Defined.

(** Five bytes behind a header under [plain_layout]. *)
Lemma hasherless_decoder_only_grows_witness :
  let st := fst (sc_feed false plain_layout handlers [0; 1; 5; 2]) in
  let r := sc_feed false st handlers [170; 187; 1; 2; 3] in
  snd r = [] /\ buffer_len (fst r) = 9.
Proof.
  intros st r.
  assert (H1 : well_typed st) by (apply well_typedb_ok; reflexivity).
  assert (H2 : hash st = None) by reflexivity.
  assert (H3 : reset_bytes st = SERCOMM_OMIT_RESET) by reflexivity.
  assert (H4 : frame_start_bytes st <= buffer_len st) by by_eval.
  assert (H5 : header_len st <= buffer_len st) by by_eval.
  assert (H6 : buffer_len st + Z.of_nat (length [170; 187; 1; 2; 3])
               <= 4294967295) by by_eval.
  destruct (hasherless_decoder_only_grows false st handlers
              [170; 187; 1; 2; 3] H1 H2 H3 H4 H5 H6) as (A & B & _).
  split; [exact A | exact B].
Defined.

(** A ten-byte frame in a 64-byte buffer: byte 64 is not touched. *)
Lemma encoder_stays_in_bounds_witness :
  let r :=
    sc_make_message false hashed_layout 5 0 (Some (mem_of_list [170; 187]))
      2 zeros 64 in
  (fst r = 0 \/ fst r = 10 /\ 10 <= 64) /\ snd r 64 = zeros 64.
Proof.
  intros r.
  assert (H1 : well_typed hashed_layout)
    by (apply well_typedb_ok; reflexivity).
  assert (H2 : supported (cmd_bytes hashed_layout)) by (left; reflexivity).
  assert (H3 : supported (len_bytes hashed_layout))
    by (right; right; reflexivity).
  assert (H4 : comm_ctrl_bytes hashed_layout = 0
               \/ supported (comm_ctrl_bytes hashed_layout))
    by (left; reflexivity).
  assert (H5 : 0 <= 2) by by_eval.
  assert (H6 : frame_start_bytes hashed_layout + cmd_bytes hashed_layout
               + ts_bytes hashed_layout + len_bytes hashed_layout + 2
               + hash_bytes hashed_layout + comm_ctrl_bytes hashed_layout
               <= 4294967295) by by_eval.
  assert (H7 : 0 <= 64 <= 4294967295) by (split; by_eval).
  assert (H8 : 0 < ts_bytes hashed_layout ->
               forall s, ts hashed_layout = Some s ->
                         length s = Z.to_nat (ts_bytes hashed_layout))
    by (intros H; vm_compute in H; discriminate H).
  assert (H9 : forall h l, hash hashed_layout = Some h ->
                 length (h l) = Z.to_nat (hash_bytes hashed_layout)).
  { intros h l E. change (Some sum_hash = Some h) in E.
    injection E as <-. reflexivity. }
  destruct (encoder_stays_in_bounds false hashed_layout 5 0
              (Some (mem_of_list [170; 187])) 2 zeros 64
              H1 H2 H3 H4 H5 H6 H7 H8 H9) as (A & B).
  split; [exact A|]. apply (B 64). right. by_eval.
Defined.




(** The frame of command 5 with payload AA BB behind three stray bytes. *)
Lemma resync_witness :
  exists sc',
    sc_feed false hashed_layout handlers
      ([7; 0; 0] ++ encoded false hashed_layout 5 0 [170; 187]) =
      (sc', [EvCall 7%nat 3 2 7 0 0]) /\
    read (buffer sc') 7 2 = [170; 187] /\
    buffer_len sc' = 0.
Proof.
  assert (H1 : well_typed hashed_layout)
    by (apply well_typedb_ok; reflexivity).
  assert (H1' : 1 <= frame_start_bytes hashed_layout) by by_eval.
  assert (H2 : supported (cmd_bytes hashed_layout))
    by (left; reflexivity).
  assert (H3 : supported (len_bytes hashed_layout))
    by (right; right; reflexivity).
  assert (H4 : comm_ctrl_bytes hashed_layout = 0
               \/ supported (comm_ctrl_bytes hashed_layout))
    by (left; reflexivity).
  assert (H5 : hash hashed_layout = Some sum_hash) by reflexivity.
  assert (H6 : forall l, length (sum_hash l)
                         = Z.to_nat (hash_bytes hashed_layout))
    by (intros l; reflexivity).
  assert (H7 : 0 < ts_bytes hashed_layout ->
               forall s, ts hashed_layout = Some s ->
                         length s = Z.to_nat (ts_bytes hashed_layout))
    by (intros H; vm_compute in H; discriminate H).
  assert (H8 : 0 <= 5 < 256 ^ cmd_bytes hashed_layout) by (split; by_eval).
  assert (H9 : 0 <= 2 < 256 ^ len_bytes hashed_layout) by (split; by_eval).
  assert (H10 : 0 <= 0 < 256 ^ comm_ctrl_bytes hashed_layout)
    by (split; by_eval).
  assert (H11 : 0 < 2 -> Some (mem_of_list [170; 187]) <> None)
    by (intros _; discriminate).
  assert (H12 : length_ok hashed_layout 2) by by_eval.
  assert (H13 : 0 < 2 + hash_bytes hashed_layout
                    + comm_ctrl_bytes hashed_layout) by by_eval.
  assert (H14 : frame_start_bytes hashed_layout + cmd_bytes hashed_layout
                + ts_bytes hashed_layout + len_bytes hashed_layout + 2
                + hash_bytes hashed_layout + comm_ctrl_bytes hashed_layout
                <= 64 <= 4294967295) by (split; by_eval).
  assert (H15 : first_match handlers 5 7%nat)
    by (apply scan_some; reflexivity).
  assert (H16 : buffer_len hashed_layout = 0) by reflexivity.
  assert (H17 : frame_start_bytes hashed_layout + cmd_bytes hashed_layout
                + ts_bytes hashed_layout + len_bytes hashed_layout
                + message_len hashed_layout + hash_bytes hashed_layout
                + comm_ctrl_bytes hashed_layout <= 4294967295) by by_eval.
  assert (H18 : only_at_end
                  (read (frame_start hashed_layout) 0
                     (frame_start_bytes hashed_layout))
                  ([7; 0; 0]
                   ++ read (frame_start hashed_layout) 0
                        (frame_start_bytes hashed_layout)))
    by (apply only_at_endb_ok; reflexivity).
  assert (H19 : reset_quiet hashed_layout
                  ([7; 0; 0]
                   ++ read
                        (snd (sc_make_message false hashed_layout 5 0
                                (Some (mem_of_list [170; 187])) 2 zeros 64))
                        0
                        (fst (sc_make_message false hashed_layout 5 0
                                (Some (mem_of_list [170; 187])) 2 zeros
                                64))))
    by (right; vm_compute; reflexivity).
  exact (resync false hashed_layout handlers 5 0
           (Some (mem_of_list [170; 187])) 2 zeros 64 sum_hash 7%nat
           [7; 0; 0]
           H1 H1' H2 H3 H4 H5 H6 H7 H8 H9 H10 H11 H12 H13 H14 H15 H16 H17
           H18 H19).
Defined.

(** The encoder of a decoder that is in the middle of a frame. *)
Lemma encoder_ignores_decoder_state_witness :
  sc_make_message false hashed_layout 5 0 (Some (mem_of_list [170; 187]))
    2 zeros 64
  = sc_make_message false
      (fst (sc_feed false hashed_layout handlers [0; 1; 5]))
      5 0 (Some (mem_of_list [170; 187])) 2 zeros 64.
Proof.
  apply (encoder_ignores_decoder_state false hashed_layout
           (fst (sc_feed false hashed_layout handlers [0; 1; 5]))).
  apply feed_same_layout.
Defined.

(** Two frames of command 5, with payloads AA BB and 01. *)
Lemma back_to_back_witness :
  let stream :=
    encoded false hashed_layout 5 0 [170; 187]
    ++ encoded false hashed_layout 5 0 [1] in
  snd (sc_feed false hashed_layout handlers stream) =
    [EvCall 7%nat 3 2 7 0 0; EvCall 7%nat 3 1 7 0 0] /\
  buffer_len (fst (sc_feed false hashed_layout handlers stream)) = 0.
Proof.
  intros stream.
  assert (H1 : encodable hashed_layout sum_hash 5 0
                 (Some (mem_of_list [170; 187])) 2 64) by encodable_eval.
  assert (H2 : encodable hashed_layout sum_hash 5 0
                 (Some (mem_of_list [1])) 1 64) by encodable_eval.
  assert (H3 : first_match handlers 5 7%nat)
    by (apply scan_some; reflexivity).
  assert (H4 : buffer_len hashed_layout = 0) by reflexivity.
  assert (H5 : frame_start_bytes hashed_layout + cmd_bytes hashed_layout
               + ts_bytes hashed_layout + len_bytes hashed_layout
               + message_len hashed_layout + hash_bytes hashed_layout
               + comm_ctrl_bytes hashed_layout <= 4294967295) by by_eval.
  assert (H6 : reset_quiet hashed_layout stream)
    by (right; vm_compute; reflexivity).
  exact (back_to_back false hashed_layout handlers sum_hash
           5 0 (Some (mem_of_list [170; 187])) 2 zeros 64 7%nat
           5 0 (Some (mem_of_list [1])) 1 zeros 64 7%nat
           H1 H2 H3 H3 H4 H5 H6).
Defined.

(** A header that declares nine bytes where eight are allowed, then the
    frame of command 5 with payload AA BB. *)
Lemma length_violation_recovery_witness :
  let stream :=
    [0; 1; 5; 9; 0; 0; 0] ++ encoded false hashed_layout 5 0 [170; 187] in
  snd (sc_feed false hashed_layout handlers stream) =
    [EvCall 7%nat 3 2 7 0 0] /\
  buffer_len (fst (sc_feed false hashed_layout handlers stream)) = 0.
Proof.
  intros stream.
  pose (hdr := mem_of_list [0; 1; 5; 9; 0; 0; 0]).
  assert (H1 : encodable hashed_layout sum_hash 5 0
                 (Some (mem_of_list [170; 187])) 2 64) by encodable_eval.
  assert (H2 : first_match handlers 5 7%nat)
    by (apply scan_some; reflexivity).
  assert (H3 : buffer_len hashed_layout = 0) by reflexivity.
  assert (H4 : frame_start_bytes hashed_layout + cmd_bytes hashed_layout
               + ts_bytes hashed_layout + len_bytes hashed_layout
               + message_len hashed_layout + hash_bytes hashed_layout
               + comm_ctrl_bytes hashed_layout <= 4294967295) by by_eval.
  assert (H5 : read hdr 0 (frame_start_bytes hashed_layout)
               = read (frame_start hashed_layout) 0
                   (frame_start_bytes hashed_layout)) by reflexivity.
  assert (H6 : ~ length_ok hashed_layout 9)
    by (intros H; vm_compute in H; apply H; reflexivity).
  assert (H7 : 0 <= 9) by by_eval.
  assert (H8 : frame_start_bytes hashed_layout + cmd_bytes hashed_layout
               + ts_bytes hashed_layout + len_bytes hashed_layout + 9
               + hash_bytes hashed_layout + comm_ctrl_bytes hashed_layout
               <= 4294967295) by by_eval.
  assert (H9 : reset_quiet hashed_layout stream)
    by (right; vm_compute; reflexivity).
  exact (length_violation_recovery false hashed_layout handlers sum_hash
           hdr 5 0 (Some (mem_of_list [170; 187])) 2 zeros 64 7%nat
           H1 H2 H3 H4 H5 H6 H7 H8 H9).
Defined.

(** A two-byte field at offset 3: byte 5 keeps its value, byte 4 holds a
    byte value, and a three-byte field is not written. *)
Lemma put_field_footprint_witness :
  put_field false zeros 3 74565 2 5 = zeros 5 /\
  0 <= put_field false zeros 3 74565 2 4 <= 255 /\
  put_field false zeros 3 74565 3 4 = zeros 4.
Proof.
  split; [|split].
  - apply (proj1 (put_field_footprint false zeros 3 74565 2 5)).
    right. by_eval.
  - apply (proj1 (proj2 (put_field_footprint false zeros 3 74565 2 4))).
    + right. left. reflexivity.
    + split; by_eval.
  - apply (proj2 (proj2 (put_field_footprint false zeros 3 74565 3 4))).
    intros [H | [H | H]]; discriminate H.
Defined.

(** A two-byte field of a buffer of byte values, and a three-byte
    field. *)
Lemma get_field_range_witness :
  0 <= get_field false 0 (mem_of_list [1; 2; 3; 4]) 1 2 < 256 ^ 2 /\
  get_field false 9 (mem_of_list [1; 2; 3; 4]) 1 3 = 9.
Proof.
  split.
  - apply (proj1 (get_field_range false 0 (mem_of_list [1; 2; 3; 4]) 1 2)).
    + right. left. reflexivity.
    + intros j Hj. assert (E : j = 1 \/ j = 2) by lia.
      destruct E as [-> | ->]; split; by_eval.
  - apply (proj2 (get_field_range false 9 (mem_of_list [1; 2; 3; 4]) 1 3)).
    intros [H | [H | H]]; discriminate H.
Defined.

(** The last byte of a frame under [hashed_layout] runs the handler and
    flushes the buffer. *)
Lemma one_callback_then_flush_witness :
  let st :=
    fst (sc_feed false hashed_layout handlers
           [0; 1; 5; 2; 0; 0; 0; 170; 187]) in
  (length (snd (sc_get_message false st handlers 108)) <= 1)%nat /\
  buffer_len (fst (sc_get_message false st handlers 108)) = 0.
Proof.
  intros st.
  destruct (one_callback_then_flush false st handlers 108) as (A & B).
  split; [exact A|]. apply B. by_eval.
Defined.

(** A 16-byte frame for an 8-byte buffer, and a frame that fits. *)
Lemma encoder_refusal_witness :
  sc_make_message false hashed_layout 5 0 (Some (mem_of_list [170; 187]))
    2 zeros 8 = (0, zeros) /\
  fst (sc_make_message false hashed_layout 5 0
         (Some (mem_of_list [170; 187])) 2 zeros 64) = 10.
Proof.
  assert (H1 : well_typed hashed_layout)
    by (apply well_typedb_ok; reflexivity).
  assert (H2 : 0 <= 2) by by_eval.
  assert (H3 : 0 <= 8 <= 4294967295) by (split; by_eval).
  assert (H3' : 0 <= 64 <= 4294967295) by (split; by_eval).
  assert (H4 : frame_start_bytes hashed_layout + cmd_bytes hashed_layout
               + ts_bytes hashed_layout + len_bytes hashed_layout + 2
               + hash_bytes hashed_layout + comm_ctrl_bytes hashed_layout
               <= 4294967295) by by_eval.
  split.
  - apply (proj1 (encoder_refusal false hashed_layout 5 0
                    (Some (mem_of_list [170; 187])) 2 zeros 8
                    H1 H2 H3 H4)).
    left. by_eval.
  - apply (proj2 (encoder_refusal false hashed_layout 5 0
                    (Some (mem_of_list [170; 187])) 2 zeros 64
                    H1 H2 H3' H4)).
    intros [G | [_ G]]; [vm_compute in G | ]; discriminate G.
Defined.

(** The shift of the sync search on a buffer that holds 07 00. *)
Lemma shift_message_moves_down_witness :
  let st := fst (sc_feed false hashed_layout handlers [7]) in
  let st' := shift_message (appended st 0) 1 1 in
  buffer st' 0 = 0 /\ buffer_len st' = 1.
Proof.
  intros st st'.
  assert (H1 : 0 < 1) by by_eval.
  assert (H2 : 0 <= 1) by by_eval.
  destruct (shift_message_moves_down (appended st 0) 1 1 H1 H2)
    as (A & _ & B & _).
  split.
  - transitivity (buffer (appended st 0) (0 + 1)); [|reflexivity].
    apply (A 0). split; by_eval.
  - transitivity (u32 (buffer_len (appended st 0) - 1)); [|reflexivity].
    exact B.
Defined.

(** The frame of command 6, for which [handlers] has no entry. *)
Lemma decoder_buffer_holds_frame_witness :
  let frame := encoded false hashed_layout 6 0 [170; 187] in
  read (buffer (fst (sc_feed false hashed_layout handlers frame))) 0 10
  = frame /\
  buffer_len (fst (sc_feed false hashed_layout handlers frame)) = 0.
Proof.
  intros frame.
  assert (H1 : encodable hashed_layout sum_hash 6 0
                 (Some (mem_of_list [170; 187])) 2 64) by encodable_eval.
  assert (H2 : buffer_len hashed_layout = 0) by reflexivity.
  assert (H3 : frame_start_bytes hashed_layout + cmd_bytes hashed_layout
               + ts_bytes hashed_layout + len_bytes hashed_layout
               + message_len hashed_layout + hash_bytes hashed_layout
               + comm_ctrl_bytes hashed_layout <= 4294967295) by by_eval.
  assert (H4 : reset_quiet hashed_layout frame)
    by (right; vm_compute; reflexivity).
  exact (decoder_buffer_holds_frame false hashed_layout handlers sum_hash
           6 0 (Some (mem_of_list [170; 187])) 2 zeros 64 H1 H2 H3 H4).
Defined.
